(** * OmniReach dashboard: the handlers of the React front end

    Every component of the front end is a view wrapper around calls to a REST
    backend.  This development embeds the event handlers of the components
    (the functions that issue HTTP requests, show toasts and write React
    state) as computations that emit a trace of effects, and proves or
    refutes the properties the specification states about them.

    Sources embedded here (one React module each):
    - [unnamed/part_002]                      App.js (current)
    - [frontend/src/LeadPersonaPanel.js]      LeadPersonaPanel, the
                                              CampaignBuilderV2 tabs, and an
                                              earlier App.js
    - [frontend/src/AIAgentStudio.js]
    - [frontend/src/CampaignBuilderV2.js]
    - [frontend/src/PerContactMessagePreview.js]
    - [unnamed/part_000]                      CampaignBuilder (first version),
                                              AIAgentProfileManager
    - [unnamed/part_001], [test_result.md]    CampaignBuilder (later versions)
    - [unnamed/part_003]                      CampaignsV2Page,
                                              PhantombusterImport
    - [unnamed/part_004]                      BulkLeadEnrichment *)

From Stdlib Require Import ZArith Ascii String List Lia Bool Permutation.
From stdpp Require Import base strings list gmap pretty.

Open Scope string_scope.
Open Scope Z_scope.
Open Scope list_scope.
Set Warnings "-register-all".

(* ================================================================== *)
(** * JavaScript values *)
(* ================================================================== *)

(** JSON-like values.  Numbers are the integers (the handlers only count,
    compare and print them); strings are sequences of 8-bit code units. *)
Inductive json : Type :=
| JUndef
| JNull
| JBool (b : bool)
| JNum (n : Z)
| JStr (s : string)
| JArr (items : list json)
| JObj (fields : list (string * json)).

(** An object literal [{ k1: v1, ... }] keeps its keys in insertion order. *)
Fixpoint assoc (k : string) (fs : list (string * json)) : option json :=
  match fs with
  | [] => None
  | (k', v) :: fs' => if String.eqb k k' then Some v else assoc k fs'
  end.

(** ToBoolean. *)
Definition truthy (v : json) : bool :=
  match v with
  | JUndef | JNull => false
  | JBool b => b
  | JNum n => negb (n =? 0)
  | JStr s => negb (String.eqb s "")
  | JArr _ | JObj _ => true
  end.

(** ToString, as used by template literals and string concatenation. *)
Fixpoint to_str (v : json) : string :=
  match v with
  | JUndef => "undefined"
  | JNull => "null"
  | JBool true => "true"
  | JBool false => "false"
  | JNum n => pretty n
  | JStr s => s
  | JArr items =>
      (fix join (l : list json) : string :=
         match l with
         | [] => ""
         | x :: r =>
             let sx := match x with JUndef | JNull => "" | _ => to_str x end in
             match r with [] => sx | _ :: _ => sx +:+ "," +:+ join r end
         end) items
  | JObj _ => "[object Object]"
  end.

(** [v.k]: [None] stands for the TypeError raised on [null] and
    [undefined]. *)
Definition get (k : string) (v : json) : option json :=
  match v with
  | JUndef | JNull => None
  | JObj fs => Some (default JUndef (assoc k fs))
  | JArr items =>
      Some (if String.eqb k "length" then JNum (Z.of_nat (length items)) else JUndef)
  | JStr s =>
      Some (if String.eqb k "length" then JNum (Z.of_nat (String.length s)) else JUndef)
  | JBool _ | JNum _ => Some JUndef
  end.

(** [v?.k] *)
Definition getq (k : string) (v : json) : json :=
  default JUndef (get k v).
Arguments getq k v /.

(** [a || b] *)
Definition js_or (a b : json) : json := if truthy a then a else b.

(** [a === b] on primitives; two decoded objects or arrays are never the
    same reference. *)
Definition strict_eq (a b : json) : bool :=
  match a, b with
  | JUndef, JUndef | JNull, JNull => true
  | JBool x, JBool y => Bool.eqb x y
  | JNum x, JNum y => x =? y
  | JStr x, JStr y => String.eqb x y
  | _, _ => false
  end.

Definition is_str (v : json) (s : string) : bool := strict_eq v (JStr s).

(* ================================================================== *)
(** * Strings *)
(* ================================================================== *)

Definition code (c : ascii) : N := N_of_ascii c.

(** WhiteSpace and LineTerminator code units below 256, as
    [String.prototype.trim] strips them. *)
Definition is_ws (c : ascii) : bool :=
  let n := code c in
  ((9 <=? n) && (n <=? 13) || (n =? 32) || (n =? 160))%N.

Fixpoint trim_start (s : string) : string :=
  match s with
  | EmptyString => EmptyString
  | String c r => if is_ws c then trim_start r else s
  end.

Fixpoint trim_end (s : string) : string :=
  match s with
  | EmptyString => EmptyString
  | String c r =>
      match trim_end r with
      | EmptyString => if is_ws c then EmptyString else String c EmptyString
      | r' => String c r'
      end
  end.

(** [s.trim()] *)
Definition js_trim (s : string) : string := trim_end (trim_start s).

(** [s.split(sep)] for a one-character separator: never the empty list. *)
Fixpoint js_split (sep : ascii) (s : string) : list string :=
  match s with
  | EmptyString => [EmptyString]
  | String c r =>
      if Ascii.eqb c sep then EmptyString :: js_split sep r
      else match js_split sep r with
           | [] => [String c EmptyString]
           | h :: t => String c h :: t
           end
  end.

(** [s.toLowerCase()] on 8-bit code units. *)
Definition lower_char (c : ascii) : ascii :=
  let n := code c in
  if ((65 <=? n) && (n <=? 90) || (192 <=? n) && (n <=? 222) && negb (n =? 215))%N
  then ascii_of_N (n + 32) else c.

Fixpoint toLowerCase (s : string) : string :=
  match s with
  | EmptyString => EmptyString
  | String c r => String (lower_char c) (toLowerCase r)
  end.

(** [s.startsWith(p)] *)
Fixpoint starts_with (p s : string) : bool :=
  match p with
  | EmptyString => true
  | String a p' =>
      match s with
      | EmptyString => false
      | String b s' => Ascii.eqb a b && starts_with p' s'
      end
  end.

(** [hay.includes(needle)] *)
Fixpoint str_includes (needle hay : string) : bool :=
  starts_with needle hay ||
  match hay with
  | EmptyString => false
  | String _ r => str_includes needle r
  end.

Fixpoint ends_with (suffix s : string) : bool :=
  String.eqb s suffix ||
  match s with
  | EmptyString => false
  | String _ r => ends_with suffix r
  end.

(** [name.match(/\.(pdf|docx|txt)$/i)] *)
Definition is_document_name (name : string) : bool :=
  let n := toLowerCase name in
  ends_with ".pdf" n || ends_with ".docx" n || ends_with ".txt" n.

(** The longest prefix without [&]: the capture group [([^&]+)]. *)
Fixpoint until_amp (s : string) : string :=
  match s with
  | EmptyString => EmptyString
  | String c r => if Ascii.eqb c "&" then EmptyString else String c (until_amp r)
  end.

Definition strip_prefix (p s : string) : option string :=
  if starts_with p s
  then Some (String.substring (String.length p) (String.length s - String.length p) s)
  else None.

(** [hash.match(/session_id=([^&]+)/)]: the first capture of the leftmost
    match, if any. *)
Fixpoint match_session_id (hash : string) : option string :=
  match strip_prefix "session_id=" hash with
  | Some rest =>
      match until_amp rest with
      | EmptyString =>
          match hash with
          | EmptyString => None
          | String _ r => match_session_id r
          end
      | cap => Some cap
      end
  | None =>
      match hash with
      | EmptyString => None
      | String _ r => match_session_id r
      end
  end.

Definition hex_digit (n : N) : ascii :=
  ascii_of_N (if (n <? 10)%N then 48 + n else 55 + n).

Definition percent (n : N) : string :=
  String "%" (String (hex_digit (n / 16)) (String (hex_digit (n mod 16)) EmptyString)).

Definition uri_unreserved (c : ascii) : bool :=
  let n := code c in
  ((48 <=? n) && (n <=? 57) || (65 <=? n) && (n <=? 90) || (97 <=? n) && (n <=? 122))%N
  || existsb (Ascii.eqb c) ["-"; "_"; "."; "!"; "~"; "*"; "'"; "("; ")"]%char.

(** [encodeURIComponent]: a code unit of 128 or more is written as its two
    UTF-8 bytes. *)
Fixpoint encodeURIComponent (s : string) : string :=
  match s with
  | EmptyString => EmptyString
  | String c r =>
      let n := code c in
      (if uri_unreserved c then String c EmptyString
       else if (n <? 128)%N then percent n
       else percent (192 + n / 64) +:+ percent (128 + n mod 64))
      +:+ encodeURIComponent r
  end.


(** Decimal integer literals, as ToNumber reads them from a string. *)
Fixpoint digits_value (acc : Z) (s : string) : option Z :=
  match s with
  | EmptyString => Some acc
  | String c r =>
      let n := code c in
      if ((48 <=? n) && (n <=? 57))%N
      then digits_value (10 * acc + Z.of_N (n - 48)) r
      else None
  end.

Definition parse_int (s : string) : option Z :=
  match js_trim s with
  | EmptyString => Some 0
  | String "-" (String c r) => Z.opp <$> digits_value 0 (String c r)
  | String "+" (String c r) => digits_value 0 (String c r)
  | t => digits_value 0 t
  end.

(** ToNumber on the integers; [None] is NaN. *)
Definition to_number (v : json) : option Z :=
  match v with
  | JUndef => None
  | JNull => Some 0
  | JBool b => Some (if b then 1 else 0)
  | JNum n => Some n
  | JStr s => parse_int s
  | JArr _ => parse_int (to_str v)
  | JObj _ => None
  end.

(** [v < n] for a number [n]. *)
Definition js_lt (v : json) (n : Z) : bool :=
  match to_number v with
  | Some x => x <? n
  | None => false
  end.

(** [v + n] for a number [n]: addition, or concatenation when [v] converts
    to a string. *)
Definition js_plus (v : json) (n : Z) : json :=
  match v with
  | JStr _ | JArr _ | JObj _ => JStr (to_str v +:+ pretty n)
  | _ => match to_number v with
         | Some x => JNum (x + n)
         | None => JUndef  (* NaN: not a value of this model *)
         end
  end.

(** [items.join(sep)] *)
Fixpoint js_join (sep : string) (items : list json) : string :=
  match items with
  | [] => ""
  | x :: r =>
      let sx := match x with JUndef | JNull => "" | _ => to_str x end in
      match r with [] => sx | _ :: _ => sx +:+ sep +:+ js_join sep r end
  end.

(** [{ ...fs, k: v }]: an existing key keeps its place. *)
Fixpoint spread_set (k : string) (v : json) (fs : list (string * json))
  : list (string * json) :=
  match fs with
  | [] => [(k, v)]
  | (k', v') :: r =>
      if String.eqb k k' then (k', v) :: r else (k', v') :: spread_set k v r
  end.

(** The own enumerable properties that [{ ...v }] and a rest pattern copy;
    [None] where destructuring raises ([null], [undefined]). *)
Definition own_props (v : json) : option (list (string * json)) :=
  match v with
  | JUndef | JNull => None
  | JObj fs => Some fs
  | JArr items => Some (imap (fun i x => (pretty i, x)) items)
  | JStr s =>
      Some (imap (fun i c => (pretty i, JStr (String c EmptyString)))
                 (list_ascii_of_string s))
  | JBool _ | JNum _ => Some []
  end.

(** [{ ...v }] never raises. *)
Definition spread (v : json) : list (string * json) :=
  default [] (own_props v).

Definition without (k : string) (fs : list (string * json))
  : list (string * json) :=
  List.filter (fun kv => negb (String.eqb (fst kv) k)) fs.

(** [[...v]]: arrays and strings are iterable; [None] is the TypeError for
    anything else. *)
Definition iterate (v : json) : option (list json) :=
  match v with
  | JArr items => Some items
  | JStr s =>
      Some (List.map (fun c => JStr (String c EmptyString)) (list_ascii_of_string s))
  | _ => None
  end.

(** [items.find(x => p x)], where [p] may raise. *)
Fixpoint js_find (p : json -> option bool) (items : list json) : option json :=
  match items with
  | [] => Some JUndef
  | x :: r =>
      match p x with
      | None => None
      | Some true => Some x
      | Some false => js_find p r
      end
  end.

(** [items.findIndex(x => p x)] *)
Fixpoint js_findIndex (p : json -> option bool) (items : list json) (i : Z)
  : option Z :=
  match items with
  | [] => Some (-1)
  | x :: r =>
      match p x with
      | None => None
      | Some true => Some i
      | Some false => js_findIndex p r (i + 1)
      end
  end.

(** [v[i]] for an array index [i]: an element of an array, a character of
    a string, the property of that name of an object; [None] is the
    TypeError raised on [null] and [undefined]. *)
Definition at_index (i : nat) (v : json) : option json :=
  match v with
  | JUndef | JNull => None
  | JArr items => Some (nth i items JUndef)
  | JStr s =>
      Some (match String.get i s with
            | Some c => JStr (String c EmptyString)
            | None => JUndef
            end)
  | JObj fs => Some (default JUndef (assoc (pretty i) fs))
  | JBool _ | JNum _ => Some JUndef
  end.

(** [target[k] = v] in module code, which is strict: [None] is the
    TypeError raised on [null], [undefined] and on a string, number or
    boolean.  A named property given to an array is not among its
    elements, which is all the values here hold of an array. *)
Definition assign (k : string) (v : json) (target : json) : option json :=
  match target with
  | JObj fs => Some (JObj (spread_set k v fs))
  | JArr items => Some (JArr items)
  | _ => None
  end.

(** The value of [v] once the object or array it holds at index [i], or
    under the key [k], has been changed in place to [x]. *)
Definition with_index (i : nat) (x : json) (v : json) : json :=
  match v with
  | JArr items => JArr (<[i := x]> items)
  | JObj fs => JObj (spread_set (pretty i) x fs)
  | _ => v
  end.

Definition with_field (k : string) (x : json) (v : json) : json :=
  match v with
  | JObj fs => JObj (spread_set k x fs)
  | _ => v
  end.

(* ================================================================== *)
(** * Effects of a handler *)
(* ================================================================== *)

Inductive method := GET | POST | PATCH | DELETE.

(** One axios call.  [rq_path] is the path below [BACKEND_URL]: an instance
    created with [baseURL: API] prefixes [/api] to the url it is given, an
    instance created with [baseURL: BACKEND_URL] is given the whole path.
    [rq_config] holds the third argument ([headers], [params]). *)
Record request := Request {
  rq_method : method;
  rq_path : string;
  rq_body : json;
  rq_config : json
}.

(** How the backend settles a request: the response data, or the fields of
    the error object axios rejects with. *)
Inductive outcome :=
| Resolved (data : json)
| Rejected (error : list (string * json)).

Inductive toast_kind := TSuccess | TError | TInfo.

(** What [localStorage.setItem] stores: a string, or [JSON.stringify v]. *)
Inductive stored := SText (s : string) | SJson (v : json).

Inductive event : Type :=
| EHttp (rq : request) (settled : option outcome)
    (** the request is issued here; [None]: it never settles *)
| EToast (kind : toast_kind) (msg : string)
| ESet (var : string) (v : json)            (** a [useState] setter *)
| ENavigate (to : string)                   (** react-router [navigate] *)
| EStorageSet (key : string) (v : stored)
| EStorageRemove (key : string)
| EConsoleError (msg : string)
| ESpawn (callee : string)
    (** a function of the same component called without [await] *)
| EProp (name : string) (args : list json)  (** a callback received as prop *)
| ESetTimeout (ms : Z) (callback : list event)
| EReplaceState (url : string)              (** [window.history.replaceState] *)
| ELocation (href : string)                 (** [window.location.href = ...] *)
| EConfirm (msg : string) (answer : bool)    (** [window.confirm] *)
| EUnhandledRejection (error : json).

(** A handler is a tree of effects: it returns, throws, emits an effect and
    goes on, awaits a request (and goes on with the response, or with the
    rejection), or issues a request without awaiting it. *)
Inductive prog (A : Type) : Type :=
| Ret (a : A)
| Throw (e : json)
| Emit (ev : event) (k : prog A)
| Await (rq : request) (on_ok : json -> prog A) (on_err : json -> prog A)
| Fire (rq : request) (then_ : list event) (k : prog A).
Arguments Ret {A} a.
Arguments Throw {A} e.
Arguments Emit {A} ev k.
Arguments Await {A} rq on_ok on_err.
Arguments Fire {A} rq then_ k.

Fixpoint bind {A B} (m : prog A) (f : A -> prog B) : prog B :=
  match m with
  | Ret a => f a
  | Throw e => Throw e
  | Emit ev k => Emit ev (bind k f)
  | Await rq ok err => Await rq (fun d => bind (ok d) f) (fun e => bind (err e) f)
  | Fire rq th k => Fire rq th (bind k f)
  end.

(** [try { m } catch (error) { h error }] *)
Fixpoint try_catch {A} (m : prog A) (h : json -> prog A) : prog A :=
  match m with
  | Ret a => Ret a
  | Throw e => h e
  | Emit ev k => Emit ev (try_catch k h)
  | Await rq ok err =>
      Await rq (fun d => try_catch (ok d) h) (fun e => try_catch (err e) h)
  | Fire rq th k => Fire rq th (try_catch k h)
  end.

Declare Scope js_scope.
Delimit Scope js_scope with js.
Notation "x <- m ;; k" := (bind m (fun x => k))
  (at level 100, m at next level, right associativity) : js_scope.
Notation "m ;; k" := (bind m (fun _ => k))
  (at level 100, right associativity) : js_scope.
Notation "'try' m 'catch' h" := (try_catch m h)
  (at level 100, m at level 200, h at level 9) : js_scope.
Open Scope js_scope.

Definition type_error : json := JObj [("name", JStr "TypeError")].

Definition emit (ev : event) : prog unit := Emit ev (Ret tt).

(** [await api.<method>(...)]: the response object, or the rejection thrown. *)
Definition await_http (rq : request) : prog json :=
  Await rq (fun d => Ret (JObj [("data", d)])) (fun e => Throw e).

(** [api.<method>(...).then(f)] without [await] and without [catch];
    [then_] is what [f] does once the request has resolved. *)
Definition fire_http (rq : request) (then_ : list event) : prog unit :=
  Fire rq then_ (Ret tt).

(** Property access that raises on [null] and [undefined]. *)
Definition prop (v : json) (k : string) : prog json :=
  match get k v with
  | Some x => Ret x
  | None => Throw type_error
  end.
Arguments prop v k /.

Definition toast_success (msg : string) : prog unit := emit (EToast TSuccess msg).
Definition toast_error (msg : string) : prog unit := emit (EToast TError msg).
Definition toast_info (msg : string) : prog unit := emit (EToast TInfo msg).
Definition set_state (var : string) (v : json) : prog unit := emit (ESet var v).
Definition navigate (to : string) : prog unit := emit (ENavigate to).
Definition console_error (msg : string) : prog unit := emit (EConsoleError msg).
Definition spawn (callee : string) : prog unit := emit (ESpawn callee).
Definition call_prop (name : string) (args : list json) : prog unit :=
  emit (EProp name args).
(** [if (cb) cb()] *)
Definition call_prop_if (given : bool) (name : string) : prog unit :=
  if given then call_prop name [] else Ret tt.
Arguments call_prop_if given name /.

(** [for (const x of xs) { await body x }] *)
Fixpoint for_each {A} (xs : list A) (body : A -> prog unit) : prog unit :=
  match xs with
  | [] => Ret tt
  | x :: r => body x ;; for_each r body
  end.

(** ** Running a handler

    The backend is a list of outcomes, consumed in the order the requests
    are issued; when it is exhausted the next request never settles. *)

(** A run ends with a value, with an exception that nothing caught (an async
    handler then returns a rejected promise), or waits forever. *)
Inductive result (A : Type) : Type :=
| Val (a : A)
| Exn (e : json)
| Hang.
Arguments Val {A} a.
Arguments Exn {A} e.
Arguments Hang {A}.

Definition fired (rq : request) (then_ : list event) (o : list outcome)
  : list event :=
  match o with
  | [] => [EHttp rq None]
  | Resolved d :: _ => EHttp rq (Some (Resolved d)) :: then_
  | Rejected e :: _ =>
      [EHttp rq (Some (Rejected e)); EUnhandledRejection (JObj e)]
  end.
Arguments fired rq then_ o /.

Fixpoint trace {A} (m : prog A) (o : list outcome) : list event :=
  match m with
  | Ret _ | Throw _ => []
  | Emit ev k => ev :: trace k o
  | Await rq ok err =>
      match o with
      | [] => [EHttp rq None]
      | Resolved d :: o' => EHttp rq (Some (Resolved d)) :: trace (ok d) o'
      | Rejected e :: o' => EHttp rq (Some (Rejected e)) :: trace (err (JObj e)) o'
      end
  | Fire rq th k => fired rq th o ++ trace k (tl o)
  end.

Fixpoint outcome_of {A} (m : prog A) (o : list outcome) : result A :=
  match m with
  | Ret a => Val a
  | Throw e => Exn e
  | Emit _ k => outcome_of k o
  | Await rq ok err =>
      match o with
      | [] => Hang
      | Resolved d :: o' => outcome_of (ok d) o'
      | Rejected e :: o' => outcome_of (err (JObj e)) o'
      end
  | Fire _ _ k => outcome_of k (tl o)
  end.

(** The two axios instances of the repository. *)
Definition API : string := "/api".
Definition API_V2 : string := "/api/v2/campaigns".

(** [axios.create({ baseURL: API })] *)
Definition api (m : method) (url : string) (body : json) : prog json :=
  await_http (Request m (API +:+ url) body JUndef).
Definition api_cfg (m : method) (url : string) (body config : json) : prog json :=
  await_http (Request m (API +:+ url) body config).
(** [axios.create({ baseURL: BACKEND_URL })] *)
Definition api0 (m : method) (path : string) (body : json) : prog json :=
  await_http (Request m path body JUndef).
Definition api0_cfg (m : method) (path : string) (body config : json) : prog json :=
  await_http (Request m path body config).

(** [new FormData()] with one [file] part. *)
Definition form_data (file : json) : json := JObj [("file", file)].
Definition multipart : json :=
  JObj [("headers", JObj [("Content-Type", JStr "multipart/form-data")])].

(** [throw] when a pure helper raised. *)
Definition lift {A} (x : option A) : prog A :=
  match x with
  | Some a => Ret a
  | None => Throw type_error
  end.
Arguments lift {A} x /.

Definition obj_str (fs : list (string * string)) : json :=
  JObj (List.map (fun kv => (fst kv, JStr (snd kv))) fs).

(* ================================================================== *)
(** * App.js ([unnamed/part_002]; an earlier copy is in
      [frontend/src/LeadPersonaPanel.js] from line 802) *)
(* ================================================================== *)

Module App.

(** ** LandingPage *)

(** [handleLogin] (part_002:33). *)
Definition handleLogin (origin : string) : prog unit :=
  let redirectUrl := origin +:+ "/dashboard" in
  emit (ELocation ("https://auth.emergentagent.com/?redirect="
                   +:+ encodeURIComponent redirectUrl)).

(** ** AuthHandler *)

(** [localStorage.getItem(key)] is a string or [null]; it is truthy when it
    is a non-empty string. *)
Definition has_token (sessionToken : option string) : bool :=
  match sessionToken with
  | Some (String _ _) => true
  | _ => false
  end.

(** [handleAuth] (part_002:111).  [hash] and [pathname] are read from
    [window.location], [sessionToken] from [localStorage]. *)
Definition handleAuth (hash pathname : string) (sessionToken : option string)
  : prog unit :=
  match match_session_id hash with
  | Some sessionId =>
      try (
        response <- api_cfg POST "/auth/session-data" (JObj [])
                      (JObj [("headers", JObj [("X-Session-ID", JStr sessionId)])]) ;;
        data <- prop response "data" ;;
        fs <- lift (own_props data) ;;
        let session_token := default JUndef (assoc "session_token" fs) in
        let userData := JObj (without "session_token" fs) in
        emit (EStorageSet "session_token" (SText (to_str session_token))) ;;
        emit (EStorageSet "user" (SJson userData)) ;;
        emit (EReplaceState pathname) ;;
        toast_success "Welcome back!" ;;
        navigate "/dashboard"
      ) catch (fun error =>
        console_error "Auth error:" ;;
        toast_error "Authentication failed" ;;
        navigate "/")
  | None =>
      if has_token sessionToken then
        try (
          _ <- api GET "/auth/me" JUndef ;;
          navigate "/dashboard"
        ) catch (fun error =>
          emit (EStorageRemove "session_token") ;;
          emit (EStorageRemove "user") ;;
          navigate "/")
      else navigate "/"
  end ;;
  set_state "loading" (JBool false).

(** ** ProtectedRoute *)

(** [checkAuth] (part_002:181). *)
Definition checkAuth (sessionToken : option string) : prog unit :=
  if negb (has_token sessionToken) then
    set_state "isAuthenticated" (JBool false)
  else
    try (
      _ <- api GET "/auth/me" JUndef ;;
      set_state "isAuthenticated" (JBool true)
    ) catch (fun error =>
      emit (EStorageRemove "session_token") ;;
      emit (EStorageRemove "user") ;;
      set_state "isAuthenticated" (JBool false)).

(** ** DashboardLayout *)

(** [handleLogout] (part_002:229). *)
Definition handleLogout : prog unit :=
  (try (_ <- api POST "/auth/logout" JUndef ;; Ret tt)
   catch (fun error => console_error "Logout error:")) ;;
  emit (EStorageRemove "session_token") ;;
  emit (EStorageRemove "user") ;;
  navigate "/".

(** ** Dashboard *)

(** [fetchOverview] (part_002:300). *)
Definition fetchOverview : prog unit :=
  (try (
     response <- api GET "/analytics/overview" JUndef ;;
     data <- prop response "data" ;;
     set_state "overview" data
   ) catch (fun error => toast_error "Failed to load analytics")) ;;
  set_state "loading" (JBool false).

(** ** CampaignsPage *)

Record newCampaignT := {
  nc_name : string;
  nc_goal_type : string;
  nc_target_persona : string
}.

Definition newCampaign_json (c : newCampaignT) : json :=
  obj_str [("name", nc_name c); ("goal_type", nc_goal_type c);
           ("target_persona", nc_target_persona c)].

(** [fetchCampaigns] (part_002:369). *)
Definition fetchCampaigns : prog unit :=
  try (
    response <- api GET "/campaigns" JUndef ;;
    data <- prop response "data" ;;
    set_state "campaigns" data
  ) catch (fun error => toast_error "Failed to load campaigns").

(** [handleCreate] (part_002:378). *)
Definition handleCreate (newCampaign : newCampaignT) : prog unit :=
  if negb (truthy (JStr (nc_name newCampaign))) then
    toast_error "Campaign name is required"
  else
    try (
      response <- api POST "/campaigns" (newCampaign_json newCampaign) ;;
      toast_success "Campaign created!" ;;
      set_state "showCreate" (JBool false) ;;
      set_state "newCampaign"
        (obj_str [("name", ""); ("goal_type", "email"); ("target_persona", "")]) ;;
      data <- prop response "data" ;;
      id <- prop data "id" ;;
      navigate ("/campaigns/" +:+ to_str id +:+ "/edit")
    ) catch (fun error => toast_error "Failed to create campaign").

(** ** LeadsPage *)

Record newLeadT := {
  nl_name : string;
  nl_email : string;
  nl_linkedin_url : string;
  nl_company : string;
  nl_title : string
}.

Definition newLead_json (l : newLeadT) : json :=
  obj_str [("name", nl_name l); ("email", nl_email l);
           ("linkedin_url", nl_linkedin_url l); ("company", nl_company l);
           ("title", nl_title l)].

(** [fetchLeads] (part_002:526; the one of ResearchPage, part_002:867, has
    the same text). *)
Definition fetchLeads : prog unit :=
  try (
    response <- api GET "/leads" JUndef ;;
    data <- prop response "data" ;;
    set_state "leads" data
  ) catch (fun error => toast_error "Failed to load leads").

(** [LeadsPage.handleCreate] (part_002:535). *)
Definition handleCreateLead (newLead : newLeadT) : prog unit :=
  try (
    _ <- api POST "/leads" (newLead_json newLead) ;;
    toast_success "Lead added!" ;;
    set_state "showCreate" (JBool false) ;;
    set_state "newLead"
      (obj_str [("name", ""); ("email", ""); ("linkedin_url", "");
                ("company", ""); ("title", "")]) ;;
    spawn "fetchLeads"
  ) catch (fun error => toast_error "Failed to add lead").

(** [handleUpdate] (part_002:547). *)
Definition handleUpdate (editingLead : json) : prog unit :=
  try (
    id <- prop editingLead "id" ;;
    _ <- api PATCH ("/leads/" +:+ to_str id) editingLead ;;
    toast_success "Lead updated!" ;;
    set_state "editingLead" JNull ;;
    spawn "fetchLeads"
  ) catch (fun error => toast_error "Failed to update lead").

(** [handleDelete] (part_002:558); [answer] is what the user replies to the
    confirmation dialog. *)
Definition handleDelete (leadId : json) (answer : bool) : prog unit :=
  emit (EConfirm "Delete this lead?" answer) ;;
  if negb answer then Ret tt
  else
    try (
      _ <- api DELETE ("/leads/" +:+ to_str leadId) JUndef ;;
      toast_success "Lead deleted!" ;;
      set_state "editingLead" JNull ;;
      spawn "fetchLeads"
    ) catch (fun error => toast_error "Failed to delete lead").

(** The array pattern [[name, email, linkedin_url, company, title]]: a
    missing position is [undefined]. *)
Definition field (fields : list string) (i : nat) : json :=
  match nth_error fields i with
  | Some s => JStr s
  | None => JUndef
  end.

(** One CSV line of [handleImport] (part_002:575-577). *)
Definition parse_line (line : string) : json :=
  let fields := List.map js_trim (js_split "," line) in
  JObj [("name", field fields 0); ("email", field fields 1);
        ("linkedin_url", field fields 2); ("company", field fields 3);
        ("title", field fields 4)].

Definition newline : ascii := "010"%char.

(** [leads] of [handleImport] (part_002:574-578). *)
Definition import_rows (importText : string) : list json :=
  let lines := js_split newline (js_trim importText) in
  List.filter (fun lead => truthy (getq "name" lead))
              (List.map parse_line (tl lines)).

(** [handleImport] (part_002:571). *)
Definition handleImport (importText : string) : prog unit :=
  try (
    let leads := import_rows importText in
    response <- api POST "/leads/import" (JObj [("leads", JArr leads)]) ;;
    data <- prop response "data" ;;
    count <- prop data "count" ;;
    toast_success ("Imported " +:+ to_str count +:+ " leads!") ;;
    set_state "showImport" (JBool false) ;;
    set_state "importText" (JStr "") ;;
    spawn "fetchLeads"
  ) catch (fun error => toast_error "Failed to import leads").

(** ** AnalyticsPage *)

(** [fetchInsights] (part_002:801). *)
Definition fetchInsights : prog unit :=
  try (
    response <- api GET "/analytics/insights" JUndef ;;
    data <- prop response "data" ;;
    set_state "insights" data
  ) catch (fun error => console_error "Failed to load insights").

(** [generateInsights] (part_002:810); [iso_now k] is what the [k]-th
    [new Date().toISOString()] returns. *)
Definition generateInsights (iso_now : nat -> string) : prog unit :=
  set_state "generating" (JBool true) ;;
  (try (
     response <- api POST "/analytics/insights" (obj_str [("time_period", "week")]) ;;
     data <- prop response "data" ;;
     insights <- prop data "insights" ;;
     items <- lift (match insights with JArr l => Some l | _ => None end) ;;
     set_state "insights"
       (JArr (imap (fun k i =>
                      JObj (spread_set "generated_at" (JStr (iso_now k)) (spread i)))
                   items)) ;;
     toast_success "Insights generated!"
   ) catch (fun error => toast_error "Failed to generate insights")) ;;
  set_state "generating" (JBool false).

(** ** ResearchPage *)

(** [handleResearch] (part_002:876). *)
Definition handleResearch (lead : json) : prog unit :=
  linkedin_url <- prop lead "linkedin_url" ;;
  name <- prop lead "name" ;;
  if negb (truthy linkedin_url) && negb (truthy name) then
    toast_error "Lead needs at least a name to research"
  else
    id <- prop lead "id" ;;
    set_state "researching" id ;;
    (try (
       company <- prop lead "company" ;;
       response <- api POST "/research/persona"
         (JObj [("lead_id", id);
                ("linkedin_url",
                 js_or linkedin_url
                   (JStr ("https://linkedin.com/search?q=" +:+
                          encodeURIComponent
                            (to_str name +:+ " " +:+ to_str company))))]) ;;
       data <- prop response "data" ;;
       persona <- prop data "persona" ;;
       if truthy persona then
         toast_success "Persona generated successfully!" ;;
         spawn "fetchLeads"
       else
         message <- prop data "message" ;;
         toast_error (to_str (js_or message (JStr "Research failed")))
     ) catch (fun error =>
       toast_error "Research failed - check your Perplexity API key in Settings")) ;;
    set_state "researching" JNull.

(** ** SettingsPage *)

Record apiKeysT := {
  ak_perplexity : string;
  ak_openai : string;
  ak_gemini : string;
  ak_resend : string;
  ak_phantombuster : string;
  ak_linkedin_cookie : string
}.

(** [fetchIntegrations] (part_002:988). *)
Definition fetchIntegrations : prog unit :=
  (try (
     response <- api GET "/settings/integrations" JUndef ;;
     data <- prop response "data" ;;
     set_state "integrations" data
   ) catch (fun error => toast_error "Failed to load integrations")) ;;
  set_state "loading" (JBool false).

(** [fetchApiKeys] (part_002:998). *)
Definition fetchApiKeys : prog unit :=
  try (
    response <- api GET "/settings/api-keys" JUndef ;;
    data <- prop response "data" ;;
    perplexity <- prop data "perplexity_configured" ;;
    openai <- prop data "openai_configured" ;;
    gemini <- prop data "gemini_configured" ;;
    resend <- prop data "resend_configured" ;;
    set_state "showApiKeys" (js_or perplexity (js_or openai (js_or gemini resend)))
  ) catch (fun error => console_error "Failed to load API keys").

(** [key || undefined] *)
Definition or_undefined (s : string) : json := js_or (JStr s) JUndef.

(** [saveApiKeys] (part_002:1012). *)
Definition saveApiKeys (apiKeys : apiKeysT) : prog unit :=
  try (
    let payload :=
      JObj [("perplexity_key", or_undefined (ak_perplexity apiKeys));
            ("openai_key", or_undefined (ak_openai apiKeys));
            ("gemini_key", or_undefined (ak_gemini apiKeys));
            ("resend_key", or_undefined (ak_resend apiKeys));
            ("phantombuster_key", or_undefined (ak_phantombuster apiKeys))] in
    _ <- api POST "/settings/api-keys" payload ;;
    toast_success "API keys saved!" ;;
    set_state "apiKeys"
      (obj_str [("perplexity", ""); ("openai", ""); ("gemini", "");
                ("resend", ""); ("phantombuster", "")]) ;;
    spawn "fetchIntegrations" ;;
    spawn "fetchApiKeys"
  ) catch (fun error => toast_error "Failed to save API keys").

(** [handleConnectSheets] (part_002:1032). *)
Definition handleConnectSheets (sheetsUrl : string) : prog unit :=
  if negb (truthy (JStr sheetsUrl)) then
    toast_error "Please enter a Google Sheets URL"
  else
    try (
      _ <- api POST "/integrations/google-sheets/connect"
             (obj_str [("spreadsheet_url", sheetsUrl)]) ;;
      toast_success "Google Sheets connected!" ;;
      set_state "sheetsUrl" (JStr "") ;;
      spawn "fetchIntegrations"
    ) catch (fun error => toast_error "Failed to connect Google Sheets").

(** [handleSyncSheets] (part_002:1048). *)
Definition handleSyncSheets : prog unit :=
  set_state "syncing" (JBool true) ;;
  (try (
     response <- api POST "/integrations/google-sheets/sync" JUndef ;;
     data <- prop response "data" ;;
     n <- prop data "synced_leads" ;;
     toast_success ("Synced " +:+ to_str n +:+ " leads")
   ) catch (fun error => toast_error "Sync failed")) ;;
  set_state "syncing" (JBool false).

(** ** MessagesPage *)

(** [fetchMessages] (part_002:1300). *)
Definition fetchMessages (filter : string) : prog unit :=
  try (
    let params :=
      if negb (String.eqb filter "all") then obj_str [("direction", filter)]
      else JObj [] in
    response <- api_cfg GET "/messages" JUndef (JObj [("params", params)]) ;;
    data <- prop response "data" ;;
    set_state "messages" data
  ) catch (fun error => toast_error "Failed to load messages").

(** [handleSendReply] (part_002:1310). *)
Definition handleSendReply (replyText : string) (selectedMessage : json)
  : prog unit :=
  if negb (truthy (JStr (js_trim replyText))) then
    toast_error "Reply cannot be empty"
  else
    set_state "sending" (JBool true) ;;
    (try (
       id <- prop selectedMessage "id" ;;
       _ <- api POST "/messages/reply"
              (JObj [("message_id", id); ("content", JStr replyText)]) ;;
       toast_success "Reply sent!" ;;
       set_state "replyText" (JStr "") ;;
       set_state "selectedMessage" JNull ;;
       spawn "fetchMessages"
     ) catch (fun error => toast_error "Failed to send reply")) ;;
    set_state "sending" (JBool false).

End App.

(** The earlier App.js keeps the handlers above except for the two below
    (and has no [handleUpdate], [handleDelete], SettingsPage or
    MessagesPage). *)
Module AppOld.

Record newCampaignT := {
  nc_name : string;
  nc_target_persona : string
}.

(** [CampaignsPage.handleCreate] (LeadPersonaPanel.js:1169). *)
Definition handleCreate (newCampaign : newCampaignT) : prog unit :=
  try (
    _ <- api POST "/campaigns"
           (obj_str [("name", nc_name newCampaign);
                     ("target_persona", nc_target_persona newCampaign)]) ;;
    toast_success "Campaign created!" ;;
    set_state "showCreate" (JBool false) ;;
    set_state "newCampaign" (obj_str [("name", ""); ("target_persona", "")]) ;;
    spawn "fetchCampaigns"
  ) catch (fun error => toast_error "Failed to create campaign").

(** [ResearchPage.handleResearch] (LeadPersonaPanel.js:1496). *)
Definition handleResearch (lead : json) : prog unit :=
  linkedin_url <- prop lead "linkedin_url" ;;
  if negb (truthy linkedin_url) then
    toast_error "No LinkedIn URL provided"
  else
    id <- prop lead "id" ;;
    set_state "researching" id ;;
    (try (
       _ <- api POST "/research/persona"
              (JObj [("lead_id", id); ("linkedin_url", linkedin_url)]) ;;
       toast_success "Persona generated!" ;;
       spawn "fetchLeads"
     ) catch (fun error => toast_error "Research failed")) ;;
    set_state "researching" JNull.

End AppOld.

(* ================================================================== *)
(** * AIAgentStudio.js *)
(* ================================================================== *)

Module AIAgentStudio.

(** [fetchConfig] (AIAgentStudio.js:33). *)
Definition fetchConfig : prog unit :=
  (try (
     response <- api GET "/ai-agent/config" JUndef ;;
     data <- prop response "data" ;;
     set_state "config" data
   ) catch (fun error => toast_error "Failed to load AI config")) ;;
  set_state "loading" (JBool false).

(** [fetchUsage] (AIAgentStudio.js:43). *)
Definition fetchUsage : prog unit :=
  try (
    response <- api GET "/ai-agent/usage?days=30" JUndef ;;
    data <- prop response "data" ;;
    set_state "usage" data
  ) catch (fun error => console_error "Failed to load usage").

(** [saveConfig] (AIAgentStudio.js:52). *)
Definition saveConfig (config : json) : prog unit :=
  try (
    _ <- api POST "/ai-agent/config" config ;;
    toast_success "AI Agent configuration saved!" ;;
    set_state "editing" (JBool false) ;;
    spawn "fetchUsage"
  ) catch (fun error => toast_error "Failed to save configuration").

End AIAgentStudio.

(* ================================================================== *)
(** * LeadPersonaPanel ([frontend/src/LeadPersonaPanel.js], lines 1-226) *)
(* ================================================================== *)

Module LeadPersonaPanel.

(** [error.response?.data?.detail || fallback] *)
Definition detail_or (error : json) (fallback : string) : prog string :=
  response <- prop error "response" ;;
  Ret (to_str (js_or (getq "detail" (getq "data" response)) (JStr fallback))).

(** [handleRegeneratePersona] (LeadPersonaPanel.js:26); [onUpdate] tells
    whether the prop was given. *)
Definition handleRegeneratePersona (lead : json) (onUpdate : bool) : prog unit :=
  name <- prop lead "name" ;;
  linkedin_url <- prop lead "linkedin_url" ;;
  if negb (truthy name) || negb (truthy linkedin_url) then
    toast_error "Name and LinkedIn URL required for persona generation"
  else
    set_state "regenerating" (JBool true) ;;
    (try (
       id <- prop lead "id" ;;
       _ <- api POST ("/leads/" +:+ to_str id +:+ "/regenerate-persona") JUndef ;;
       toast_success "Persona regeneration started! Check back in 30-60 seconds." ;;
       emit (ESetTimeout 3000 (if onUpdate then [EProp "onUpdate" []] else []))
     ) catch (fun error =>
       msg <- detail_or error "Failed to regenerate" ;;
       toast_error msg)) ;;
    set_state "regenerating" (JBool false).

(** [handleSavePersona] (LeadPersonaPanel.js:46). *)
Definition handleSavePersona (lead : json) (personaText : string)
    (onUpdate : bool) : prog unit :=
  try (
    id <- prop lead "id" ;;
    _ <- api PATCH ("/leads/" +:+ to_str id)
           (obj_str [("persona", personaText); ("persona_status", "completed")]) ;;
    toast_success "Persona updated!" ;;
    set_state "editingPersona" (JBool false) ;;
    call_prop_if onUpdate "onUpdate"
  ) catch (fun error => toast_error "Failed to save persona").

(** [handleGeneratePersona] (LeadPersonaPanel.js:63). *)
Definition handleGeneratePersona (lead : json) (onUpdate : bool) : prog unit :=
  handleRegeneratePersona lead onUpdate.

End LeadPersonaPanel.

(* ================================================================== *)
(** * CampaignBuilderV2_Components ([frontend/src/LeadPersonaPanel.js],
      lines 227-801): axios with [baseURL: BACKEND_URL] *)
(* ================================================================== *)

Module V2Tabs.

(** The file chosen in an [<input type="file">]: [event.target.files[0]]
    is a File with a name, or [undefined]. *)
Definition file_json (name : string) : json := obj_str [("name", name)].

(** *** StepTab *)

(** [handleStepUpdate] (LeadPersonaPanel.js:256). *)
Definition handleStepUpdate (campaign stepNumber : json)
    (field : string) (value : json) : prog unit :=
  try (
    let updates := JObj [(field, value)] in
    id <- prop campaign "id" ;;
    _ <- api0 PATCH (API_V2 +:+ "/" +:+ to_str id +:+ "/steps/" +:+ to_str stepNumber)
           updates ;;
    toast_success "Step updated!" ;;
    call_prop "onUpdate" []
  ) catch (fun error => toast_error "Failed to update step").

(** [handleBestPracticesUpload] (LeadPersonaPanel.js:267). *)
Definition handleBestPracticesUpload (campaign stepNumber : json)
    (file : option string) : prog unit :=
  match file with
  | None => Ret tt
  | Some name =>
      if negb (is_document_name name) then
        toast_error "Only PDF, DOCX, and TXT files supported"
      else
        set_state "uploading" (JBool true) ;;
        (try (
           id <- prop campaign "id" ;;
           _ <- api0_cfg POST
                  (API_V2 +:+ "/" +:+ to_str id +:+ "/steps/" +:+ to_str stepNumber
                   +:+ "/best-practices")
                  (form_data (file_json name)) multipart ;;
           toast_success "✅ Best practices uploaded!" ;;
           call_prop "onUpdate" []
         ) catch (fun error => toast_error "Upload failed")) ;;
        set_state "uploading" (JBool false)
  end.

(** *** ReviewMessagesTab *)

(** [generateTestMessages] (LeadPersonaPanel.js:451). *)
Definition generateTestMessages (campaign : json) : prog unit :=
  selected <- prop campaign "selected_lead_ids" ;;
  len <- prop selected "length" ;;
  if js_lt len 3 then
    toast_error "Please select at least 3 leads first"
  else
    set_state "generating" (JBool true) ;;
    (try (
       id <- prop campaign "id" ;;
       response <- api0 POST "/api/v2/campaigns/generate-test-messages"
                     (JObj [("campaign_id", id)]) ;;
       data <- prop response "data" ;;
       n <- prop data "messages_generated" ;;
       toast_success ("✨ Generated " +:+ to_str n +:+ " messages for 3 test leads!") ;;
       call_prop "onUpdate" []
     ) catch (fun error => toast_error "Failed to generate messages")) ;;
    set_state "generating" (JBool false).

(** [generateBulkMessages] (LeadPersonaPanel.js:471). *)
Definition generateBulkMessages (campaign : json) : prog unit :=
  approved <- prop campaign "test_approved" ;;
  if negb (truthy approved) then
    toast_error "Please approve test phase first"
  else
    set_state "generating" (JBool true) ;;
    (try (
       id <- prop campaign "id" ;;
       response <- api0 POST "/api/v2/campaigns/generate-bulk-messages"
                     (JObj [("campaign_id", id)]) ;;
       data <- prop response "data" ;;
       n <- prop data "messages_generated" ;;
       toast_success ("✨ Generated " +:+ to_str n +:+ " messages for all leads!") ;;
       call_prop "onUpdate" []
     ) catch (fun error => toast_error "Failed to generate messages")) ;;
    set_state "generating" (JBool false).

(** [approveTestPhase] (LeadPersonaPanel.js:491). *)
Definition approveTestPhase (campaign : json) : prog unit :=
  try (
    id <- prop campaign "id" ;;
    _ <- api0 POST (API_V2 +:+ "/" +:+ to_str id +:+ "/approve-test") JUndef ;;
    toast_success "✅ Test phase approved! Ready for bulk generation." ;;
    call_prop "onUpdate" []
  ) catch (fun error => toast_error "Failed to approve").

(** [regenerateMessage] (LeadPersonaPanel.js:501). *)
Definition regenerateMessage (messageId : json) : prog unit :=
  try (
    _ <- api0 POST ("/api/v2/campaigns/regenerate-message/" +:+ to_str messageId)
           JUndef ;;
    toast_success "✨ Message regenerated!" ;;
    call_prop "onUpdate" []
  ) catch (fun error => toast_error "Failed to regenerate").

(** [updateMessage] (LeadPersonaPanel.js:511). *)
Definition updateMessage (messageId updates : json) : prog unit :=
  try (
    _ <- api0 PATCH ("/api/v2/campaigns/messages/" +:+ to_str messageId) updates ;;
    toast_success "Message updated!" ;;
    set_state "editingMessage" JNull ;;
    call_prop "onUpdate" []
  ) catch (fun error => toast_error "Failed to update").

(** *** ScheduleTab *)

(** [handleSave] (LeadPersonaPanel.js:695). *)
Definition handleSave (campaign schedule : json) : prog unit :=
  try (
    id <- prop campaign "id" ;;
    _ <- api0 PATCH (API_V2 +:+ "/" +:+ to_str id) (JObj [("schedule", schedule)]) ;;
    toast_success "Schedule saved!" ;;
    call_prop "onUpdate" []
  ) catch (fun error => toast_error "Failed to save schedule").

(** [handleActivate] (LeadPersonaPanel.js:705). *)
Definition handleActivate (campaign schedule : json) : prog unit :=
  approved <- prop campaign "test_approved" ;;
  if negb (truthy approved) then
    toast_error "Please approve test phase and generate all messages first"
  else
    start_date <- prop schedule "start_date" ;;
    if negb (truthy start_date) then
      toast_error "Please set a start date"
    else
      try (
        id <- prop campaign "id" ;;
        _ <- api0 POST (API_V2 +:+ "/" +:+ to_str id +:+ "/activate") JUndef ;;
        toast_success "🚀 Campaign activated!" ;;
        call_prop "onUpdate" []
      ) catch (fun error =>
        msg <- LeadPersonaPanel.detail_or error "Failed to activate" ;;
        toast_error msg).

End V2Tabs.

(* ================================================================== *)
(** * CampaignBuilderV2.js: axios with [baseURL: BACKEND_URL] *)
(* ================================================================== *)

Module CampaignBuilderV2.

(** [fetchCampaign] (CampaignBuilderV2.js:40). *)
Definition fetchCampaign (campaignId : string) : prog unit :=
  (try (
     response <- api0 GET (API_V2 +:+ "/" +:+ campaignId) JUndef ;;
     data <- prop response "data" ;;
     set_state "campaign" data ;;
     status <- prop data "status" ;;
     if existsb (strict_eq status) [JStr "test_phase"; JStr "approved"; JStr "active"]
     then spawn "fetchMessages"
     else Ret tt
   ) catch (fun error => toast_error "Failed to load campaign")) ;;
  set_state "loading" (JBool false).

(** [fetchLeads] (CampaignBuilderV2.js:55). *)
Definition fetchLeads : prog unit :=
  try (
    response <- api0 GET "/api/leads" JUndef ;;
    data <- prop response "data" ;;
    set_state "leads" data
  ) catch (fun error => console_error "Failed to load leads").

(** [fetchMessages] (CampaignBuilderV2.js:64). *)
Definition fetchMessages (campaignId : string) : prog unit :=
  try (
    response <- api0 GET (API_V2 +:+ "/" +:+ campaignId +:+ "/messages") JUndef ;;
    data <- prop response "data" ;;
    set_state "messages" data
  ) catch (fun error => console_error "Failed to load messages").

(** [OverviewTab.handleSave] (CampaignBuilderV2.js:195). *)
Definition handleSave (campaign selectedLeads leadLimit : json) : prog unit :=
  try (
    id <- prop campaign "id" ;;
    _ <- api0 PATCH (API_V2 +:+ "/" +:+ to_str id)
           (JObj [("selected_lead_ids", selectedLeads); ("lead_limit", leadLimit)]) ;;
    toast_success "Campaign updated!" ;;
    call_prop "onUpdate" []
  ) catch (fun error => toast_error "Failed to update campaign").

(** [ProductInfoTab.handleFileUpload] (CampaignBuilderV2.js:285). *)
Definition handleFileUpload (campaign : json) (file : option string) : prog unit :=
  match file with
  | None => Ret tt
  | Some name =>
      if negb (is_document_name name) then
        toast_error "Only PDF, DOCX, and TXT files supported"
      else
        set_state "uploading" (JBool true) ;;
        (try (
           id <- prop campaign "id" ;;
           _ <- api0_cfg POST (API_V2 +:+ "/" +:+ to_str id +:+ "/product-info/upload")
                  (form_data (V2Tabs.file_json name)) multipart ;;
           toast_success "✨ Product info extracted with AI!" ;;
           call_prop "onUpdate" []
         ) catch (fun error => toast_error "Upload failed")) ;;
        set_state "uploading" (JBool false)
  end.

End CampaignBuilderV2.

(* ================================================================== *)
(** * PerContactMessagePreview.js *)
(* ================================================================== *)

Module PerContactMessagePreview.

(** [fetchMessages] (PerContactMessagePreview.js:24). *)
Definition fetchMessages (campaign lead : json) : prog unit :=
  (try (
     cid <- prop campaign "id" ;;
     lid <- prop lead "id" ;;
     response <- api GET ("/campaigns/" +:+ to_str cid +:+ "/preview-messages/"
                          +:+ to_str lid) JUndef ;;
     data <- prop response "data" ;;
     messages <- prop data "messages" ;;
     set_state "messages" (js_or messages (JArr []))
   ) catch (fun error => toast_error "Failed to load message preview")) ;;
  set_state "loading" (JBool false).

(** [regenerateStep] (PerContactMessagePreview.js:34). *)
Definition regenerateStep (campaign lead stepNumber : json) : prog unit :=
  set_state "regenerating" stepNumber ;;
  (try (
     cid <- prop campaign "id" ;;
     lid <- prop lead "id" ;;
     _ <- api POST ("/campaigns/" +:+ to_str cid +:+ "/regenerate-message")
            (JObj [("lead_id", lid); ("step_number", stepNumber)]) ;;
     toast_success "Message regenerated!" ;;
     spawn "fetchMessages"
   ) catch (fun error => toast_error "Regeneration failed")) ;;
  set_state "regenerating" JNull.

End PerContactMessagePreview.

(* ================================================================== *)
(** * CampaignsV2Page ([unnamed/part_003], lines 1-176): axios with
      [baseURL: BACKEND_URL] *)
(* ================================================================== *)

Module CampaignsV2Page.

Record newCampaignT := {
  nc_name : string;
  nc_type : string;
  nc_lead_limit : json
}.

(** [fetchCampaigns] (part_003:37). *)
Definition fetchCampaigns : prog unit :=
  (try (
     response <- api0 GET API_V2 JUndef ;;
     data <- prop response "data" ;;
     set_state "campaigns" data
   ) catch (fun error => toast_error "Failed to load campaigns")) ;;
  set_state "loading" (JBool false).

(** [createCampaign] (part_003:47). *)
Definition createCampaign (newCampaign : newCampaignT) : prog unit :=
  if negb (truthy (JStr (nc_name newCampaign))) then
    toast_error "Please enter campaign name"
  else
    try (
      response <- api0 POST API_V2
                    (JObj [("name", JStr (nc_name newCampaign));
                           ("type", JStr (nc_type newCampaign));
                           ("lead_limit", nc_lead_limit newCampaign)]) ;;
      toast_success "Campaign created!" ;;
      set_state "showCreate" (JBool false) ;;
      set_state "newCampaign"
        (JObj [("name", JStr ""); ("type", JStr "email"); ("lead_limit", JNum 100)]) ;;
      data <- prop response "data" ;;
      id <- prop data "id" ;;
      navigate ("/campaigns-v2/" +:+ to_str id)
    ) catch (fun error => toast_error "Failed to create campaign").

(** [deleteCampaign] (part_003:64). *)
Definition deleteCampaign (campaignId : json) (answer : bool) : prog unit :=
  emit (EConfirm "Delete this campaign?" answer) ;;
  if negb answer then Ret tt
  else
    try (
      _ <- api0 DELETE (API_V2 +:+ "/" +:+ to_str campaignId) JUndef ;;
      toast_success "Campaign deleted" ;;
      spawn "fetchCampaigns"
    ) catch (fun error => toast_error "Failed to delete campaign").

End CampaignsV2Page.

(* ================================================================== *)
(** * PhantombusterImport ([unnamed/part_003], lines 294-416) *)
(* ================================================================== *)

Module PhantombusterImport.

(** [fetchAgents] (part_003:323). *)
Definition fetchAgents : prog unit :=
  (try (
     response <- api GET "/phantombuster/agents" JUndef ;;
     data <- prop response "data" ;;
     agents <- prop data "agents" ;;
     set_state "agents" (js_or agents (JArr []))
   ) catch (fun error =>
     toast_error "Failed to load Phantombuster agents. Check API key in Settings.")) ;;
  set_state "loading" (JBool false).

(** [handleImport] (part_003:334). *)
Definition handleImport (agentId : json) (onImportComplete onClose : bool)
  : prog unit :=
  set_state "importing" (JBool true) ;;
  set_state "selectedAgent" agentId ;;
  (try (
     response <- api POST ("/phantombuster/import-leads?agent_id=" +:+ to_str agentId)
                   JUndef ;;
     data <- prop response "data" ;;
     count <- prop data "count" ;;
     toast_success ("Imported " +:+ to_str count +:+ " leads!") ;;
     call_prop_if onImportComplete "onImportComplete" ;;
     call_prop_if onClose "onClose"
   ) catch (fun error =>
     msg <- LeadPersonaPanel.detail_or error "Import failed" ;;
     toast_error msg)) ;;
  set_state "importing" (JBool false) ;;
  set_state "selectedAgent" JNull.

End PhantombusterImport.

(** [v.find], [v.findIndex], [v.join], [v.map] exist on arrays only. *)
Definition as_array (v : json) : option (list json) :=
  match v with
  | JArr items => Some items
  | _ => None
  end.

Definition nl : string := String App.newline EmptyString.

(* ================================================================== *)
(** * CampaignBuilder.js: [unnamed/part_000] (first version),
      [test_result.md] from line 241 and [unnamed/part_001] (later
      versions, which share the text of the handlers below) *)
(* ================================================================== *)

Module CampaignBuilder.

(** One variant of a default step; [now] is the value of [Date.now()]. *)
Definition variant (tag : string) (now : Z) (name : string) (channel : json)
    (subject content : string) : json :=
  JObj [("id", JStr ("var-" +:+ tag +:+ "-" +:+ pretty now));
        ("name", JStr name);
        ("subject", JStr (if is_str channel "email" then subject else ""));
        ("content", JStr content);
        ("percentage", JNum 50)].

Definition default_step (n delay_days : Z) (channel a b : json) : json :=
  JObj [("step_number", JNum n); ("channel", channel);
        ("delay_days", JNum delay_days); ("delay_hours", JNum 0);
        ("variants", JArr [a; b])].

(** [defaultSteps] of part_001:70-137; [now k] is what the [k]-th call of
    [Date.now()] returns. *)
Definition defaultSteps (channel : json) (now : nat -> Z) : list json :=
  [ default_step 1 0 channel
      (variant "1a" (now 0%nat) "Variant A" channel "Quick question, {{first_name}}"
         ("Hi {{first_name}}," +:+ nl +:+ nl +:+
          "I noticed your work at {{company}} and thought this might be relevant."
          +:+ nl +:+ nl +:+ "Best regards"))
      (variant "1b" (now 1%nat) "Variant B" channel "Thought of you, {{first_name}}"
         ("Hello {{first_name}}," +:+ nl +:+ nl +:+
          "Your role as {{job_title}} caught my attention." +:+ nl +:+ nl +:+ "Cheers"));
    default_step 2 3 channel
      (variant "2a" (now 2%nat) "Variant A" channel "Following up"
         ("Hi {{first_name}}," +:+ nl +:+ nl +:+
          "Just following up on my previous message." +:+ nl +:+ nl +:+ "Best"))
      (variant "2b" (now 3%nat) "Variant B" channel "Checking in"
         ("{{first_name}}," +:+ nl +:+ nl +:+
          "Wanted to check if you saw my last message." +:+ nl +:+ nl +:+ "Thanks"));
    default_step 3 5 channel
      (variant "3a" (now 4%nat) "Variant A" channel "Last attempt"
         ("Hi {{first_name}}," +:+ nl +:+ nl +:+
          "This is my final follow-up." +:+ nl +:+ nl +:+ "Regards"))
      (variant "3b" (now 5%nat) "Variant B" channel "Final note"
         ("{{first_name}}," +:+ nl +:+ nl +:+
          "One last message before I close the loop." +:+ nl +:+ nl +:+ "Best")) ].

(** [defaultSteps] of part_000:58-124. *)
Definition defaultSteps0 (channel : json) (now : nat -> Z) : list json :=
  [ default_step 1 0 channel
      (variant "1a" (now 0%nat) "Variant A" channel "Initial outreach"
         ("Hi {{first_name}}," +:+ nl +:+ nl +:+
          "I noticed your work at {{company}}..."))
      (variant "1b" (now 1%nat) "Variant B" channel "Quick question"
         ("Hello {{first_name}}," +:+ nl +:+ nl +:+
          "Your role as {{job_title}} caught my attention..."));
    default_step 2 3 channel
      (variant "2a" (now 2%nat) "Variant A" channel "Following up"
         ("Hi {{first_name}}," +:+ nl +:+ nl +:+
          "I wanted to follow up on my previous message..."))
      (variant "2b" (now 3%nat) "Variant B" channel "Checking in"
         ("{{first_name}}," +:+ nl +:+ nl +:+
          "Just checking if you had a chance to review..."));
    default_step 3 5 channel
      (variant "3a" (now 4%nat) "Variant A" channel "Final follow-up"
         ("Hi {{first_name}}," +:+ nl +:+ nl +:+
          "This is my last attempt to connect..."))
      (variant "3b" (now 5%nat) "Variant B" channel "One more thing"
         ("{{first_name}}," +:+ nl +:+ nl +:+
          "Before I close the loop, I wanted to share...")) ].

Definition steps_path (campaignId : string) : string :=
  "/campaigns/" +:+ campaignId +:+ "/steps".

(** [for (const step of defaultSteps) await api.post(..., step)] *)
Definition post_steps (campaignId : string) (steps : list json) : prog unit :=
  for_each steps (fun step => _ <- api POST (steps_path campaignId) step ;; Ret tt).

Section Closure.
(** What the handlers of one render of the component close over. *)
Variable campaignId : string.        (** [useParams()] *)
Variable initializingSteps : bool.   (** the state variable, as rendered *)
Variable now : nat -> Z.             (** [Date.now()] *)

(** [initializeDefaultSteps] (part_001:65, test_result.md). *)
Definition initializeDefaultSteps (campaignData : json) : prog unit :=
  if initializingSteps then Ret tt
  else
    set_state "initializingSteps" (JBool true) ;;
    channel <- prop campaignData "goal_type" ;;
    (try (
       post_steps campaignId (defaultSteps channel now) ;;
       toast_success "3-step sequence initialized!" ;;
       spawn "fetchCampaign"
     ) catch (fun error =>
       console_error "Failed to initialize steps:" ;;
       toast_error "Failed to initialize sequence")) ;;
    set_state "initializingSteps" (JBool false).

(** [initializeDefaultSteps] (part_000:53). *)
Definition initializeDefaultSteps0 (campaignData : json) : prog unit :=
  if initializingSteps then Ret tt
  else
    set_state "initializingSteps" (JBool true) ;;
    channel <- prop campaignData "goal_type" ;;
    (try (
       post_steps campaignId (defaultSteps0 channel now) ;;
       toast_success "3-step sequence initialized!" ;;
       spawn "fetchCampaign"
     ) catch (fun error => console_error "Failed to initialize steps:")) ;;
    set_state "initializingSteps" (JBool false).

(** [!steps || steps.length === 0] *)
Definition no_steps (steps : json) : bool :=
  negb (truthy steps) || strict_eq (getq "length" steps) (JNum 0).

(** [fetchCampaign] (part_001:45, test_result.md). *)
Definition fetchCampaign : prog unit :=
  (try (
     response <- api GET ("/campaigns/" +:+ campaignId) JUndef ;;
     campaignData <- prop response "data" ;;
     set_state "campaign" campaignData ;;
     name <- prop campaignData "name" ;;
     product_info <- prop campaignData "product_info" ;;
     set_state "campaignEdits"
       (JObj [("name", name); ("product_info", js_or product_info (JObj []))]) ;;
     steps <- prop campaignData "message_steps" ;;
     if no_steps steps && negb initializingSteps
     then initializeDefaultSteps campaignData
     else Ret tt
   ) catch (fun error => toast_error "Failed to load campaign")) ;;
  set_state "loading" (JBool false).

(** [fetchCampaign] (part_000:37). *)
Definition fetchCampaign0 : prog unit :=
  (try (
     response <- api GET ("/campaigns/" +:+ campaignId) JUndef ;;
     data <- prop response "data" ;;
     set_state "campaign" data ;;
     steps <- prop data "message_steps" ;;
     if no_steps steps
     then initializeDefaultSteps0 data
     else Ret tt
   ) catch (fun error => toast_error "Failed to load campaign")) ;;
  set_state "loading" (JBool false).

(** [fetchLeads] (part_000:139, part_001:152). *)
Definition fetchLeads : prog unit :=
  try (
    response <- api GET "/leads" JUndef ;;
    data <- prop response "data" ;;
    set_state "leads" data
  ) catch (fun error => console_error "Failed to load leads").

(** [addStep] (part_000:148, part_001:161). *)
Definition addStep (campaign : json) : prog unit :=
  message_steps <- prop campaign "message_steps" ;;
  let newStepNumber := js_plus (js_or (getq "length" message_steps) (JNum 0)) 1 in
  let blank (tag : string) (k : nat) (name : string) :=
    JObj [("id", JStr ("var-" +:+ tag +:+ "-" +:+ pretty (now k)));
          ("name", JStr name); ("subject", JStr ""); ("content", JStr "")] in
  let step :=
    JObj [("step_number", newStepNumber);
          ("channel", JStr "email");
          ("delay_days", JNum (if strict_eq newStepNumber (JNum 1) then 0 else 2));
          ("variants", JArr [blank "a" 0%nat "Variant A"; blank "b" 1%nat "Variant B"])] in
  try (
    _ <- api POST (steps_path campaignId) step ;;
    toast_success "Step added!" ;;
    spawn "fetchCampaign"
  ) catch (fun error => toast_error "Failed to add step").

(** [saveStep] (part_000:175, part_001:188): "In a full implementation,
    this would update the specific step". *)
Definition saveStep (stepIndex : json) : prog unit :=
  toast_success "Step saved!".

(** [setSchedule] (part_000:180, part_001:193). *)
Definition setSchedule (scheduleData : json) : prog unit :=
  try (
    _ <- api POST ("/campaigns/" +:+ campaignId +:+ "/schedule") scheduleData ;;
    toast_success "Schedule saved!" ;;
    spawn "fetchCampaign"
  ) catch (fun error => toast_error "Failed to save schedule").

(** [errors.join(', ')] *)
Definition joined_errors (data : json) : prog string :=
  errors <- prop data "errors" ;;
  items <- lift (as_array errors) ;;
  Ret (js_join ", " items).

(** [validateCampaign] (part_000:190, part_001:203). *)
Definition validateCampaign : prog unit :=
  try (
    response <- api POST ("/campaigns/" +:+ campaignId +:+ "/validate") JUndef ;;
    data <- prop response "data" ;;
    valid <- prop data "valid" ;;
    if truthy valid then toast_success "Campaign is valid!"
    else
      errors <- joined_errors data ;;
      toast_error ("Validation errors: " +:+ errors)
  ) catch (fun error => toast_error "Validation failed").

(** [activateCampaign] (part_000:203, part_001:216). *)
Definition activateCampaign : prog unit :=
  try (
    response <- api POST ("/campaigns/" +:+ campaignId +:+ "/activate") JUndef ;;
    data <- prop response "data" ;;
    success <- prop data "success" ;;
    if truthy success then
      toast_success "Campaign activated!" ;;
      spawn "fetchCampaign"
    else
      errors <- joined_errors data ;;
      toast_error ("Cannot activate: " +:+ errors)
  ) catch (fun error => toast_error "Failed to activate campaign").

(** [assignLeads] (part_000:217, part_001:230). *)
Definition assignLeads (selectedLeadIds : list json) : prog unit :=
  try (
    _ <- api PATCH ("/campaigns/" +:+ campaignId)
           (JObj [("lead_ids", JArr selectedLeadIds)]) ;;
    toast_success (pretty (length selectedLeadIds) +:+ " leads assigned!") ;;
    spawn "fetchCampaign"
  ) catch (fun error => toast_error "Failed to assign leads").

(** [LeadsAssigner.handleAssign] (part_001:1011): the prop [onAssignLeads]
    is [assignLeads] (part_001:397), which reads its first argument only.
    The promise it returns is dropped and nothing follows the call.  In
    part_000 the button calls [onAssignLeads(selectedLeads)] itself
    (part_000:510). *)
Definition handleAssign (selectedLeads : list json) (leadLimit : json) : prog unit :=
  assignLeads selectedLeads.

(** [saveCampaignEdits] (part_001:240). *)
Definition saveCampaignEdits (campaignEdits : json) : prog unit :=
  try (
    _ <- api PATCH ("/campaigns/" +:+ campaignId) campaignEdits ;;
    toast_success "Campaign updated!" ;;
    set_state "editingCampaign" (JBool false) ;;
    spawn "fetchCampaign"
  ) catch (fun error => toast_error "Failed to update campaign").

(** [generateAIMessage] (part_001:251). *)
Definition generateAIMessage (stepNumber variantName leadId : json) : prog json :=
  try (
    response <- api POST "/campaigns/generate-message"
                  (JObj [("campaign_id", JStr campaignId);
                         ("step_number", stepNumber);
                         ("lead_id", leadId);
                         ("variant_name", variantName)]) ;;
    toast_success "AI message generated!" ;;
    prop response "data"
  ) catch (fun error =>
    toast_error "AI generation failed" ;;
    Ret JNull).

(** [generateAllMessages] (part_001:268). *)
Definition generateAllMessages : prog unit :=
  set_state "generatingAll" (JBool true) ;;
  (try (
     response <- api POST ("/campaigns/" +:+ campaignId +:+ "/generate-all-messages")
                   (JObj [("campaign_id", JStr campaignId);
                          ("generate_variants", JBool true)]) ;;
     data <- prop response "data" ;;
     total <- prop data "total" ;;
     toast_success ("Generated " +:+ to_str total +:+ " messages with AI scoring!") ;;
     spawn "fetchCampaign"
   ) catch (fun error => toast_error "Bulk generation failed")) ;;
  set_state "generatingAll" (JBool false).

(** The Pause button (part_000:256, part_001:312):
    [api.patch(...).then(fetchCampaign)]. *)
Definition pause : prog unit :=
  fire_http (Request PATCH (API +:+ "/campaigns/" +:+ campaignId)
               (obj_str [("status", "paused")]) JUndef)
            [ESpawn "fetchCampaign"].

(** [onSelectProfile] (part_001:356). *)
Definition onSelectProfile (profileId : json) : prog unit :=
  fire_http (Request PATCH (API +:+ "/campaigns/" +:+ campaignId)
               (JObj [("agent_profile_id", profileId)]) JUndef) [] ;;
  spawn "fetchCampaign" ;;
  toast_success "Agent profile linked!".

(** [StepsBuilder.handleAIGenerate] (part_001:676); the props
    [generateAIMessage] and [onUpdateVariant] are the functions of
    CampaignBuilder (part_001:376-383). *)
Definition handleAIGenerate (campaign leads : json)
    (stepNumber variantIndex variantName : json) : prog unit :=
  items <- lift (as_array leads) ;;
  leadWithPersona <- lift (js_find (fun l => truthy <$> get "persona" l) items) ;;
  if negb (truthy leadWithPersona) then
    toast_error "Please research at least one lead persona first (Research page)"
  else
    product_info <- prop campaign "product_info" ;;
    if negb (truthy product_info) || negb (truthy (getq "name" product_info)) then
      toast_error "Please add product information first (Product Info tab)"
    else
      set_state "generatingAI"
        (JStr (to_str stepNumber +:+ "-" +:+ to_str variantIndex)) ;;
      leadId <- prop leadWithPersona "id" ;;
      result <- generateAIMessage stepNumber variantName leadId ;;
      (if truthy result then
         message_steps <- prop campaign "message_steps" ;;
         steps <- lift (as_array (js_or message_steps (JArr []))) ;;
         stepIndex <- lift (js_findIndex
                              (fun s => (fun n => strict_eq n stepNumber)
                                          <$> get "step_number" s)
                              steps 0) ;;
         if stepIndex =? -1 then Ret tt
         else
           content <- prop result "content" ;;
           call_prop "onUpdateVariant"
             [JNum stepIndex; variantIndex; JStr "content"; content] ;;
           subject <- prop result "subject" ;;
           goal_type <- prop campaign "goal_type" ;;
           if truthy subject && is_str goal_type "email" then
             call_prop "onUpdateVariant"
               [JNum stepIndex; variantIndex; JStr "subject"; subject]
           else Ret tt
       else Ret tt) ;;
      set_state "generatingAI" JNull.

End Closure.

(** [updateVariant] (part_000:169, part_001:182); [campaign] is the state
    variable of the same render, the indices are those of the [map] that
    renders the steps and their variants.  The assignment changes the
    variant in place, inside the steps that the copy shares with
    [campaign]; the state is set to the copy. *)
Definition updateVariant (campaign : json) (stepIndex variantIndex : nat)
    (field : string) (value : json) : prog unit :=
  let updatedCampaign := spread campaign in
  let message_steps := default JUndef (assoc "message_steps" updatedCampaign) in
  step <- lift (at_index stepIndex message_steps) ;;
  variants <- prop step "variants" ;;
  variant <- lift (at_index variantIndex variants) ;;
  changed <- lift (assign field value variant) ;;
  set_state "campaign"
    (JObj (spread_set "message_steps"
             (with_index stepIndex
                (with_field "variants" (with_index variantIndex changed variants) step)
                message_steps)
             updatedCampaign)).

(** [StepsBuilder.updateStepTiming] (part_001:706): the delay, the send
    window and the best practices typed into a step are not kept. *)
Definition updateStepTiming (stepIndex : json) (field : string) (value : json)
  : prog unit :=
  toast_info "Step timing update - save to apply".

(** [AgentProfileTab.fetchProfile] (part_001:419). *)
Definition fetchProfile (campaign : json) : prog unit :=
  try (
    response <- api GET "/ai-agent-profiles" JUndef ;;
    data <- prop response "data" ;;
    items <- lift (as_array data) ;;
    profile <- lift (js_find
                       (fun p =>
                          match get "id" p, get "agent_profile_id" campaign with
                          | Some id, Some wanted => Some (strict_eq id wanted)
                          | _, _ => None
                          end)
                       items) ;;
    set_state "currentProfile" profile
  ) catch (fun error => console_error "Failed to load profile").

(** [updateProductInfo] (part_001:498): [productInfo] is
    [campaignEdits.product_info || {}] of the same render. *)
Definition updateProductInfo (campaignEdits : json) (field : string) (value : json)
  : prog unit :=
  let productInfo := js_or (getq "product_info" campaignEdits) (JObj []) in
  set_state "campaignEdits"
    (JObj (spread_set "product_info"
             (JObj (spread_set field value (spread productInfo)))
             (spread campaignEdits))).

(** [ProductInfoEditor.handleFileUpload] (part_001:508). *)
Definition handleFileUpload (campaign campaignEdits : json) (file : option string)
  : prog unit :=
  let productInfo := js_or (getq "product_info" campaignEdits) (JObj []) in
  match file with
  | None => Ret tt
  | Some name =>
      if negb (is_document_name name) then
        toast_error "Only PDF, DOCX, and TXT files supported"
      else
        set_state "uploading" (JBool true) ;;
        (try (
           id <- prop campaign "id" ;;
           response <- api_cfg POST
                         ("/campaigns/" +:+ to_str id +:+ "/upload-product-doc")
                         (form_data (V2Tabs.file_json name)) multipart ;;
           toast_success "Document uploaded and parsed!" ;;
           file_urls <- prop productInfo "file_urls" ;;
           urls <- lift (iterate (js_or file_urls (JArr []))) ;;
           updateProductInfo campaignEdits "file_urls" (JArr (urls ++ [JStr name])) ;;
           data <- prop response "data" ;;
           preview <- prop data "preview" ;;
           updateProductInfo campaignEdits "parsed_content" preview
         ) catch (fun error => toast_error "Upload failed")) ;;
        set_state "uploading" (JBool false)
  end.

(** [CampaignAnalytics.fetchAnalytics] (part_000:547, part_001:1071). *)
Definition fetchAnalytics (campaignId : string) : prog unit :=
  (try (
     response <- api GET ("/campaigns/" +:+ campaignId +:+ "/analytics") JUndef ;;
     data <- prop response "data" ;;
     set_state "analytics" data
   ) catch (fun error => toast_error "Failed to load analytics")) ;;
  set_state "loading" (JBool false).

End CampaignBuilder.

(* ================================================================== *)
(** * AIAgentProfileManager ([unnamed/part_000], lines 611-783) *)
(* ================================================================== *)

Module AIAgentProfileManager.

Record newProfileT := {
  np_name : string;
  np_tone : string;
  np_style : string;
  np_focus : string;
  np_avoid_words : string;
  np_brand_personality : string
}.

(** [fetchProfiles] (part_000:641). *)
Definition fetchProfiles : prog unit :=
  try (
    response <- api GET "/ai-agent-profiles" JUndef ;;
    data <- prop response "data" ;;
    set_state "profiles" data
  ) catch (fun error => console_error "Failed to load profiles").

(** [avoid_words.split(',').map(w => w.trim()).filter(Boolean)] *)
Definition avoid_list (avoid_words : string) : list json :=
  List.map JStr
    (List.filter (fun w => negb (String.eqb w ""))
                 (List.map js_trim (js_split "," avoid_words))).

(** [handleCreate] (part_000:650). *)
Definition handleCreate (newProfile : newProfileT) (onSelect : bool) : prog unit :=
  try (
    let profileData :=
      JObj [("name", JStr (np_name newProfile));
            ("tone", JStr (np_tone newProfile));
            ("style", JStr (np_style newProfile));
            ("focus", JStr (np_focus newProfile));
            ("avoid_words", JArr (avoid_list (np_avoid_words newProfile)));
            ("brand_personality", JStr (np_brand_personality newProfile))] in
    response <- api POST "/ai-agent-profiles" profileData ;;
    toast_success "Agent profile created!" ;;
    set_state "creating" (JBool false) ;;
    spawn "fetchProfiles" ;;
    if onSelect then
      data <- prop response "data" ;;
      id <- prop data "id" ;;
      call_prop "onSelect" [id]
    else Ret tt
  ) catch (fun error => toast_error "Failed to create profile").

End AIAgentProfileManager.

(* ================================================================== *)
(** * BulkLeadEnrichment ([unnamed/part_004]) *)
(* ================================================================== *)

Module BulkLeadEnrichment.

(** The callback of [leads.find] (part_004:38-41); [None] where
    [l.name.toLowerCase()] raises. *)
Definition name_matches (name : string) (l : json) : option bool :=
  match get "name" l with
  | Some (JStr lname) =>
      Some (str_includes (toLowerCase name) (toLowerCase lname)
            || str_includes (toLowerCase lname) (toLowerCase name))
  | _ => None
  end.

Record update := {
  up_id : json;
  up_company : string;
  up_title : string
}.

(** The first loop of [handleEnrich] (part_004:33-53). *)
Fixpoint collect_updates (leads : json) (lines : list string)
  : option (list update) :=
  match lines with
  | [] => Some []
  | line :: rest =>
      match List.map js_trim (js_split "|" line) with
      | name :: company :: title :: _ =>
          match as_array leads with
          | None => None
          | Some items =>
              match js_find (name_matches name) items with
              | None => None
              | Some lead =>
                  let found :=
                    if truthy lead
                    then [{| up_id := getq "id" lead; up_company := company;
                             up_title := title |}]
                    else [] in
                  match collect_updates leads rest with
                  | None => None
                  | Some more => Some (found ++ more)
                  end
              end
          end
      | _ => collect_updates leads rest
      end
  end.

(** [handleEnrich] (part_004:25). *)
Definition handleEnrich (leads : json) (enrichmentData : string)
    (onComplete onClose : bool) : prog unit :=
  set_state "processing" (JBool true) ;;
  (try (
     let lines := js_split App.newline (js_trim enrichmentData) in
     updates <- lift (collect_updates leads lines) ;;
     for_each updates (fun u =>
       _ <- api PATCH ("/leads/" +:+ to_str (up_id u))
              (obj_str [("company", up_company u); ("title", up_title u);
                        ("persona_status", "pending")]) ;;
       Ret tt) ;;
     toast_success ("✅ Updated " +:+ pretty (length updates)
                    +:+ " leads! Auto-research starting...") ;;
     call_prop_if onComplete "onComplete" ;;
     call_prop_if onClose "onClose"
   ) catch (fun error => toast_error "Enrichment failed")) ;;
  set_state "processing" (JBool false).

End BulkLeadEnrichment.

(* ================================================================== *)
(** * ScheduleBuilder ([unnamed/part_000], [unnamed/part_001]) *)
(* ================================================================== *)

Module ScheduleBuilder.

(** [days] of [toggleDay]: [includes], [filter] and the spread on what
    [schedule.sending_days] holds.  A string has [includes] (a substring
    test) and can be spread, but has no [filter]; [None] is the
    TypeError. *)
Definition toggled_days (sending_days : json) (day : string) : option (list json) :=
  match sending_days with
  | JArr items =>
      Some (if existsb (fun d => strict_eq d (JStr day)) items
            then List.filter (fun d => negb (strict_eq d (JStr day))) items
            else items ++ [JStr day])
  | JStr s =>
      if str_includes day s then None
      else option_map (fun chars => chars ++ [JStr day]) (iterate sending_days)
  | _ => None
  end.

(** [toggleDay] (part_000:404, part_001:910); [schedule] is the state
    variable of the same render. *)
Definition toggleDay (schedule : json) (day : string) : prog unit :=
  sending_days <- prop schedule "sending_days" ;;
  days <- lift (toggled_days sending_days day) ;;
  set_state "schedule" (JObj (spread_set "sending_days" (JArr days) (spread schedule))).

End ScheduleBuilder.

(* ================================================================== *)
(** * Local state updates *)
(* ================================================================== *)

(** The updater passed to [setSelectedLeads] by [toggleLead]
    (part_000:496, part_001:1003, CampaignBuilderV2.js:208; the three
    texts are the same).  Lead ids are strings (or numbers other than NaN),
    on which [includes] and [!==] decide the same equality. *)
Section ToggleLead.
Context {Id : Type} `{EqDecision Id}.

(** [prev.includes(leadId)] *)
Definition includes (leadId : Id) (prev : list Id) : bool :=
  existsb (fun id => bool_decide (id = leadId)) prev.

Definition toggleLead (leadId : Id) (prev : list Id) : list Id :=
  if includes leadId prev
  then List.filter (fun id => negb (bool_decide (id = leadId))) prev
  else prev ++ [leadId].
End ToggleLead.

(** [toggleLead] as the handler of a lead card (LeadsAssigner, and
    OverviewTab of CampaignBuilderV2): [prev] is the selection the updater
    is applied to.  Lead ids are strings. *)
Module LeadsAssigner.

Definition toggleLead (prev : list string) (leadId : string) : prog unit :=
  set_state "selectedLeads" (JArr (List.map JStr (toggleLead leadId prev))).

End LeadsAssigner.

(** [messagesByLead] of ReviewMessagesTab (LeadPersonaPanel.js:523):
    [messages.reduce((acc, msg) => { ... }, {})]. *)
Section MessagesByLead.
Context {Msg : Type}.
(** [msg.lead_id], as the property key it is used for. *)
Variable lead_id : Msg -> string.

(** The accumulator: the own properties of the object, each holding an
    array of messages.  They are kept in creation order; the order in
    which JS enumerates them (integer-like keys first) is not used. *)
Definition groups := list (string * list Msg).

(** [acc[k]] on own properties. *)
Fixpoint own (k : string) (acc : groups) : option (list Msg) :=
  match acc with
  | [] => None
  | (k', ms) :: rest => if String.eqb k k' then Some ms else own k rest
  end.

(** The messages of one lead, in their order in the list. *)
Definition group_of (k : string) (messages : list Msg) : list Msg :=
  List.filter (fun m => String.eqb (lead_id m) k) messages.

(** What [{}] inherits from [Object.prototype]: [acc[k]] is truthy for
    these keys although [acc] has no such own property. *)
Definition object_prototype_keys : list string :=
  ["constructor"; "__defineGetter__"; "__defineSetter__"; "hasOwnProperty";
   "__lookupGetter__"; "__lookupSetter__"; "isPrototypeOf";
   "propertyIsEnumerable"; "toString"; "valueOf"; "__proto__";
   "toLocaleString"].

Definition inherited (k : string) : bool :=
  existsb (String.eqb k) object_prototype_keys.

(** [if (!acc[k]) acc[k] = []; acc[k].push(msg)] on own properties. *)
Fixpoint push_to (k : string) (msg : Msg) (acc : groups) : groups :=
  match acc with
  | [] => [(k, [msg])]
  | (k', ms) :: rest =>
      if String.eqb k k' then (k', ms ++ [msg]) :: rest
      else (k', ms) :: push_to k msg rest
  end.

(** One call of the reducer; [None] is the TypeError of
    [acc[k].push] when [acc[k]] is an inherited member. *)
Definition reducer (acc : groups) (msg : Msg) : option groups :=
  if inherited (lead_id msg) then None
  else Some (push_to (lead_id msg) msg acc).

Fixpoint reduce (acc : groups) (messages : list Msg) : option groups :=
  match messages with
  | [] => Some acc
  | msg :: rest =>
      match reducer acc msg with
      | Some acc' => reduce acc' rest
      | None => None
      end
  end.

Definition messagesByLead (messages : list Msg) : option groups :=
  reduce [] messages.

(** [acc] groups the messages [seen]: [acc[k]] holds the messages of lead
    [k] in their order, and [k] is an own property once it has a message. *)
Definition groups_of (acc : groups) (seen : list Msg) : Prop :=
  forall k, own k acc = match group_of k seen with
                        | [] => None
                        | ms => Some ms
                        end.
End MessagesByLead.

(* ================================================================== *)
(** * The handlers of the repository *)
(* ================================================================== *)

(** One name per handler text: the named functions of the components that
    an event or an effect calls, and the two inline ones that call axios
    (the Pause button and [onSelectProfile]).  A handler that occurs with
    the same text in several files (the two copies of App.js, the three of
    CampaignBuilder.js) is listed once.  The other inline arrow functions
    of the JSX call a state setter, [navigate] or one of these handlers. *)
Inductive handler : Type :=
(* App.js *)
| LandingPage_handleLogin
| AuthHandler_handleAuth
| ProtectedRoute_checkAuth
| DashboardLayout_handleLogout
| Dashboard_fetchOverview
| CampaignsPage_fetchCampaigns
| CampaignsPage_handleCreate
| CampaignsPage_handleCreate_old
| LeadsPage_fetchLeads
| LeadsPage_handleCreate
| LeadsPage_handleUpdate
| LeadsPage_handleDelete
| LeadsPage_handleImport
| AnalyticsPage_fetchInsights
| AnalyticsPage_generateInsights
| ResearchPage_fetchLeads
| ResearchPage_handleResearch
| ResearchPage_handleResearch_old
| SettingsPage_fetchIntegrations
| SettingsPage_fetchApiKeys
| SettingsPage_saveApiKeys
| SettingsPage_handleConnectSheets
| SettingsPage_handleSyncSheets
| MessagesPage_fetchMessages
| MessagesPage_handleSendReply
(* AIAgentStudio.js *)
| AIAgentStudio_fetchConfig
| AIAgentStudio_fetchUsage
| AIAgentStudio_saveConfig
(* LeadPersonaPanel.js *)
| LeadPersonaPanel_handleRegeneratePersona
| LeadPersonaPanel_handleSavePersona
| LeadPersonaPanel_handleGeneratePersona
(* CampaignBuilderV2_Components *)
| StepTab_handleStepUpdate
| StepTab_handleBestPracticesUpload
| ReviewMessagesTab_generateTestMessages
| ReviewMessagesTab_generateBulkMessages
| ReviewMessagesTab_approveTestPhase
| ReviewMessagesTab_regenerateMessage
| ReviewMessagesTab_updateMessage
| ScheduleTab_handleSave
| ScheduleTab_handleActivate
(* CampaignBuilderV2.js *)
| CampaignBuilderV2_fetchCampaign
| CampaignBuilderV2_fetchLeads
| CampaignBuilderV2_fetchMessages
| OverviewTab_handleSave
| ProductInfoTab_handleFileUpload
(* PerContactMessagePreview.js *)
| PerContactMessagePreview_fetchMessages
| PerContactMessagePreview_regenerateStep
(* CampaignsV2Page, PhantombusterImport *)
| CampaignsV2Page_fetchCampaigns
| CampaignsV2Page_createCampaign
| CampaignsV2Page_deleteCampaign
| PhantombusterImport_fetchAgents
| PhantombusterImport_handleImport
(* CampaignBuilder.js *)
| CampaignBuilder_fetchCampaign
| CampaignBuilder_fetchCampaign0
| CampaignBuilder_initializeDefaultSteps
| CampaignBuilder_initializeDefaultSteps0
| CampaignBuilder_fetchLeads
| CampaignBuilder_addStep
| CampaignBuilder_saveStep
| CampaignBuilder_setSchedule
| CampaignBuilder_validateCampaign
| CampaignBuilder_activateCampaign
| CampaignBuilder_assignLeads
| CampaignBuilder_saveCampaignEdits
| CampaignBuilder_generateAIMessage
| CampaignBuilder_generateAllMessages
| CampaignBuilder_pause
| CampaignBuilder_onSelectProfile
| CampaignBuilder_updateVariant
| StepsBuilder_handleAIGenerate
| StepsBuilder_updateStepTiming
| AgentProfileTab_fetchProfile
| ProductInfoEditor_updateProductInfo
| ProductInfoEditor_handleFileUpload
| ScheduleBuilder_toggleDay
| LeadsAssigner_toggleLead
| LeadsAssigner_handleAssign
| CampaignAnalytics_fetchAnalytics
(* AIAgentProfileManager, BulkLeadEnrichment *)
| AIAgentProfileManager_fetchProfiles
| AIAgentProfileManager_handleCreate
| BulkLeadEnrichment_handleEnrich.

(** What a render of CampaignBuilder closes over: [campaignId], the state
    variable [initializingSteps], and the clock. *)
Definition closure : Type := (string * bool * (nat -> Z))%type.

(** The arguments and the closed-over props and state a handler reads. *)
Definition input (h : handler) : Type :=
  match h with
  | LandingPage_handleLogin => string
  | AuthHandler_handleAuth => string * string * option string
  | ProtectedRoute_checkAuth => option string
  | CampaignsPage_handleCreate => App.newCampaignT
  | CampaignsPage_handleCreate_old => AppOld.newCampaignT
  | LeadsPage_handleCreate => App.newLeadT
  | LeadsPage_handleUpdate => json
  | LeadsPage_handleDelete => json * bool
  | LeadsPage_handleImport => string
  | AnalyticsPage_generateInsights => nat -> string
  | ResearchPage_handleResearch | ResearchPage_handleResearch_old => json
  | SettingsPage_saveApiKeys => App.apiKeysT
  | SettingsPage_handleConnectSheets => string
  | MessagesPage_fetchMessages => string
  | MessagesPage_handleSendReply => string * json
  | AIAgentStudio_saveConfig => json
  | LeadPersonaPanel_handleRegeneratePersona
  | LeadPersonaPanel_handleGeneratePersona => json * bool
  | LeadPersonaPanel_handleSavePersona => json * string * bool
  | StepTab_handleStepUpdate => json * json * string * json
  | StepTab_handleBestPracticesUpload => json * json * option string
  | ReviewMessagesTab_generateTestMessages
  | ReviewMessagesTab_generateBulkMessages
  | ReviewMessagesTab_approveTestPhase
  | ReviewMessagesTab_regenerateMessage => json
  | ReviewMessagesTab_updateMessage => json * json
  | ScheduleTab_handleSave | ScheduleTab_handleActivate => json * json
  | CampaignBuilderV2_fetchCampaign | CampaignBuilderV2_fetchMessages => string
  | OverviewTab_handleSave => json * json * json
  | ProductInfoTab_handleFileUpload => json * option string
  | PerContactMessagePreview_fetchMessages => json * json
  | PerContactMessagePreview_regenerateStep => json * json * json
  | CampaignsV2Page_createCampaign => CampaignsV2Page.newCampaignT
  | CampaignsV2Page_deleteCampaign => json * bool
  | PhantombusterImport_handleImport => json * bool * bool
  | CampaignBuilder_fetchCampaign | CampaignBuilder_fetchCampaign0
  | CampaignBuilder_validateCampaign | CampaignBuilder_activateCampaign
  | CampaignBuilder_generateAllMessages | CampaignBuilder_pause => closure
  | CampaignBuilder_initializeDefaultSteps
  | CampaignBuilder_initializeDefaultSteps0
  | CampaignBuilder_addStep | CampaignBuilder_setSchedule
  | CampaignBuilder_saveCampaignEdits
  | CampaignBuilder_onSelectProfile => closure * json
  | CampaignBuilder_saveStep => json
  | CampaignBuilder_assignLeads => closure * list json
  | CampaignBuilder_generateAIMessage => closure * json * json * json
  | CampaignBuilder_updateVariant => json * nat * nat * string * json
  | StepsBuilder_handleAIGenerate => closure * json * json * json * json * json
  | StepsBuilder_updateStepTiming => json * string * json
  | AgentProfileTab_fetchProfile => json
  | ProductInfoEditor_updateProductInfo => json * string * json
  | ProductInfoEditor_handleFileUpload => json * json * option string
  | ScheduleBuilder_toggleDay => json * string
  | LeadsAssigner_toggleLead => list string * string
  | LeadsAssigner_handleAssign => closure * list json * json
  | CampaignAnalytics_fetchAnalytics => string
  | AIAgentProfileManager_handleCreate => AIAgentProfileManager.newProfileT * bool
  | BulkLeadEnrichment_handleEnrich => json * string * bool * bool
  | _ => unit
  end%type.

Definition void {A} (m : prog A) : prog unit := _ <- m ;; Ret tt.

(** The code of each handler. *)
Definition body (h : handler) : input h -> prog unit :=
  match h as h' return input h' -> prog unit with
  | LandingPage_handleLogin => App.handleLogin
  | AuthHandler_handleAuth =>
      fun '(hash, pathname, token) => App.handleAuth hash pathname token
  | ProtectedRoute_checkAuth => App.checkAuth
  | DashboardLayout_handleLogout => fun _ => App.handleLogout
  | Dashboard_fetchOverview => fun _ => App.fetchOverview
  | CampaignsPage_fetchCampaigns => fun _ => App.fetchCampaigns
  | CampaignsPage_handleCreate => App.handleCreate
  | CampaignsPage_handleCreate_old => AppOld.handleCreate
  | LeadsPage_fetchLeads => fun _ => App.fetchLeads
  | LeadsPage_handleCreate => App.handleCreateLead
  | LeadsPage_handleUpdate => App.handleUpdate
  | LeadsPage_handleDelete => fun '(leadId, answer) => App.handleDelete leadId answer
  | LeadsPage_handleImport => App.handleImport
  | AnalyticsPage_fetchInsights => fun _ => App.fetchInsights
  | AnalyticsPage_generateInsights => App.generateInsights
  | ResearchPage_fetchLeads => fun _ => App.fetchLeads
  | ResearchPage_handleResearch => App.handleResearch
  | ResearchPage_handleResearch_old => AppOld.handleResearch
  | SettingsPage_fetchIntegrations => fun _ => App.fetchIntegrations
  | SettingsPage_fetchApiKeys => fun _ => App.fetchApiKeys
  | SettingsPage_saveApiKeys => App.saveApiKeys
  | SettingsPage_handleConnectSheets => App.handleConnectSheets
  | SettingsPage_handleSyncSheets => fun _ => App.handleSyncSheets
  | MessagesPage_fetchMessages => App.fetchMessages
  | MessagesPage_handleSendReply =>
      fun '(replyText, selectedMessage) => App.handleSendReply replyText selectedMessage
  | AIAgentStudio_fetchConfig => fun _ => AIAgentStudio.fetchConfig
  | AIAgentStudio_fetchUsage => fun _ => AIAgentStudio.fetchUsage
  | AIAgentStudio_saveConfig => AIAgentStudio.saveConfig
  | LeadPersonaPanel_handleRegeneratePersona =>
      fun '(lead, onUpdate) => LeadPersonaPanel.handleRegeneratePersona lead onUpdate
  | LeadPersonaPanel_handleSavePersona =>
      fun '(lead, personaText, onUpdate) =>
        LeadPersonaPanel.handleSavePersona lead personaText onUpdate
  | LeadPersonaPanel_handleGeneratePersona =>
      fun '(lead, onUpdate) => LeadPersonaPanel.handleGeneratePersona lead onUpdate
  | StepTab_handleStepUpdate =>
      fun '(campaign, stepNumber, field, value) =>
        V2Tabs.handleStepUpdate campaign stepNumber field value
  | StepTab_handleBestPracticesUpload =>
      fun '(campaign, stepNumber, file) =>
        V2Tabs.handleBestPracticesUpload campaign stepNumber file
  | ReviewMessagesTab_generateTestMessages => V2Tabs.generateTestMessages
  | ReviewMessagesTab_generateBulkMessages => V2Tabs.generateBulkMessages
  | ReviewMessagesTab_approveTestPhase => V2Tabs.approveTestPhase
  | ReviewMessagesTab_regenerateMessage => V2Tabs.regenerateMessage
  | ReviewMessagesTab_updateMessage =>
      fun '(messageId, updates) => V2Tabs.updateMessage messageId updates
  | ScheduleTab_handleSave =>
      fun '(campaign, schedule) => V2Tabs.handleSave campaign schedule
  | ScheduleTab_handleActivate =>
      fun '(campaign, schedule) => V2Tabs.handleActivate campaign schedule
  | CampaignBuilderV2_fetchCampaign => CampaignBuilderV2.fetchCampaign
  | CampaignBuilderV2_fetchLeads => fun _ => CampaignBuilderV2.fetchLeads
  | CampaignBuilderV2_fetchMessages => CampaignBuilderV2.fetchMessages
  | OverviewTab_handleSave =>
      fun '(campaign, selectedLeads, leadLimit) =>
        CampaignBuilderV2.handleSave campaign selectedLeads leadLimit
  | ProductInfoTab_handleFileUpload =>
      fun '(campaign, file) => CampaignBuilderV2.handleFileUpload campaign file
  | PerContactMessagePreview_fetchMessages =>
      fun '(campaign, lead) => PerContactMessagePreview.fetchMessages campaign lead
  | PerContactMessagePreview_regenerateStep =>
      fun '(campaign, lead, stepNumber) =>
        PerContactMessagePreview.regenerateStep campaign lead stepNumber
  | CampaignsV2Page_fetchCampaigns => fun _ => CampaignsV2Page.fetchCampaigns
  | CampaignsV2Page_createCampaign => CampaignsV2Page.createCampaign
  | CampaignsV2Page_deleteCampaign =>
      fun '(campaignId, answer) => CampaignsV2Page.deleteCampaign campaignId answer
  | PhantombusterImport_fetchAgents => fun _ => PhantombusterImport.fetchAgents
  | PhantombusterImport_handleImport =>
      fun '(agentId, onImportComplete, onClose) =>
        PhantombusterImport.handleImport agentId onImportComplete onClose
  | CampaignBuilder_fetchCampaign =>
      fun '(campaignId, initializing, now) =>
        CampaignBuilder.fetchCampaign campaignId initializing now
  | CampaignBuilder_fetchCampaign0 =>
      fun '(campaignId, initializing, now) =>
        CampaignBuilder.fetchCampaign0 campaignId initializing now
  | CampaignBuilder_initializeDefaultSteps =>
      fun '(campaignId, initializing, now, campaignData) =>
        CampaignBuilder.initializeDefaultSteps campaignId initializing now campaignData
  | CampaignBuilder_initializeDefaultSteps0 =>
      fun '(campaignId, initializing, now, campaignData) =>
        CampaignBuilder.initializeDefaultSteps0 campaignId initializing now campaignData
  | CampaignBuilder_fetchLeads => fun _ => CampaignBuilder.fetchLeads
  | CampaignBuilder_addStep =>
      fun '(campaignId, _, now, campaign) =>
        CampaignBuilder.addStep campaignId now campaign
  | CampaignBuilder_saveStep => CampaignBuilder.saveStep
  | CampaignBuilder_setSchedule =>
      fun '(campaignId, _, _, scheduleData) =>
        CampaignBuilder.setSchedule campaignId scheduleData
  | CampaignBuilder_validateCampaign =>
      fun '(campaignId, _, _) => CampaignBuilder.validateCampaign campaignId
  | CampaignBuilder_activateCampaign =>
      fun '(campaignId, _, _) => CampaignBuilder.activateCampaign campaignId
  | CampaignBuilder_assignLeads =>
      fun '(campaignId, _, _, selectedLeadIds) =>
        CampaignBuilder.assignLeads campaignId selectedLeadIds
  | CampaignBuilder_saveCampaignEdits =>
      fun '(campaignId, _, _, campaignEdits) =>
        CampaignBuilder.saveCampaignEdits campaignId campaignEdits
  | CampaignBuilder_generateAIMessage =>
      fun '(campaignId, _, _, stepNumber, variantName, leadId) =>
        void (CampaignBuilder.generateAIMessage campaignId stepNumber variantName leadId)
  | CampaignBuilder_generateAllMessages =>
      fun '(campaignId, _, _) => CampaignBuilder.generateAllMessages campaignId
  | CampaignBuilder_pause =>
      fun '(campaignId, _, _) => CampaignBuilder.pause campaignId
  | CampaignBuilder_onSelectProfile =>
      fun '(campaignId, _, _, profileId) =>
        CampaignBuilder.onSelectProfile campaignId profileId
  | StepsBuilder_handleAIGenerate =>
      fun '(campaignId, _, _, campaign, leads, stepNumber, variantIndex, variantName) =>
        CampaignBuilder.handleAIGenerate campaignId campaign leads
          stepNumber variantIndex variantName
  | CampaignBuilder_updateVariant =>
      fun '(campaign, stepIndex, variantIndex, field, value) =>
        CampaignBuilder.updateVariant campaign stepIndex variantIndex field value
  | StepsBuilder_updateStepTiming =>
      fun '(stepIndex, field, value) =>
        CampaignBuilder.updateStepTiming stepIndex field value
  | AgentProfileTab_fetchProfile => CampaignBuilder.fetchProfile
  | ProductInfoEditor_updateProductInfo =>
      fun '(campaignEdits, field, value) =>
        CampaignBuilder.updateProductInfo campaignEdits field value
  | ProductInfoEditor_handleFileUpload =>
      fun '(campaign, campaignEdits, file) =>
        CampaignBuilder.handleFileUpload campaign campaignEdits file
  | ScheduleBuilder_toggleDay =>
      fun '(schedule, day) => ScheduleBuilder.toggleDay schedule day
  | LeadsAssigner_toggleLead =>
      fun '(prev, leadId) => LeadsAssigner.toggleLead prev leadId
  | LeadsAssigner_handleAssign =>
      fun '(campaignId, _, _, selectedLeads, leadLimit) =>
        CampaignBuilder.handleAssign campaignId selectedLeads leadLimit
  | CampaignAnalytics_fetchAnalytics => CampaignBuilder.fetchAnalytics
  | AIAgentProfileManager_fetchProfiles => fun _ => AIAgentProfileManager.fetchProfiles
  | AIAgentProfileManager_handleCreate =>
      fun '(newProfile, onSelect) => AIAgentProfileManager.handleCreate newProfile onSelect
  | BulkLeadEnrichment_handleEnrich =>
      fun '(leads, enrichmentData, onComplete, onClose) =>
        BulkLeadEnrichment.handleEnrich leads enrichmentData onComplete onClose
  end.

(* ================================================================== *)
(** * Reading a trace *)
(* ================================================================== *)

Definition is_http (ev : event) : bool :=
  match ev with EHttp _ _ => true | _ => false end.

(** The requests of a trace, in the order they were issued. *)
Fixpoint requests (t : list event) : list request :=
  match t with
  | [] => []
  | EHttp rq _ :: r => rq :: requests r
  | _ :: r => requests r
  end.

Definition rejected (ev : event) : bool :=
  match ev with EHttp _ (Some (Rejected _)) => true | _ => false end.

Definition is_error_toast (ev : event) : bool :=
  match ev with EToast TError _ => true | _ => false end.

Definition is_success_toast (ev : event) : bool :=
  match ev with EToast TSuccess _ => true | _ => false end.

Definition is_navigate (ev : event) : bool :=
  match ev with ENavigate _ => true | _ => false end.

(** Every rejected request of the trace is followed by an error toast. *)
Fixpoint toast_after_failure (t : list event) : bool :=
  match t with
  | [] => true
  | ev :: r =>
      (if rejected ev then existsb is_error_toast r else true)
      && toast_after_failure r
  end.

(** The state variables the components use to mark a request in flight
    ([loading], [sending], ...), or which item it is for ([researching],
    [regenerating], [selectedAgent], [generatingAI]). *)
Definition in_flight_flags : list string :=
  ["loading"; "sending"; "generating"; "regenerating"; "uploading";
   "importing"; "selectedAgent"; "processing"; "generatingAll";
   "initializingSteps"; "syncing"; "researching"; "generatingAI"].

Definition is_flag (x : string) : bool := existsb (String.eqb x) in_flight_flags.

(** The value a flag is reset to: [false] or [null]. *)
Definition is_reset (v : json) : bool :=
  match v with
  | JBool false | JNull => true
  | _ => false
  end.

(** The event leaves React state and [localStorage] alone, or resets a
    flag. *)
Definition quiet (ev : event) : bool :=
  match ev with
  | ESet x v => is_flag x && is_reset v
  | EStorageSet _ _ | EStorageRemove _ => false
  | _ => true
  end.

(** Every rejected request of the trace is followed by quiet events only. *)
Fixpoint quiet_after_failure (t : list event) : bool :=
  match t with
  | [] => true
  | ev :: r =>
      (if rejected ev then forallb quiet r else true) && quiet_after_failure r
  end.

(** ** The state the effects act on *)

Record ui := UI {
  vars : gmap string json;        (** the [useState] variables *)
  storage : gmap string stored    (** [localStorage] *)
}.

Definition apply_event (s : ui) (ev : event) : ui :=
  match ev with
  | ESet x v => UI (<[x := v]> (vars s)) (storage s)
  | EStorageSet k v => UI (vars s) (<[k := v]> (storage s))
  | EStorageRemove k => UI (vars s) (delete k (storage s))
  | _ => s
  end.

Definition run_events (t : list event) (s : ui) : ui :=
  fold_left apply_event t s.

(** [s'] is [s] up to flags that were reset. *)
Definition same_but_flags (s s' : ui) : Prop :=
  storage s' = storage s /\
  forall x : string,
    vars s' !! x = vars s !! x \/
    (is_flag x = true /\ exists v, vars s' !! x = Some v /\ is_reset v = true).

(** The two requests about the session itself: [GET /auth/me] asks whether
    the stored token is still good, [POST /auth/logout] ends the session. *)
Definition session_request (rq : request) : bool :=
  String.eqb (rq_path rq) "/api/auth/me"
  || String.eqb (rq_path rq) "/api/auth/logout".

Definition no_session_request (rq : request) : bool := negb (session_request rq).

(** [s'] is [s] without the stored session: [session_token] and [user] are
    gone from [localStorage], which is otherwise as it was; the state is as
    it was up to flags that were reset and [isAuthenticated], which may
    have been set to [false]. *)
Definition session_removed (s s' : ui) : Prop :=
  storage s' = delete "user" (delete "session_token" (storage s)) /\
  forall x : string,
    vars s' !! x = vars s !! x \/
    (is_flag x = true /\ exists v, vars s' !! x = Some v /\ is_reset v = true) \/
    (x = "isAuthenticated" /\ vars s' !! x = Some (JBool false)).

(** The events remove the stored session and do nothing else to the state
    and to [localStorage]: [session_token] is removed, then [user]; a flag
    may be reset and [isAuthenticated] set to [false].  [removed] counts
    the removals so far. *)
Fixpoint clears_session (removed : nat) (t : list event) : bool :=
  match t with
  | [] => Nat.eqb removed 2
  | EStorageRemove k :: r =>
      match removed with
      | 0%nat => String.eqb k "session_token" && clears_session 1 r
      | 1%nat => String.eqb k "user" && clears_session 2 r
      | _ => false
      end
  | ESet x v :: r =>
      (is_flag x && is_reset v
       || String.eqb x "isAuthenticated" && strict_eq v (JBool false))
      && clears_session removed r
  | EStorageSet _ _ :: _ => false
  | _ :: r => clears_session removed r
  end.

(** After every rejected request of the trace, the stored session is
    removed when it was a session request, and only quiet events follow
    when it was another. *)
Fixpoint settled_after_failure (t : list event) : bool :=
  match t with
  | [] => true
  | ev :: r =>
      match ev with
      | EHttp rq (Some (Rejected _)) =>
          if session_request rq then clears_session 0 r else forallb quiet r
      | _ => true
      end && settled_after_failure r
  end.

(** The state while the session is being removed: [removed] entries are
    gone from [localStorage]. *)
Definition removal_stage (removed : nat) (s0 s : ui) : Prop :=
  storage s = match removed with
              | 0%nat => storage s0
              | 1%nat => delete "session_token" (storage s0)
              | _ => delete "user" (delete "session_token" (storage s0))
              end /\
  forall x : string,
    vars s !! x = vars s0 !! x \/
    (is_flag x = true /\ exists v, vars s !! x = Some v /\ is_reset v = true) \/
    (x = "isAuthenticated" /\ vars s !! x = Some (JBool false)).

(** ** Endpoints *)

(** [p] is [family] or lies below it. *)
Definition in_family (family p : string) : bool :=
  String.eqb p family
  || starts_with (family +:+ "/") p
  || starts_with (family +:+ "?") p.

(** The endpoint families the specification lists. *)
Definition listed_families : list string :=
  ["/api/campaigns"; "/api/leads"; "/api/messages"; "/api/ai-agent-profiles";
   "/api/analytics"; "/api/settings"; "/api/phantombuster";
   "/api/research/persona"].

(** The families the handlers use besides. *)
Definition further_families : list string :=
  ["/api/auth"; "/api/ai-agent"; "/api/integrations/google-sheets";
   "/api/v2/campaigns"].

Definition targets (families : list string) (rq : request) : bool :=
  existsb (fun f => in_family f (rq_path rq)) families.

Definition is_mutation (rq : request) : bool :=
  match rq_method rq with
  | GET => false
  | POST | PATCH | DELETE => true
  end.

(** The requests of a trace that change something. *)
Definition mutations (t : list event) : list request :=
  List.filter is_mutation (requests t).

(** ** How the handlers are classified *)

(** The handlers that keep or drop the session. *)
Definition session_handler (h : handler) : bool :=
  match h with
  | AuthHandler_handleAuth | ProtectedRoute_checkAuth
  | DashboardLayout_handleLogout => true
  | _ => false
  end.

(** The handlers with a request whose failure shows no toast: the catch
    branch logs to the console or clears the session, or the promise has
    no catch at all. *)
Definition silent_on_failure (h : handler) : bool :=
  match h with
  | AuthHandler_handleAuth | ProtectedRoute_checkAuth
  | DashboardLayout_handleLogout
  | AnalyticsPage_fetchInsights | SettingsPage_fetchApiKeys
  | AIAgentStudio_fetchUsage
  | CampaignBuilderV2_fetchLeads | CampaignBuilderV2_fetchMessages
  | CampaignBuilder_fetchLeads
  | CampaignBuilder_initializeDefaultSteps0 | CampaignBuilder_fetchCampaign0
  | CampaignBuilder_pause | CampaignBuilder_onSelectProfile
  | AgentProfileTab_fetchProfile
  | AIAgentProfileManager_fetchProfiles => true
  | _ => false
  end.

(** Neither [null] nor [undefined]. *)
Definition defined (v : json) : bool :=
  match v with
  | JUndef | JNull => false
  | _ => true
  end.

Definition chosen_document (file : option string) : bool :=
  match file with
  | Some name => is_document_name name
  | None => false
  end.

(** The handlers that a click, a keystroke or a chosen file triggers (the
    others load data: they run when the component mounts, or after another
    handler). *)
Definition user_action (h : handler) : bool :=
  match h with
  | AuthHandler_handleAuth | ProtectedRoute_checkAuth
  | Dashboard_fetchOverview | CampaignsPage_fetchCampaigns | LeadsPage_fetchLeads
  | AnalyticsPage_fetchInsights | ResearchPage_fetchLeads
  | SettingsPage_fetchIntegrations | SettingsPage_fetchApiKeys
  | MessagesPage_fetchMessages | AIAgentStudio_fetchConfig
  | AIAgentStudio_fetchUsage | CampaignBuilderV2_fetchCampaign
  | CampaignBuilderV2_fetchLeads | CampaignBuilderV2_fetchMessages
  | PerContactMessagePreview_fetchMessages | CampaignsV2Page_fetchCampaigns
  | PhantombusterImport_fetchAgents | CampaignBuilder_fetchCampaign
  | CampaignBuilder_fetchCampaign0 | CampaignBuilder_initializeDefaultSteps
  | CampaignBuilder_initializeDefaultSteps0 | CampaignBuilder_fetchLeads
  | AgentProfileTab_fetchProfile | CampaignAnalytics_fetchAnalytics
  | AIAgentProfileManager_fetchProfiles => false
  | _ => true
  end.

(** The user actions that only show a toast: what they are named after is
    not done. *)
Definition stub (h : handler) : bool :=
  match h with
  | CampaignBuilder_saveStep | StepsBuilder_updateStepTiming => true
  | _ => false
  end.

(** The user actions that do not call the backend: the four that edit
    what a form holds in React state (a save action sends it), and
    [handleLogin], which leaves for the sign-in page. *)
Definition local_only (h : handler) : bool :=
  match h with
  | LandingPage_handleLogin
  | CampaignBuilder_updateVariant | ProductInfoEditor_updateProductInfo
  | ScheduleBuilder_toggleDay | LeadsAssigner_toggleLead => true
  | _ => false
  end.

(** A state setter, or the assignment to [window.location.href]. *)
Definition is_local_effect (ev : event) : bool :=
  match ev with
  | ESet _ _ | ELocation _ => true
  | _ => false
  end.

(** The input passes the checks the handler makes before its request: the
    confirmation, the presence checks, and the objects it reads exist. *)
Definition lets_through (h : handler) : input h -> bool :=
  match h as h' return input h' -> bool with
  | CampaignsPage_handleCreate => fun nc => truthy (JStr (App.nc_name nc))
  | LeadsPage_handleUpdate => defined
  | LeadsPage_handleDelete => fun '(_, answer) => answer
  | ResearchPage_handleResearch =>
      fun lead => defined lead
                  && (truthy (getq "linkedin_url" lead) || truthy (getq "name" lead))
  | ResearchPage_handleResearch_old =>
      fun lead => defined lead && truthy (getq "linkedin_url" lead)
  | SettingsPage_handleConnectSheets => fun url => truthy (JStr url)
  | MessagesPage_handleSendReply =>
      fun '(replyText, selectedMessage) =>
        truthy (JStr (js_trim replyText)) && defined selectedMessage
  | LeadPersonaPanel_handleRegeneratePersona
  | LeadPersonaPanel_handleGeneratePersona =>
      fun '(lead, _) =>
        defined lead && truthy (getq "name" lead) && truthy (getq "linkedin_url" lead)
  | LeadPersonaPanel_handleSavePersona => fun '(lead, _, _) => defined lead
  | StepTab_handleStepUpdate => fun '(campaign, _, _, _) => defined campaign
  | StepTab_handleBestPracticesUpload =>
      fun '(campaign, _, file) => chosen_document file && defined campaign
  | ReviewMessagesTab_generateTestMessages =>
      fun campaign =>
        defined campaign && defined (getq "selected_lead_ids" campaign)
        && negb (js_lt (getq "length" (getq "selected_lead_ids" campaign)) 3)
  | ReviewMessagesTab_generateBulkMessages =>
      fun campaign => defined campaign && truthy (getq "test_approved" campaign)
  | ReviewMessagesTab_approveTestPhase => defined
  | ScheduleTab_handleSave => fun '(campaign, _) => defined campaign
  | ScheduleTab_handleActivate =>
      fun '(campaign, schedule) =>
        defined campaign && truthy (getq "test_approved" campaign)
        && defined schedule && truthy (getq "start_date" schedule)
  | OverviewTab_handleSave => fun '(campaign, _, _) => defined campaign
  | ProductInfoTab_handleFileUpload =>
      fun '(campaign, file) => chosen_document file && defined campaign
  | PerContactMessagePreview_regenerateStep =>
      fun '(campaign, lead, _) => defined campaign && defined lead
  | CampaignsV2Page_createCampaign =>
      fun nc => truthy (JStr (CampaignsV2Page.nc_name nc))
  | CampaignsV2Page_deleteCampaign => fun '(_, answer) => answer
  | CampaignBuilder_addStep => fun '(_, campaign) => defined campaign
  | StepsBuilder_handleAIGenerate =>
      fun '(_, campaign, leads, _, _, _) =>
        match as_array leads with
        | Some items =>
            match js_find (fun l => truthy <$> get "persona" l) items with
            | Some lead =>
                truthy lead && defined campaign
                && truthy (getq "product_info" campaign)
                && truthy (getq "name" (getq "product_info" campaign))
            | None => false
            end
        | None => false
        end
  | ProductInfoEditor_handleFileUpload =>
      fun '(campaign, _, file) => chosen_document file && defined campaign
  | BulkLeadEnrichment_handleEnrich =>
      fun '(leads, enrichmentData, _, _) =>
        match BulkLeadEnrichment.collect_updates leads
                (js_split App.newline (js_trim enrichmentData)) with
        | Some (_ :: _) => true
        | _ => false
        end
  | _ => fun _ => true
  end.

(** The user actions that, once done, load the data again or call the
    refresh callback they were given. *)
Definition refetches (h : handler) : bool :=
  match h with
  | CampaignsPage_handleCreate_old
  | LeadsPage_handleCreate | LeadsPage_handleUpdate | LeadsPage_handleDelete
  | LeadsPage_handleImport
  | ResearchPage_handleResearch | ResearchPage_handleResearch_old
  | SettingsPage_saveApiKeys | SettingsPage_handleConnectSheets
  | MessagesPage_handleSendReply | AIAgentStudio_saveConfig
  | LeadPersonaPanel_handleSavePersona
  | StepTab_handleStepUpdate | StepTab_handleBestPracticesUpload
  | ReviewMessagesTab_generateTestMessages | ReviewMessagesTab_generateBulkMessages
  | ReviewMessagesTab_approveTestPhase | ReviewMessagesTab_regenerateMessage
  | ReviewMessagesTab_updateMessage
  | ScheduleTab_handleSave | ScheduleTab_handleActivate
  | OverviewTab_handleSave | ProductInfoTab_handleFileUpload
  | PerContactMessagePreview_regenerateStep
  | CampaignsV2Page_deleteCampaign | PhantombusterImport_handleImport
  | CampaignBuilder_addStep | CampaignBuilder_setSchedule
  | CampaignBuilder_activateCampaign | CampaignBuilder_assignLeads
  | CampaignBuilder_saveCampaignEdits | CampaignBuilder_generateAllMessages
  | CampaignBuilder_pause | CampaignBuilder_onSelectProfile
  | LeadsAssigner_handleAssign
  | AIAgentProfileManager_handleCreate | BulkLeadEnrichment_handleEnrich => true
  | _ => false
  end.

(** The refresh callback is an optional prop of three components. *)
Definition callback_given (h : handler) : input h -> bool :=
  match h as h' return input h' -> bool with
  | LeadPersonaPanel_handleSavePersona => fun '(_, _, onUpdate) => onUpdate
  | PhantombusterImport_handleImport => fun '(_, onImportComplete, _) => onImportComplete
  | BulkLeadEnrichment_handleEnrich => fun '(_, _, onComplete, _) => onComplete
  | _ => fun _ => true
  end.

(** A call that loads data again: a [fetch...] function of the component,
    or the refresh callback received as prop. *)
Definition is_refetch (ev : event) : bool :=
  match ev with
  | ESpawn callee => starts_with "fetch" callee
  | EProp name _ =>
      existsb (String.eqb name) ["onUpdate"; "onImportComplete"; "onComplete"]
  | _ => false
  end.

Fixpoint after_first_request (t : list event) : list event :=
  match t with
  | [] => []
  | EHttp _ _ :: r => r
  | _ :: r => after_first_request r
  end.

(** Every request of the trace resolved. *)
Fixpoint all_resolved (t : list event) : bool :=
  match t with
  | [] => true
  | EHttp _ (Some (Resolved _)) :: r => all_resolved r
  | EHttp _ _ :: _ => false
  | _ :: r => all_resolved r
  end.

(** The handlers that check a field for presence before their request, and
    the inputs they turn down for it. *)
Definition checks_presence (h : handler) : bool :=
  match h with
  | CampaignsPage_handleCreate | CampaignsV2Page_createCampaign
  | MessagesPage_handleSendReply | SettingsPage_handleConnectSheets
  | ResearchPage_handleResearch | ResearchPage_handleResearch_old
  | LeadPersonaPanel_handleRegeneratePersona
  | LeadPersonaPanel_handleGeneratePersona
  | ScheduleTab_handleActivate => true
  | _ => false
  end.

Definition required_missing (h : handler) : input h -> bool :=
  match h as h' return input h' -> bool with
  | CampaignsPage_handleCreate => fun nc => String.eqb (App.nc_name nc) ""
  | CampaignsV2Page_createCampaign =>
      fun nc => String.eqb (CampaignsV2Page.nc_name nc) ""
  | MessagesPage_handleSendReply =>
      fun '(replyText, _) => String.eqb (js_trim replyText) ""
  | SettingsPage_handleConnectSheets => fun url => String.eqb url ""
  | ResearchPage_handleResearch =>
      fun lead => defined lead && negb (truthy (getq "linkedin_url" lead))
                  && negb (truthy (getq "name" lead))
  | ResearchPage_handleResearch_old =>
      fun lead => defined lead && negb (truthy (getq "linkedin_url" lead))
  | LeadPersonaPanel_handleRegeneratePersona
  | LeadPersonaPanel_handleGeneratePersona =>
      fun '(lead, _) =>
        defined lead
        && (negb (truthy (getq "name" lead)) || negb (truthy (getq "linkedin_url" lead)))
  | ScheduleTab_handleActivate =>
      fun '(campaign, schedule) =>
        defined campaign && truthy (getq "test_approved" campaign)
        && defined schedule && negb (truthy (getq "start_date" schedule))
  | _ => fun _ => false
  end.

(** The forms that are submitted as they are, whatever was typed in. *)
Definition unchecked_form (h : handler) : bool :=
  match h with
  | LeadsPage_handleCreate | CampaignsPage_handleCreate_old
  | LeadsPage_handleImport | SettingsPage_saveApiKeys
  | AIAgentStudio_saveConfig | AIAgentProfileManager_handleCreate => true
  | _ => false
  end.

(** ** The request of each user action

    What the action sends, as the call of axios in its text has it: the
    method, the path below [BACKEND_URL], the body and the config.  [None]
    for the handlers that load data and for the actions that send
    nothing. *)
Definition action_request (h : handler) : input h -> option request :=
  match h as h' return input h' -> option request with
  | DashboardLayout_handleLogout =>
      fun _ => Some (Request POST "/api/auth/logout" JUndef JUndef)
  | CampaignsPage_handleCreate =>
      fun nc =>
        Some (Request POST "/api/campaigns"
                (JObj [("name", JStr (App.nc_name nc));
                       ("goal_type", JStr (App.nc_goal_type nc));
                       ("target_persona", JStr (App.nc_target_persona nc))])
                JUndef)
  | CampaignsPage_handleCreate_old =>
      fun nc =>
        Some (Request POST "/api/campaigns"
                (JObj [("name", JStr (AppOld.nc_name nc));
                       ("target_persona", JStr (AppOld.nc_target_persona nc))])
                JUndef)
  | LeadsPage_handleCreate =>
      fun nl =>
        Some (Request POST "/api/leads"
                (JObj [("name", JStr (App.nl_name nl));
                       ("email", JStr (App.nl_email nl));
                       ("linkedin_url", JStr (App.nl_linkedin_url nl));
                       ("company", JStr (App.nl_company nl));
                       ("title", JStr (App.nl_title nl))])
                JUndef)
  | LeadsPage_handleUpdate =>
      fun editingLead =>
        Some (Request PATCH ("/api/leads/" +:+ to_str (getq "id" editingLead))
                editingLead JUndef)
  | LeadsPage_handleDelete =>
      fun '(leadId, _) =>
        Some (Request DELETE ("/api/leads/" +:+ to_str leadId) JUndef JUndef)
  | LeadsPage_handleImport =>
      fun importText =>
        Some (Request POST "/api/leads/import"
                (JObj [("leads", JArr (App.import_rows importText))]) JUndef)
  | AnalyticsPage_generateInsights =>
      fun _ =>
        Some (Request POST "/api/analytics/insights"
                (JObj [("time_period", JStr "week")]) JUndef)
  | ResearchPage_handleResearch =>
      fun lead =>
        Some (Request POST "/api/research/persona"
                (JObj [("lead_id", getq "id" lead);
                       ("linkedin_url",
                        js_or (getq "linkedin_url" lead)
                          (JStr ("https://linkedin.com/search?q=" +:+
                                 encodeURIComponent
                                   (to_str (getq "name" lead) +:+ " " +:+
                                    to_str (getq "company" lead)))))])
                JUndef)
  | ResearchPage_handleResearch_old =>
      fun lead =>
        Some (Request POST "/api/research/persona"
                (JObj [("lead_id", getq "id" lead);
                       ("linkedin_url", getq "linkedin_url" lead)])
                JUndef)
  | SettingsPage_saveApiKeys =>
      fun apiKeys =>
        let key (typed : string) : json :=
          if String.eqb typed "" then JUndef else JStr typed in
        Some (Request POST "/api/settings/api-keys"
                (JObj [("perplexity_key", key (App.ak_perplexity apiKeys));
                       ("openai_key", key (App.ak_openai apiKeys));
                       ("gemini_key", key (App.ak_gemini apiKeys));
                       ("resend_key", key (App.ak_resend apiKeys));
                       ("phantombuster_key", key (App.ak_phantombuster apiKeys))])
                JUndef)
  | SettingsPage_handleConnectSheets =>
      fun sheetsUrl =>
        Some (Request POST "/api/integrations/google-sheets/connect"
                (JObj [("spreadsheet_url", JStr sheetsUrl)]) JUndef)
  | SettingsPage_handleSyncSheets =>
      fun _ => Some (Request POST "/api/integrations/google-sheets/sync" JUndef JUndef)
  | MessagesPage_handleSendReply =>
      fun '(replyText, selectedMessage) =>
        Some (Request POST "/api/messages/reply"
                (JObj [("message_id", getq "id" selectedMessage);
                       ("content", JStr replyText)])
                JUndef)
  | AIAgentStudio_saveConfig =>
      fun config => Some (Request POST "/api/ai-agent/config" config JUndef)
  | LeadPersonaPanel_handleRegeneratePersona
  | LeadPersonaPanel_handleGeneratePersona =>
      fun '(lead, _) =>
        Some (Request POST
                ("/api/leads/" +:+ to_str (getq "id" lead) +:+ "/regenerate-persona")
                JUndef JUndef)
  | LeadPersonaPanel_handleSavePersona =>
      fun '(lead, personaText, _) =>
        Some (Request PATCH ("/api/leads/" +:+ to_str (getq "id" lead))
                (JObj [("persona", JStr personaText);
                       ("persona_status", JStr "completed")])
                JUndef)
  | StepTab_handleStepUpdate =>
      fun '(campaign, stepNumber, field, value) =>
        Some (Request PATCH
                ("/api/v2/campaigns/" +:+ to_str (getq "id" campaign)
                 +:+ "/steps/" +:+ to_str stepNumber)
                (JObj [(field, value)]) JUndef)
  | StepTab_handleBestPracticesUpload =>
      fun '(campaign, stepNumber, file) =>
        match file with
        | Some name =>
            Some (Request POST
                    ("/api/v2/campaigns/" +:+ to_str (getq "id" campaign)
                     +:+ "/steps/" +:+ to_str stepNumber +:+ "/best-practices")
                    (JObj [("file", JObj [("name", JStr name)])])
                    (JObj [("headers",
                            JObj [("Content-Type", JStr "multipart/form-data")])]))
        | None => None
        end
  | ReviewMessagesTab_generateTestMessages =>
      fun campaign =>
        Some (Request POST "/api/v2/campaigns/generate-test-messages"
                (JObj [("campaign_id", getq "id" campaign)]) JUndef)
  | ReviewMessagesTab_generateBulkMessages =>
      fun campaign =>
        Some (Request POST "/api/v2/campaigns/generate-bulk-messages"
                (JObj [("campaign_id", getq "id" campaign)]) JUndef)
  | ReviewMessagesTab_approveTestPhase =>
      fun campaign =>
        Some (Request POST
                ("/api/v2/campaigns/" +:+ to_str (getq "id" campaign) +:+ "/approve-test")
                JUndef JUndef)
  | ReviewMessagesTab_regenerateMessage =>
      fun messageId =>
        Some (Request POST
                ("/api/v2/campaigns/regenerate-message/" +:+ to_str messageId)
                JUndef JUndef)
  | ReviewMessagesTab_updateMessage =>
      fun '(messageId, updates) =>
        Some (Request PATCH ("/api/v2/campaigns/messages/" +:+ to_str messageId)
                updates JUndef)
  | ScheduleTab_handleSave =>
      fun '(campaign, schedule) =>
        Some (Request PATCH ("/api/v2/campaigns/" +:+ to_str (getq "id" campaign))
                (JObj [("schedule", schedule)]) JUndef)
  | ScheduleTab_handleActivate =>
      fun '(campaign, _) =>
        Some (Request POST
                ("/api/v2/campaigns/" +:+ to_str (getq "id" campaign) +:+ "/activate")
                JUndef JUndef)
  | OverviewTab_handleSave =>
      fun '(campaign, selectedLeads, leadLimit) =>
        Some (Request PATCH ("/api/v2/campaigns/" +:+ to_str (getq "id" campaign))
                (JObj [("selected_lead_ids", selectedLeads);
                       ("lead_limit", leadLimit)])
                JUndef)
  | ProductInfoTab_handleFileUpload =>
      fun '(campaign, file) =>
        match file with
        | Some name =>
            Some (Request POST
                    ("/api/v2/campaigns/" +:+ to_str (getq "id" campaign)
                     +:+ "/product-info/upload")
                    (JObj [("file", JObj [("name", JStr name)])])
                    (JObj [("headers",
                            JObj [("Content-Type", JStr "multipart/form-data")])]))
        | None => None
        end
  | PerContactMessagePreview_regenerateStep =>
      fun '(campaign, lead, stepNumber) =>
        Some (Request POST
                ("/api/campaigns/" +:+ to_str (getq "id" campaign)
                 +:+ "/regenerate-message")
                (JObj [("lead_id", getq "id" lead); ("step_number", stepNumber)])
                JUndef)
  | CampaignsV2Page_createCampaign =>
      fun nc =>
        Some (Request POST "/api/v2/campaigns"
                (JObj [("name", JStr (CampaignsV2Page.nc_name nc));
                       ("type", JStr (CampaignsV2Page.nc_type nc));
                       ("lead_limit", CampaignsV2Page.nc_lead_limit nc)])
                JUndef)
  | CampaignsV2Page_deleteCampaign =>
      fun '(campaignId, _) =>
        Some (Request DELETE ("/api/v2/campaigns/" +:+ to_str campaignId)
                JUndef JUndef)
  | PhantombusterImport_handleImport =>
      fun '(agentId, _, _) =>
        Some (Request POST
                ("/api/phantombuster/import-leads?agent_id=" +:+ to_str agentId)
                JUndef JUndef)
  | CampaignBuilder_addStep =>
      fun '(campaignId, _, now, campaign) =>
        let number :=
          js_plus (js_or (getq "length" (getq "message_steps" campaign)) (JNum 0)) 1 in
        let blank (id name : string) : json :=
          JObj [("id", JStr id); ("name", JStr name);
                ("subject", JStr ""); ("content", JStr "")] in
        Some (Request POST ("/api/campaigns/" +:+ campaignId +:+ "/steps")
                (JObj [("step_number", number);
                       ("channel", JStr "email");
                       ("delay_days",
                        JNum (if strict_eq number (JNum 1) then 0 else 2));
                       ("variants",
                        JArr [blank ("var-a-" +:+ pretty (now 0%nat)) "Variant A";
                              blank ("var-b-" +:+ pretty (now 1%nat)) "Variant B"])])
                JUndef)
  | CampaignBuilder_setSchedule =>
      fun '(campaignId, _, _, scheduleData) =>
        Some (Request POST ("/api/campaigns/" +:+ campaignId +:+ "/schedule")
                scheduleData JUndef)
  | CampaignBuilder_validateCampaign =>
      fun '(campaignId, _, _) =>
        Some (Request POST ("/api/campaigns/" +:+ campaignId +:+ "/validate")
                JUndef JUndef)
  | CampaignBuilder_activateCampaign =>
      fun '(campaignId, _, _) =>
        Some (Request POST ("/api/campaigns/" +:+ campaignId +:+ "/activate")
                JUndef JUndef)
  | CampaignBuilder_assignLeads =>
      fun '(campaignId, _, _, selectedLeadIds) =>
        Some (Request PATCH ("/api/campaigns/" +:+ campaignId)
                (JObj [("lead_ids", JArr selectedLeadIds)]) JUndef)
  | LeadsAssigner_handleAssign =>
      fun '(campaignId, _, _, selectedLeads, _) =>
        Some (Request PATCH ("/api/campaigns/" +:+ campaignId)
                (JObj [("lead_ids", JArr selectedLeads)]) JUndef)
  | CampaignBuilder_saveCampaignEdits =>
      fun '(campaignId, _, _, campaignEdits) =>
        Some (Request PATCH ("/api/campaigns/" +:+ campaignId) campaignEdits JUndef)
  | CampaignBuilder_generateAIMessage =>
      fun '(campaignId, _, _, stepNumber, variantName, leadId) =>
        Some (Request POST "/api/campaigns/generate-message"
                (JObj [("campaign_id", JStr campaignId);
                       ("step_number", stepNumber);
                       ("lead_id", leadId);
                       ("variant_name", variantName)])
                JUndef)
  | CampaignBuilder_generateAllMessages =>
      fun '(campaignId, _, _) =>
        Some (Request POST
                ("/api/campaigns/" +:+ campaignId +:+ "/generate-all-messages")
                (JObj [("campaign_id", JStr campaignId);
                       ("generate_variants", JBool true)])
                JUndef)
  | CampaignBuilder_pause =>
      fun '(campaignId, _, _) =>
        Some (Request PATCH ("/api/campaigns/" +:+ campaignId)
                (JObj [("status", JStr "paused")]) JUndef)
  | CampaignBuilder_onSelectProfile =>
      fun '(campaignId, _, _, profileId) =>
        Some (Request PATCH ("/api/campaigns/" +:+ campaignId)
                (JObj [("agent_profile_id", profileId)]) JUndef)
  | StepsBuilder_handleAIGenerate =>
      fun '(campaignId, _, _, _, leads, stepNumber, _, variantName) =>
        match as_array leads with
        | Some items =>
            match js_find (fun l => truthy <$> get "persona" l) items with
            | Some leadWithPersona =>
                Some (Request POST "/api/campaigns/generate-message"
                        (JObj [("campaign_id", JStr campaignId);
                               ("step_number", stepNumber);
                               ("lead_id", getq "id" leadWithPersona);
                               ("variant_name", variantName)])
                        JUndef)
            | None => None
            end
        | None => None
        end
  | ProductInfoEditor_handleFileUpload =>
      fun '(campaign, _, file) =>
        match file with
        | Some name =>
            Some (Request POST
                    ("/api/campaigns/" +:+ to_str (getq "id" campaign)
                     +:+ "/upload-product-doc")
                    (JObj [("file", JObj [("name", JStr name)])])
                    (JObj [("headers",
                            JObj [("Content-Type", JStr "multipart/form-data")])]))
        | None => None
        end
  | AIAgentProfileManager_handleCreate =>
      fun '(newProfile, _) =>
        Some (Request POST "/api/ai-agent-profiles"
                (JObj [("name", JStr (AIAgentProfileManager.np_name newProfile));
                       ("tone", JStr (AIAgentProfileManager.np_tone newProfile));
                       ("style", JStr (AIAgentProfileManager.np_style newProfile));
                       ("focus", JStr (AIAgentProfileManager.np_focus newProfile));
                       ("avoid_words",
                        JArr (AIAgentProfileManager.avoid_list
                                (AIAgentProfileManager.np_avoid_words newProfile)));
                       ("brand_personality",
                        JStr (AIAgentProfileManager.np_brand_personality newProfile))])
                JUndef)
  | BulkLeadEnrichment_handleEnrich =>
      fun '(leads, enrichmentData, _, _) =>
        match BulkLeadEnrichment.collect_updates leads
                (js_split App.newline (js_trim enrichmentData)) with
        | Some (u :: _) =>
            Some (Request PATCH
                    ("/api/leads/" +:+ to_str (BulkLeadEnrichment.up_id u))
                    (JObj [("company", JStr (BulkLeadEnrichment.up_company u));
                           ("title", JStr (BulkLeadEnrichment.up_title u));
                           ("persona_status", JStr "pending")])
                    JUndef)
        | _ => None
        end
  | _ => fun _ => None
  end.

(** ** The CSV import, as the specification words it *)

Record csv_row := {
  row_name : string;
  row_email : option string;
  row_linkedin_url : option string;
  row_company : option string;
  row_title : option string
}.

(** A line split on commas, the fields trimmed and taken by position. *)
Definition row_of_line (line : string) : csv_row :=
  let fields := List.map js_trim (js_split "," line) in
  {| row_name := nth 0 fields "";
     row_email := nth_error fields 1;
     row_linkedin_url := nth_error fields 2;
     row_company := nth_error fields 3;
     row_title := nth_error fields 4 |}.

Definition has_name (r : csv_row) : bool := negb (String.eqb (row_name r) "").

(** The rows of the lines that have a name, in order. *)
Definition rows (ls : list string) : list csv_row :=
  List.filter has_name (List.map row_of_line ls).

(** The header line dropped, the rows with a name kept, in order. *)
Definition rows_of (text : string) : list csv_row :=
  rows (tl (js_split App.newline text)).

Definition opt_json (x : option string) : json :=
  match x with
  | Some s => JStr s
  | None => JUndef
  end.

Definition row_json (r : csv_row) : json :=
  JObj [("name", JStr (row_name r)); ("email", opt_json (row_email r));
        ("linkedin_url", opt_json (row_linkedin_url r));
        ("company", opt_json (row_company r)); ("title", opt_json (row_title r))].

Definition import_request (rows : list csv_row) : request :=
  Request POST "/api/leads/import" (JObj [("leads", JArr (List.map row_json rows))])
          JUndef.

(** The text begins with a whitespace character. *)
Definition starts_with_space (text : string) : bool :=
  match text with
  | String c _ => is_ws c
  | EmptyString => false
  end.

Fixpoint all_ws (s : string) : bool :=
  match s with
  | EmptyString => true
  | String c r => is_ws c && all_ws r
  end.

(** [w] appended to the last string of the list. *)
Fixpoint app_last (l : list string) (w : string) : list string :=
  match l with
  | [] => []
  | [x] => [x +:+ w]
  | x :: r => x :: app_last r w
  end.

(** The lines of a text against the lines of the same text without its
    trailing whitespace: the last line gains whitespace, and blank lines
    follow it. *)
Inductive padded : list string -> list string -> Prop :=
| padded_last a w more :
    all_ws w = true -> forallb all_ws more = true ->
    padded [a] ((a +:+ w) :: more)
| padded_cons a ls ls' :
    padded ls ls' -> padded (a :: ls) (a :: ls').

(** A header line after a blank first line. *)
Definition header_after_blank_line : string :=
  String App.newline ("name,email" +:+ String App.newline "John,j@x.io").

(** ** Further readings of a trace *)
(** No success toast comes after a rejected request. *)
Fixpoint no_success_after_failure (t : list event) : bool :=
  match t with
  | [] => true
  | ev :: r =>
      (if rejected ev then negb (existsb is_success_toast r) else true)
      && no_success_after_failure r
  end.

(** The handlers that report success without waiting for their request. *)
Definition hasty (h : handler) : bool :=
  match h with
  | CampaignBuilder_onSelectProfile => true
  | _ => false
  end.

(** What a catch block does first: an error toast, a [console.error], or
    the removal of the session. *)
Definition handles (ev : event) : bool :=
  match ev with
  | EToast TError _ | EConsoleError _ | EStorageRemove _ => true
  | _ => false
  end.

(** Every rejected request of the trace is at once followed by the first
    effect of a catch block. *)
Fixpoint failures_handled (t : list event) : bool :=
  match t with
  | [] => true
  | ev :: r =>
      (if rejected ev
       then match r with ev' :: _ => handles ev' | [] => false end
       else true)
      && failures_handled r
  end.

Definition is_unhandled (ev : event) : bool :=
  match ev with EUnhandledRejection _ => true | _ => false end.

(** The requests issued without [await] and without [catch]. *)
Definition fire_and_forget (h : handler) : bool :=
  match h with
  | CampaignBuilder_pause | CampaignBuilder_onSelectProfile => true
  | _ => false
  end.

(** The event resets the flag [x]. *)
Definition lowers (x : string) (ev : event) : bool :=
  match ev with
  | ESet y v => String.eqb x y && is_reset v
  | _ => false
  end.

(** Every flag raised in the trace (set to something else than [false] or
    [null]) is lowered later in the trace. *)
Fixpoint flags_lowered (t : list event) : bool :=
  match t with
  | [] => true
  | ev :: r =>
      match ev with
      | ESet x v =>
          if is_flag x && negb (is_reset v) then existsb (lowers x) r else true
      | _ => true
      end && flags_lowered r
  end.

(** [c] occurs in [s]. *)
Fixpoint has_char (c : ascii) (s : string) : bool :=
  match s with
  | EmptyString => false
  | String a r => Ascii.eqb a c || has_char c r
  end.

(** Every character of [s] satisfies [p]. *)
Fixpoint all_chars (p : ascii -> bool) (s : string) : bool :=
  match s with
  | EmptyString => true
  | String a r => p a && all_chars p r
  end.

(** What [encodeURIComponent] writes: unreserved characters and escapes. *)
Definition uri_safe (c : ascii) : bool := uri_unreserved c || Ascii.eqb c "%".

(** The request with which [handleAuth] exchanges a session id. *)
Definition session_exchange (sessionId : string) : request :=
  Request POST "/api/auth/session-data" (JObj [])
          (JObj [("headers", JObj [("X-Session-ID", JStr sessionId)])]).

(** [s] has no whitespace at either end. *)
Definition trimmed (s : string) : bool := String.eqb (js_trim s) s.

(** How many requests resolve before the first that does not. *)
Fixpoint leading_resolved (o : list outcome) : nat :=
  match o with
  | Resolved _ :: r => S (leading_resolved r)
  | _ => 0%nat
  end.

(** The POSTs of [initializeDefaultSteps], one per step. *)
Definition step_requests (campaignId : string) (steps : list json) : list request :=
  List.map (fun step => Request POST ("/api/campaigns/" +:+ campaignId +:+ "/steps")
                                step JUndef) steps.

(** The state variable [x] after the events of a trace. *)
Definition final_state (x : string) (t : list event) : option json :=
  vars (run_events t (UI ∅ ∅)) !! x.

(* ================================================================== *)
(** * Running the handlers symbolically *)
(* ================================================================== *)

Create HintDb handlers.
#[export] Hint Unfold
  App.handleLogin App.handleAuth App.checkAuth App.handleLogout App.fetchOverview
  App.fetchCampaigns App.handleCreate App.fetchLeads App.handleCreateLead
  App.handleUpdate App.handleDelete App.handleImport App.fetchInsights
  App.generateInsights App.handleResearch App.fetchIntegrations App.fetchApiKeys
  App.saveApiKeys App.handleConnectSheets App.handleSyncSheets App.fetchMessages
  App.handleSendReply AppOld.handleCreate AppOld.handleResearch
  AIAgentStudio.fetchConfig AIAgentStudio.fetchUsage AIAgentStudio.saveConfig
  LeadPersonaPanel.handleRegeneratePersona LeadPersonaPanel.handleSavePersona
  LeadPersonaPanel.handleGeneratePersona LeadPersonaPanel.detail_or
  V2Tabs.handleStepUpdate V2Tabs.handleBestPracticesUpload
  V2Tabs.generateTestMessages V2Tabs.generateBulkMessages V2Tabs.approveTestPhase
  V2Tabs.regenerateMessage V2Tabs.updateMessage V2Tabs.handleSave
  V2Tabs.handleActivate
  CampaignBuilderV2.fetchCampaign CampaignBuilderV2.fetchLeads
  CampaignBuilderV2.fetchMessages CampaignBuilderV2.handleSave
  CampaignBuilderV2.handleFileUpload
  PerContactMessagePreview.fetchMessages PerContactMessagePreview.regenerateStep
  CampaignsV2Page.fetchCampaigns CampaignsV2Page.createCampaign
  CampaignsV2Page.deleteCampaign
  PhantombusterImport.fetchAgents PhantombusterImport.handleImport
  CampaignBuilder.fetchCampaign CampaignBuilder.fetchCampaign0
  CampaignBuilder.initializeDefaultSteps CampaignBuilder.initializeDefaultSteps0
  CampaignBuilder.fetchLeads CampaignBuilder.addStep CampaignBuilder.saveStep
  CampaignBuilder.setSchedule CampaignBuilder.validateCampaign
  CampaignBuilder.activateCampaign CampaignBuilder.assignLeads
  CampaignBuilder.saveCampaignEdits CampaignBuilder.generateAIMessage
  CampaignBuilder.generateAllMessages CampaignBuilder.pause
  CampaignBuilder.onSelectProfile CampaignBuilder.handleAIGenerate
  CampaignBuilder.fetchProfile CampaignBuilder.handleFileUpload
  CampaignBuilder.updateProductInfo CampaignBuilder.joined_errors
  CampaignBuilder.post_steps CampaignBuilder.defaultSteps
  CampaignBuilder.defaultSteps0 CampaignBuilder.steps_path
  CampaignBuilder.fetchAnalytics CampaignBuilder.handleAssign
  CampaignBuilder.updateVariant CampaignBuilder.updateStepTiming
  ScheduleBuilder.toggleDay LeadsAssigner.toggleLead
  AIAgentProfileManager.fetchProfiles AIAgentProfileManager.handleCreate
  BulkLeadEnrichment.handleEnrich
  void api api0 api_cfg api0_cfg await_http fire_http
  toast_success toast_error toast_info set_state navigate console_error
  spawn call_prop emit : handlers.

(** Split the input of a handler into its components. *)
Ltac split_input :=
  repeat match goal with
         | i : (_ * _)%type |- _ => destruct i
         | i : unit |- _ => destruct i
         end.

(** One step of symbolic execution: decide the test the run is stuck on. *)
Ltac step :=
  match goal with
  | |- context [match ?x with _ => _ end] =>
      first [ is_var x; destruct x | destruct x eqn:? ]
  end.

Ltac run := cbn; repeat (step; cbn).

(** The same, deciding the tests on their atoms, so that a check made by a
    guard and the same check made by the handler are decided together. *)
Ltac atom_of x k :=
  lazymatch x with
  | negb ?y => atom_of y k
  | andb ?y _ => atom_of y k
  | orb ?y _ => atom_of y k
  | _ => k x
  end.

Ltac decide_atom a := first [ is_var a; destruct a | destruct a eqn:? ].

Ltac step_atom :=
  match goal with
  | |- context [defined ?v] => decide_atom v
  | |- context [get _ ?v] => decide_atom v
  | |- context [match ?x with _ => _ end] => atom_of x decide_atom
  | |- context [andb ?x _] => atom_of x decide_atom
  | |- context [orb ?x _] => atom_of x decide_atom
  | |- context [negb ?x] => atom_of x decide_atom
  end.

Ltac run_atoms := cbn; repeat (step_atom; cbn).

(** Take the handlers one by one, each on an arbitrary input and backend. *)
Ltac each_handler h :=
  destruct h; cbn [input body] in *; intros; split_input;
  autounfold with handlers in *.

(** Compute the paths of the requests and the families they fall in. *)
Ltac paths := cbv [API API_V2 String.append targets in_family]; cbn.

(** The loop of [handleEnrich], with what follows it. *)
Definition enrich_rest (updates : list BulkLeadEnrichment.update)
    (onComplete onClose : bool) : prog unit :=
  (try (
     for_each updates (fun u =>
       _ <- api PATCH ("/leads/" +:+ to_str (BulkLeadEnrichment.up_id u))
              (obj_str [("company", BulkLeadEnrichment.up_company u);
                        ("title", BulkLeadEnrichment.up_title u);
                        ("persona_status", "pending")]) ;;
       Ret tt) ;;
     toast_success ("✅ Updated " +:+ pretty (length updates)
                    +:+ " leads! Auto-research starting...") ;;
     call_prop_if onComplete "onComplete" ;;
     call_prop_if onClose "onClose"
   ) catch (fun error => toast_error "Enrichment failed")) ;;
  set_state "processing" (JBool false).

(** The trace of the loop: the requests that resolved, then the end of the
    run, which depends on how the loop stopped. *)
Inductive enrich_trace (onComplete onClose : bool)
  : list BulkLeadEnrichment.update -> nat -> list event -> Prop :=
| enrich_done n :
    enrich_trace onComplete onClose [] n
      (EToast TSuccess ("✅ Updated " +:+ pretty n
                        +:+ " leads! Auto-research starting...")
       :: (if onComplete then [EProp "onComplete" []] else [])
       ++ (if onClose then [EProp "onClose" []] else [])
       ++ [ESet "processing" (JBool false)])
| enrich_hang u us n rq :
    rq_method rq = PATCH ->
    rq_path rq = "/api/leads/" +:+ to_str (BulkLeadEnrichment.up_id u) ->
    enrich_trace onComplete onClose (u :: us) n [EHttp rq None]
| enrich_fail u us n rq e :
    rq_method rq = PATCH ->
    rq_path rq = "/api/leads/" +:+ to_str (BulkLeadEnrichment.up_id u) ->
    enrich_trace onComplete onClose (u :: us) n
      [EHttp rq (Some (Rejected e)); EToast TError "Enrichment failed";
       ESet "processing" (JBool false)]
| enrich_next u us n rq d t :
    rq_method rq = PATCH ->
    rq_path rq = "/api/leads/" +:+ to_str (BulkLeadEnrichment.up_id u) ->
    enrich_trace onComplete onClose us n t ->
    enrich_trace onComplete onClose (u :: us) n (EHttp rq (Some (Resolved d)) :: t).

Lemma handleEnrich_unfold leads enrichmentData onComplete onClose o :
  trace (BulkLeadEnrichment.handleEnrich leads enrichmentData onComplete onClose) o =
  ESet "processing" (JBool true) ::
  match BulkLeadEnrichment.collect_updates leads
          (js_split App.newline (js_trim enrichmentData)) with
  | Some updates => trace (enrich_rest updates onComplete onClose) o
  | None => [EToast TError "Enrichment failed"; ESet "processing" (JBool false)]
  end.
Proof.
  unfold BulkLeadEnrichment.handleEnrich, enrich_rest.
  cbn. destruct (BulkLeadEnrichment.collect_updates _ _); reflexivity.
Qed.

Lemma enrich_rest_trace_gen onComplete onClose us n o :
  enrich_trace onComplete onClose us n
    (trace
       ((try (
           for_each us (fun u =>
             _ <- api PATCH ("/leads/" +:+ to_str (BulkLeadEnrichment.up_id u))
                    (obj_str [("company", BulkLeadEnrichment.up_company u);
                              ("title", BulkLeadEnrichment.up_title u);
                              ("persona_status", "pending")]) ;;
             Ret tt) ;;
           toast_success ("✅ Updated " +:+ pretty n
                          +:+ " leads! Auto-research starting...") ;;
           call_prop_if onComplete "onComplete" ;;
           call_prop_if onClose "onClose"
         ) catch (fun error => toast_error "Enrichment failed")) ;;
        set_state "processing" (JBool false)) o).
Proof.
  revert o. induction us as [|u us IH]; intros o.
  - destruct onComplete, onClose; cbn; apply enrich_done.
  - cbn. destruct o as [|[d|e] o]; cbn.
    + apply enrich_hang; reflexivity.
    + apply enrich_next; [reflexivity | reflexivity | apply IH].
    + apply enrich_fail; reflexivity.
Qed.

Lemma enrich_rest_trace onComplete onClose us o :
  enrich_trace onComplete onClose us (length us)
    (trace (enrich_rest us onComplete onClose) o).
Proof. apply enrich_rest_trace_gen. Qed.

(** What the trace of the loop of [handleEnrich] satisfies. *)
Lemma enrich_toast_after_failure onComplete onClose us n t :
  enrich_trace onComplete onClose us n t -> toast_after_failure t = true.
Proof.
  induction 1; cbn; auto.
  destruct onComplete, onClose; reflexivity.
Qed.

Lemma enrich_quiet_after_failure onComplete onClose us n t :
  enrich_trace onComplete onClose us n t -> quiet_after_failure t = true.
Proof.
  induction 1; cbn; auto.
  destruct onComplete, onClose; reflexivity.
Qed.

Lemma enrich_requests onComplete onClose us n t :
  enrich_trace onComplete onClose us n t ->
  forallb (fun rq => is_mutation rq && targets listed_families rq) (requests t) = true.
Proof.
  induction 1; cbn; auto.
  - destruct onComplete, onClose; reflexivity.
  - unfold is_mutation, targets. rewrite H, H0. reflexivity.
  - unfold is_mutation, targets. rewrite H, H0. reflexivity.
  - unfold is_mutation, targets. rewrite H, H0. exact IHenrich_trace.
Qed.

(* ================================================================== *)
(** * C2: a toast on every failure *)
(* ================================================================== *)

(** C2, as stated, fails: when [GET /analytics/insights] is rejected,
    [fetchInsights] logs to the console and shows no toast. *)
Lemma C2_fetchInsights_shows_no_toast :
  trace (body AnalyticsPage_fetchInsights tt) [Rejected []] =
    [EHttp (Request GET "/api/analytics/insights" JUndef JUndef) (Some (Rejected []));
     EConsoleError "Failed to load insights"]
  /\ toast_after_failure (trace (body AnalyticsPage_fetchInsights tt) [Rejected []])
     = false.
Proof. split; reflexivity. Qed.

(** C2, amended: in every handler outside [silent_on_failure], on every
    input and whatever the backend answers, each rejected request is
    followed by an error toast (and so was caught). *)
Theorem C2_toast_after_failure :
  forall (h : handler), silent_on_failure h = false ->
  forall (i : input h) (o : list outcome),
    toast_after_failure (trace (body h i) o) = true.
Proof.
  intros h; destruct h; intros Hs; try discriminate Hs; clear Hs;
    cbn [input body]; intros i o; split_input;
    try (solve [autounfold with handlers; run; reflexivity]).
  rewrite handleEnrich_unfold. cbn.
  destruct (BulkLeadEnrichment.collect_updates _ _); [|reflexivity].
  eapply enrich_toast_after_failure, enrich_rest_trace.
Qed.

Lemma C2_toast_after_failure_witness :
  silent_on_failure LeadsPage_handleCreate = false /\
  toast_after_failure
    (trace (body LeadsPage_handleCreate
              {| App.nl_name := "Ada"; App.nl_email := "ada@example.com";
                 App.nl_linkedin_url := ""; App.nl_company := "";
                 App.nl_title := "" |})
           [Rejected [("message", JStr "Network Error")]]) = true.
Proof.
  split; [reflexivity|].
  apply (C2_toast_after_failure LeadsPage_handleCreate); reflexivity.
Defined.

(** The list [silent_on_failure] is tight: each of its handlers has a run
    with a rejected request and no error toast after it. *)
Lemma silent_handlers_show_no_toast :
  forall h, silent_on_failure h = true ->
  exists (i : input h) (o : list outcome),
    toast_after_failure (trace (body h i) o) = false.
Proof.
  intros h; destruct h; intros Hs; try discriminate Hs; clear Hs; cbn [input].
  - exists ("", "", Some "t"), [Rejected []]. reflexivity.
  - exists (Some "t"), [Rejected []]. reflexivity.
  - exists tt, [Rejected []]. reflexivity.
  - exists tt, [Rejected []]. reflexivity.
  - exists tt, [Rejected []]. reflexivity.
  - exists tt, [Rejected []]. reflexivity.
  - exists tt, [Rejected []]. reflexivity.
  - exists "c", [Rejected []]. reflexivity.
  - exists ("c", false, fun _ => 0), [Resolved (JObj []); Rejected []]. reflexivity.
  - exists ("c", false, fun _ => 0, JObj []), [Rejected []]. reflexivity.
  - exists tt, [Rejected []]. reflexivity.
  - exists ("c", false, fun _ => 0), [Rejected []]. reflexivity.
  - exists ("c", false, fun _ => 0, JNull), [Rejected []]. reflexivity.
  - exists (JObj []), [Rejected []]. reflexivity.
  - exists tt, [Rejected []]. reflexivity.
Qed.

(* ================================================================== *)
(** * C1: local state after a failed request *)
(* ================================================================== *)

Lemma same_but_flags_refl s : same_but_flags s s.
Proof. split; [reflexivity | intros x; left; reflexivity]. Qed.

Lemma quiet_event_keeps s0 s ev :
  quiet ev = true -> same_but_flags s0 s -> same_but_flags s0 (apply_event s ev).
Proof.
  intros Hq [Hst Hv]; destruct ev; cbn in Hq |- *; try discriminate;
    try (split; assumption).
  apply andb_true_iff in Hq as [Hf Hr].
  split; [exact Hst | intros x].
  destruct (decide (var = x)) as [->|Hne].
  - right. split; [exact Hf|]. exists v. split; [apply lookup_insert_eq | exact Hr].
  - cbn. rewrite lookup_insert_ne by exact Hne. apply Hv.
Qed.

Lemma quiet_events_keep t : forall s0 s,
  forallb quiet t = true -> same_but_flags s0 s -> same_but_flags s0 (run_events t s).
Proof.
  induction t as [|ev t IH]; intros s0 s Hq Hs; cbn in *; [exact Hs|].
  apply andb_true_iff in Hq as [Hev Ht].
  apply IH; [exact Ht | apply quiet_event_keeps; assumption].
Qed.

Lemma quiet_after_failure_split before ev after :
  quiet_after_failure (before ++ ev :: after) = true ->
  rejected ev = true ->
  forallb quiet after = true.
Proof.
  induction before as [|b before IH]; cbn; intros Hq Hr.
  - rewrite Hr in Hq. apply andb_true_iff in Hq as [Hq _]. exact Hq.
  - apply andb_true_iff in Hq as [_ Hq]. apply IH; assumption.
Qed.

(** Outside the session handlers, only quiet events follow a rejected
    request. *)
Lemma handlers_quiet_after_failure :
  forall (h : handler), session_handler h = false ->
  forall (i : input h) (o : list outcome),
    quiet_after_failure (trace (body h i) o) = true.
Proof.
  intros h; destruct h; intros Hs; try discriminate Hs; clear Hs;
    cbn [input body]; intros i o; split_input;
    try (solve [autounfold with handlers; run; reflexivity]).
  rewrite handleEnrich_unfold. cbn.
  destruct (BulkLeadEnrichment.collect_updates _ _); [|reflexivity].
  eapply enrich_quiet_after_failure, enrich_rest_trace.
Qed.

Lemma requests_app (t u : list event) : requests (t ++ u) = requests t ++ requests u.
Proof.
  induction t as [|ev t IH]; [reflexivity|].
  destruct ev; cbn; rewrite ?IH; reflexivity.
Qed.

Lemma enrich_no_session_request onComplete onClose us n t :
  enrich_trace onComplete onClose us n t ->
  forallb no_session_request (requests t) = true.
Proof.
  induction 1; cbn; auto.
  - destruct onComplete, onClose; reflexivity.
  - unfold no_session_request, session_request. rewrite H0. reflexivity.
  - unfold no_session_request, session_request. rewrite H0. reflexivity.
  - unfold no_session_request, session_request. rewrite H0. exact IHenrich_trace.
Qed.

(** Only the session handlers ask about the session or end it. *)
Lemma session_requests_of_session_handlers :
  forall (h : handler), session_handler h = false ->
  forall (i : input h) (o : list outcome),
    forallb no_session_request (requests (trace (body h i) o)) = true.
Proof.
  intros h; destruct h; intros Hs; try discriminate Hs; clear Hs;
    cbn [input body]; intros i o; split_input;
    try (solve [autounfold with handlers; run; reflexivity]).
  rewrite handleEnrich_unfold. cbn [requests].
  destruct (BulkLeadEnrichment.collect_updates _ _); [|reflexivity].
  eapply enrich_no_session_request, enrich_rest_trace.
Qed.

Lemma strict_eq_false v : strict_eq v (JBool false) = true -> v = JBool false.
Proof. destruct v as [| |[]| | | |]; cbn; intros H; try discriminate H; reflexivity. Qed.

Lemma clears_session_sound t : forall removed s0 s,
  clears_session removed t = true ->
  removal_stage removed s0 s ->
  session_removed s0 (run_events t s).
Proof.
  induction t as [|ev t IH]; intros removed s0 s Hc Hs.
  - cbn in Hc. apply Nat.eqb_eq in Hc. subst removed. exact Hs.
  - destruct ev; cbn [clears_session] in Hc; try discriminate Hc;
      try (apply (IH removed s0); [exact Hc | exact Hs]).
    + (* ESet *)
      apply andb_true_iff in Hc as [Hx Hc].
      apply (IH removed s0); [exact Hc|].
      destruct Hs as [Hst Hv]. split; [exact Hst|]. intros x.
      destruct (decide (var = x)) as [->|Hne].
      * apply orb_true_iff in Hx as [Hx|Hx]; apply andb_true_iff in Hx as [H1 H2].
        -- right; left. split; [exact H1|]. exists v.
           split; [apply lookup_insert_eq | exact H2].
        -- right; right. apply String.eqb_eq in H1. apply strict_eq_false in H2.
           subst. split; [reflexivity | apply lookup_insert_eq].
      * cbn. rewrite lookup_insert_ne by exact Hne. apply Hv.
    + (* EStorageRemove *)
      destruct Hs as [Hst Hv].
      destruct removed as [|[|removed]]; try discriminate Hc;
        apply andb_true_iff in Hc as [Hk Hc]; apply String.eqb_eq in Hk; subst key.
      * apply (IH 1%nat s0); [exact Hc|]. split; [cbn; rewrite Hst; reflexivity | exact Hv].
      * apply (IH 2%nat s0); [exact Hc|]. split; [cbn; rewrite Hst; reflexivity | exact Hv].
Qed.

Lemma settled_after_failure_split before rq e after :
  settled_after_failure (before ++ EHttp rq (Some (Rejected e)) :: after) = true ->
  if session_request rq then clears_session 0 after = true
  else forallb quiet after = true.
Proof.
  induction before as [|b before IH]; cbn [app settled_after_failure]; intros Hc.
  - apply andb_true_iff in Hc as [Hc _]. destruct (session_request rq); exact Hc.
  - apply andb_true_iff in Hc as [_ Hc]. apply IH; assumption.
Qed.

Lemma quiet_handlers_settle t :
  quiet_after_failure t = true ->
  forallb no_session_request (requests t) = true ->
  settled_after_failure t = true.
Proof.
  induction t as [|ev t IH]; [reflexivity|].
  cbn [quiet_after_failure settled_after_failure]. intros Hq Hn.
  apply andb_true_iff in Hq as [Hev Hq].
  destruct ev; cbn in Hn |- *; try (apply IH; assumption).
  apply andb_true_iff in Hn as [Hrq Hn].
  unfold no_session_request in Hrq. apply negb_true_iff in Hrq.
  rewrite (IH Hq Hn), Hrq.
  destruct settled as [[d|e]|]; cbn in Hev |- *; try reflexivity.
  rewrite Hev. reflexivity.
Qed.

(** After every rejected request, each handler has either kept the state
    or, when the session was asked about and the answer was a failure,
    removed the stored session. *)
Lemma handlers_settle_after_failure (h : handler) (i : input h) (o : list outcome) :
  settled_after_failure (trace (body h i) o) = true.
Proof.
  destruct (session_handler h) eqn:Hs.
  - destruct h; try discriminate Hs; clear Hs; cbn [input body] in *; split_input.
    + unfold App.handleAuth. autounfold with handlers.
      destruct (match_session_id _) as [sessionId|];
        [|destruct (App.has_token _); [|reflexivity]];
        (destruct o as [|[d|e] o]; [reflexivity | run; reflexivity | reflexivity]).
    + unfold App.checkAuth. autounfold with handlers.
      destruct (App.has_token i); [|reflexivity].
      destruct o as [|[d|e] o]; reflexivity.
    + unfold App.handleLogout. autounfold with handlers.
      destruct o as [|[d|e] o]; reflexivity.
  - apply quiet_handlers_settle.
    + apply handlers_quiet_after_failure. exact Hs.
    + apply session_requests_of_session_handlers. exact Hs.
Qed.

(** C1, as stated, fails: when [GET /auth/me] is rejected, [checkAuth]
    removes the stored session and sets [isAuthenticated]. *)
Lemma C1_checkAuth_clears_session :
  let s := UI ∅ {[ "session_token" := SText "tok" ]} in
  let after := [EStorageRemove "session_token"; EStorageRemove "user";
                ESet "isAuthenticated" (JBool false)] in
  trace (body ProtectedRoute_checkAuth (Some "tok")) [Rejected []] =
    EHttp (Request GET "/api/auth/me" JUndef JUndef) (Some (Rejected [])) :: after
  /\ storage s !! "session_token" = Some (SText "tok")
  /\ storage (run_events after s) !! "session_token" = None
  /\ vars (run_events after s) !! "isAuthenticated" = Some (JBool false)
  /\ ~ same_but_flags s (run_events after s).
Proof.
  cbn zeta. repeat split; try reflexivity.
  intros [Hst _].
  apply (f_equal (fun m => m !! "session_token")) in Hst.
  vm_compute in Hst. discriminate Hst.
Qed.

(** C1, amended: in every handler, on every input and whatever the
    backend answers, what the handler does after a rejected request
    leaves [localStorage] and every state variable as they were, except
    that an in-flight flag may be reset (to [false] or [null]) -- unless
    the request is [GET /api/auth/me] or [POST /api/auth/logout].  Only
    the session handlers ([handleAuth], [checkAuth], [handleLogout]) issue
    these two, and after the rejection of one of them the handler removes
    [session_token] and [user] from [localStorage]; the rest of
    [localStorage] and the state are as they were, up to flags that were
    reset and [isAuthenticated], which [checkAuth] sets to [false]. *)
Theorem C1_state_after_failure :
  forall (h : handler) (i : input h) (o : list outcome)
         (before after : list event) (rq : request) (e : list (string * json))
         (s : ui),
    trace (body h i) o = before ++ EHttp rq (Some (Rejected e)) :: after ->
    (session_request rq = false -> same_but_flags s (run_events after s))
    /\ (session_request rq = true ->
          session_handler h = true /\ session_removed s (run_events after s)).
Proof.
  intros h i o before after rq e s Ht.
  pose proof (handlers_settle_after_failure h i o) as Hall.
  rewrite Ht in Hall. apply settled_after_failure_split in Hall.
  split; intros Hrq; rewrite Hrq in Hall.
  - apply quiet_events_keep; [exact Hall | apply same_but_flags_refl].
  - split.
    + destruct (session_handler h) eqn:Hs; [reflexivity|].
      pose proof (session_requests_of_session_handlers h Hs i o) as Hn.
      rewrite Ht, requests_app in Hn. rewrite forallb_app in Hn.
      apply andb_true_iff in Hn as [_ Hn]. cbn in Hn.
      apply andb_true_iff in Hn as [Hn _].
      unfold no_session_request in Hn. rewrite Hrq in Hn. discriminate Hn.
    + apply (clears_session_sound after 0%nat s s Hall).
      split; [reflexivity | intros x; left; reflexivity].
Qed.

Lemma C1_state_after_failure_witness :
  let s := UI {[ "replyText" := JStr "hello"; "sending" := JBool true ]}
              {[ "session_token" := SText "tok"; "theme" := SText "dark" ]} in
  let reply := Request POST "/api/messages/reply"
                 (JObj [("message_id", JStr "m1"); ("content", JStr "hello")]) JUndef in
  let after_reply := [EToast TError "Failed to send reply"; ESet "sending" (JBool false)] in
  let me := Request GET "/api/auth/me" JUndef JUndef in
  let after_me := [EStorageRemove "session_token"; EStorageRemove "user";
                   ESet "isAuthenticated" (JBool false)] in
  (trace (body MessagesPage_handleSendReply ("hello", JObj [("id", JStr "m1")]))
         [Rejected []] =
     [ESet "sending" (JBool true)] ++ EHttp reply (Some (Rejected [])) :: after_reply
   /\ same_but_flags s (run_events after_reply s))
  /\ (trace (body ProtectedRoute_checkAuth (Some "tok")) [Rejected []] =
        [] ++ EHttp me (Some (Rejected [])) :: after_me
      /\ session_removed s (run_events after_me s)
      /\ storage (run_events after_me s) !! "theme" = Some (SText "dark")).
Proof.
  cbn zeta. split.
  - split; [reflexivity|].
    refine (proj1 (C1_state_after_failure MessagesPage_handleSendReply
                     ("hello", JObj [("id", JStr "m1")]) [Rejected []]
                     [ESet "sending" (JBool true)]
                     [EToast TError "Failed to send reply"; ESet "sending" (JBool false)]
                     (Request POST "/api/messages/reply"
                        (JObj [("message_id", JStr "m1"); ("content", JStr "hello")])
                        JUndef)
                     [] _ eq_refl) eq_refl).
  - split; [reflexivity|]. split; [|reflexivity].
    refine (proj2 (proj2 (C1_state_after_failure ProtectedRoute_checkAuth
                            (Some "tok") [Rejected []] []
                            [EStorageRemove "session_token"; EStorageRemove "user";
                             ESet "isAuthenticated" (JBool false)]
                            (Request GET "/api/auth/me" JUndef JUndef)
                            [] _ eq_refl) eq_refl)).
Defined.

(** The session handlers do write after a rejected request. *)
Lemma session_handlers_write_after_failure :
  forall h, session_handler h = true ->
  exists (i : input h) (o : list outcome),
    quiet_after_failure (trace (body h i) o) = false.
Proof.
  intros h; destruct h; intros Hs; try discriminate Hs; clear Hs; cbn [input].
  - exists ("", "", Some "t"), [Rejected []]. reflexivity.
  - exists (Some "t"), [Rejected []]. reflexivity.
  - exists tt, [Rejected []]. reflexivity.
Qed.

(** When the exchange of a session id is rejected, [handleAuth] has no
    session to remove: what is stored stays. *)
Lemma handleAuth_rejected_exchange_keeps_storage (pathname : string)
    (sessionToken : option string) (e : list (string * json)) (o : list outcome) :
  trace (body AuthHandler_handleAuth ("#session_id=abc", pathname, sessionToken))
        (Rejected e :: o)
  = [EHttp (session_exchange "abc") (Some (Rejected e));
     EConsoleError "Auth error:"; EToast TError "Authentication failed";
     ENavigate "/"; ESet "loading" (JBool false)].
Proof. reflexivity. Qed.

(* ================================================================== *)
(** * C4: the endpoints the handlers call *)
(* ================================================================== *)

Lemma targets_more fs gs rq :
  targets fs rq = true -> targets (fs ++ gs) rq = true.
Proof.
  unfold targets. rewrite existsb_app. intros ->. reflexivity.
Qed.

Lemma enrich_targets onComplete onClose us n t :
  enrich_trace onComplete onClose us n t ->
  forallb (targets (listed_families ++ further_families)) (requests t) = true.
Proof.
  intros Ht. apply enrich_requests in Ht.
  induction (requests t) as [|rq rs IH]; [reflexivity|].
  cbn [forallb] in Ht |- *. apply andb_true_iff in Ht as [Hrq Hrs].
  apply andb_true_iff in Hrq as [_ Hrq].
  rewrite (targets_more _ _ _ Hrq). apply IH, Hrs.
Qed.

(** C4, as stated, fails: [handleAuth] posts to [/api/auth/session-data],
    which is in none of the listed families. *)
Lemma C4_handleAuth_calls_auth :
  requests (trace (body AuthHandler_handleAuth ("#session_id=abc", "/auth", None)) [])
  = [Request POST "/api/auth/session-data" (JObj [])
       (JObj [("headers", JObj [("X-Session-ID", JStr "abc")])])]
  /\ forallb (targets listed_families)
       (requests (trace (body AuthHandler_handleAuth
                           ("#session_id=abc", "/auth", None)) [])) = false.
Proof. split; reflexivity. Qed.

(** C4, amended: every request a handler issues, on every input and
    whatever the backend answers, goes to one of the listed families or to
    [/api/auth], [/api/ai-agent], [/api/integrations/google-sheets] or
    [/api/v2/campaigns]. *)
Theorem C4_requests_target_families :
  forall (h : handler) (i : input h) (o : list outcome),
    forallb (targets (listed_families ++ further_families))
            (requests (trace (body h i) o)) = true.
Proof.
  intros h; destruct h; cbn [input body]; intros i o; split_input;
    try (solve [autounfold with handlers; run; paths; reflexivity]).
  rewrite handleEnrich_unfold. cbn [requests].
  destruct (BulkLeadEnrichment.collect_updates _ _); [|reflexivity].
  eapply enrich_targets, enrich_rest_trace.
Qed.

(** Each of the four further families is called by some handler. *)
Lemma further_families_are_called :
  forall f, In f further_families ->
  exists (h : handler) (i : input h) (o : list outcome) (rq : request),
    In rq (requests (trace (body h i) o)) /\ in_family f (rq_path rq) = true.
Proof.
  intros f [<-|[<-|[<-|[<-|[]]]]].
  - exists ProtectedRoute_checkAuth, (Some "t"), [], (Request GET "/api/auth/me" JUndef JUndef).
    split; [left|]; reflexivity.
  - exists AIAgentStudio_fetchConfig, tt, [],
      (Request GET "/api/ai-agent/config" JUndef JUndef).
    split; [left|]; reflexivity.
  - exists SettingsPage_handleSyncSheets, tt, [],
      (Request POST "/api/integrations/google-sheets/sync" JUndef JUndef).
    split; [left|]; reflexivity.
  - exists CampaignsV2Page_fetchCampaigns, tt, [],
      (Request GET "/api/v2/campaigns" JUndef JUndef).
    split; [left|]; reflexivity.
Qed.

(* ================================================================== *)
(** * C3: submitting the create-campaign form *)
(* ================================================================== *)

(** C3, as stated, fails on the earlier CampaignsPage
    (LeadPersonaPanel.js:1169): after the POST it loads the list again and
    does not navigate. *)
Lemma C3_old_handleCreate_does_not_navigate :
  trace (body CampaignsPage_handleCreate_old
           {| AppOld.nc_name := "Q4 outreach"; AppOld.nc_target_persona := "CTOs" |})
        [Resolved (JObj [("id", JStr "c1")])] =
    [EHttp (Request POST "/api/campaigns"
              (JObj [("name", JStr "Q4 outreach"); ("target_persona", JStr "CTOs")])
              JUndef)
           (Some (Resolved (JObj [("id", JStr "c1")])));
     EToast TSuccess "Campaign created!";
     ESet "showCreate" (JBool false);
     ESet "newCampaign" (JObj [("name", JStr ""); ("target_persona", JStr "")]);
     ESpawn "fetchCampaigns"]
  /\ existsb is_navigate
       (trace (body CampaignsPage_handleCreate_old
                 {| AppOld.nc_name := "Q4 outreach"; AppOld.nc_target_persona := "CTOs" |})
              [Resolved (JObj [("id", JStr "c1")])]) = false.
Proof. split; reflexivity. Qed.

(** C3, amended.  With a non-empty name, [CampaignsPage.handleCreate] of the
    current App.js issues one request, the POST of the form to
    [/api/campaigns], and when the response data is not [null] it then
    navigates to [/campaigns/{id}/edit] and nowhere else.  The earlier
    [handleCreate] issues the same single POST, whatever the name, and
    never navigates. *)
Theorem C3_create_campaign
    (newCampaign : App.newCampaignT) (earlier : AppOld.newCampaignT)
    (o : list outcome) :
  App.nc_name newCampaign <> "" ->
  let t := trace (body CampaignsPage_handleCreate newCampaign) o in
  let t_old := trace (body CampaignsPage_handleCreate_old earlier) o in
  requests t =
    [Request POST "/api/campaigns"
       (JObj [("name", JStr (App.nc_name newCampaign));
              ("goal_type", JStr (App.nc_goal_type newCampaign));
              ("target_persona", JStr (App.nc_target_persona newCampaign))])
       JUndef]
  /\ (forall d o' id, o = Resolved d :: o' -> get "id" d = Some id ->
        List.filter is_navigate t =
          [ENavigate ("/campaigns/" +:+ to_str id +:+ "/edit")]
        /\ last t = Some (ENavigate ("/campaigns/" +:+ to_str id +:+ "/edit")))
  /\ requests t_old =
       [Request POST "/api/campaigns"
          (JObj [("name", JStr (AppOld.nc_name earlier));
                 ("target_persona", JStr (AppOld.nc_target_persona earlier))])
          JUndef]
  /\ List.filter is_navigate t_old = [].
Proof.
  intros Hname. cbn zeta. cbn [body].
  unfold App.handleCreate, AppOld.handleCreate.
  destruct newCampaign as [name goal persona]; cbn in Hname.
  destruct name as [|c name]; [congruence|].
  repeat split.
  - destruct o as [|[d|e] o]; cbn; try reflexivity.
    destruct (get "id" d); reflexivity.
  - subst o. cbn. rewrite H0. reflexivity.
  - subst o. cbn. rewrite H0. reflexivity.
  - destruct o as [|[d|e] o]; reflexivity.
  - destruct o as [|[d|e] o]; reflexivity.
Qed.

Lemma C3_create_campaign_witness :
  let nc := {| App.nc_name := "Q4 outreach"; App.nc_goal_type := "email";
               App.nc_target_persona := "" |} in
  let o := [Resolved (JObj [("id", JStr "c1"); ("name", JStr "Q4 outreach")])] in
  App.nc_name nc <> "" /\
  requests (trace (body CampaignsPage_handleCreate nc) o) =
    [Request POST "/api/campaigns"
       (JObj [("name", JStr "Q4 outreach"); ("goal_type", JStr "email");
              ("target_persona", JStr "")]) JUndef] /\
  last (trace (body CampaignsPage_handleCreate nc) o) =
    Some (ENavigate "/campaigns/c1/edit").
Proof.
  cbn zeta.
  assert (H : "Q4 outreach" <> "") by discriminate.
  split; [exact H|].
  pose proof (C3_create_campaign
                {| App.nc_name := "Q4 outreach"; App.nc_goal_type := "email";
                   App.nc_target_persona := "" |}
                {| AppOld.nc_name := ""; AppOld.nc_target_persona := "" |}
                [Resolved (JObj [("id", JStr "c1"); ("name", JStr "Q4 outreach")])]
                H) as (Hrq & Hnav & _).
  split; [exact Hrq|].
  exact (proj2 (Hnav _ [] (JStr "c1") eq_refl eq_refl)).
Defined.

(* ================================================================== *)
(** * C5: the guard on the initialization of the default steps *)
(* ================================================================== *)

(** X29.  Within one render the guard works.  Called from a render that saw
    [initializingSteps] true, [initializeDefaultSteps] returns at once, with
    no effect at all.  And [fetchCampaign] issues a POST (the
    initialization is the only one it can issue) only when the campaign it
    fetched has no [message_steps] and the render saw the flag false.  Both
    hold for the two versions of CampaignBuilder. *)
Theorem initialization_guard_within_a_render
    (campaignId : string) (now : nat -> Z) (flag : bool)
    (campaignData : json) (o : list outcome) :
  (trace (body CampaignBuilder_initializeDefaultSteps
            (campaignId, true, now, campaignData)) o = []
   /\ outcome_of (body CampaignBuilder_initializeDefaultSteps
                    (campaignId, true, now, campaignData)) o = Val tt
   /\ trace (body CampaignBuilder_initializeDefaultSteps0
               (campaignId, true, now, campaignData)) o = []
   /\ outcome_of (body CampaignBuilder_initializeDefaultSteps0
                    (campaignId, true, now, campaignData)) o = Val tt)
  /\ ((mutations (trace (body CampaignBuilder_fetchCampaign
                            (campaignId, flag, now)) o) <> []
       \/ mutations (trace (body CampaignBuilder_fetchCampaign0
                               (campaignId, flag, now)) o) <> []) ->
      flag = false
      /\ exists d o', o = Resolved d :: o'
           /\ CampaignBuilder.no_steps (getq "message_steps" d) = true).
Proof.
  split; [repeat split|]. intros Hpost.
  cbn [body] in Hpost.
  unfold CampaignBuilder.fetchCampaign, CampaignBuilder.fetchCampaign0,
    CampaignBuilder.initializeDefaultSteps, CampaignBuilder.initializeDefaultSteps0,
    mutations in Hpost.
  destruct o as [|[d|e] o];
    [cbn in Hpost; destruct Hpost as [H|H]; congruence | |
     cbn in Hpost; destruct Hpost as [H|H]; congruence].
  cbn in Hpost.
  destruct d; cbn in Hpost;
    try match type of Hpost with
        | context [CampaignBuilder.no_steps ?x] =>
            destruct (CampaignBuilder.no_steps x) eqn:Hsteps
        end;
    destruct flag; cbn in Hpost;
    try (destruct Hpost as [H|H]; congruence);
    (split; [reflexivity|]; eexists _, _; split; [reflexivity|]; cbn;
     first [exact Hsteps | reflexivity]).
Qed.

Lemma initialization_guard_within_a_render_witness :
  let now : nat -> Z := fun _ => 1700000000000 in
  let o := [Resolved (JObj [("id", JStr "c1"); ("name", JStr "Launch");
                            ("goal_type", JStr "email")])] in
  (mutations (trace (body CampaignBuilder_fetchCampaign ("c1", false, now)) o) <> []
   \/ mutations (trace (body CampaignBuilder_fetchCampaign0 ("c1", false, now)) o) <> [])
  /\ trace (body CampaignBuilder_initializeDefaultSteps ("c1", true, now, JNull)) o = []
  /\ exists d o', o = Resolved d :: o'
       /\ CampaignBuilder.no_steps (getq "message_steps" d) = true.
Proof.
  cbn zeta.
  assert (H : mutations (trace (body CampaignBuilder_fetchCampaign
                                  ("c1", false, fun _ => 1700000000000))
                               [Resolved (JObj [("id", JStr "c1"); ("name", JStr "Launch");
                                                ("goal_type", JStr "email")])]) <> []
              \/ mutations (trace (body CampaignBuilder_fetchCampaign0
                                     ("c1", false, fun _ => 1700000000000))
                                  [Resolved (JObj [("id", JStr "c1"); ("name", JStr "Launch");
                                                   ("goal_type", JStr "email")])]) <> []).
  { left. vm_compute. discriminate. }
  split; [exact H|].
  pose proof (initialization_guard_within_a_render "c1" (fun _ => 1700000000000)
                false JNull
                [Resolved (JObj [("id", JStr "c1"); ("name", JStr "Launch");
                                 ("goal_type", JStr "email")])])
    as ((Ht & _) & Hguard).
  destruct (Hguard H) as (_ & Hd).
  split; [exact Ht | exact Hd].
Defined.

(** C5 fails on the code.  The guard reads [initializingSteps] as the
    render that created the function saw it, not the state variable.  A
    first call of [fetchCampaign] from a render that saw [false] fetches a
    campaign without steps, sets the state variable to [true] and posts the
    first step.  While that request is pending, a second call from the
    same render still reads [false]: it is not stopped, neither by the
    guard of [fetchCampaign] nor by that of [initializeDefaultSteps], and
    posts the three steps again.  The same holds for the first version of
    CampaignBuilder. *)
Lemma C5_second_call_posts_again :
  let now : nat -> Z := fun _ => 1700000000000 in
  let render : closure := ("c1", false, now) in
  let d := JObj [("id", JStr "c1"); ("name", JStr "Launch");
                 ("goal_type", JStr "email")] in
  let steps := CampaignBuilder.defaultSteps (JStr "email") now in
  let steps0 := CampaignBuilder.defaultSteps0 (JStr "email") now in
  let first := trace (body CampaignBuilder_fetchCampaign render) [Resolved d] in
  let second := trace (body CampaignBuilder_fetchCampaign render)
                  [Resolved d; Resolved JNull; Resolved JNull; Resolved JNull] in
  let second0 := trace (body CampaignBuilder_fetchCampaign0 render)
                   [Resolved d; Resolved JNull; Resolved JNull; Resolved JNull] in
  (* the first call has raised the flag and waits for its first POST *)
  final_state "initializingSteps" first = Some (JBool true)
  /\ List.last first (ESet "loading" JNull)
     = EHttp (Request POST "/api/campaigns/c1/steps" (List.hd JNull steps) JUndef) None
  (* the second call, made by the same render, posts the three steps *)
  /\ mutations second = step_requests "c1" steps
  /\ mutations second0 = step_requests "c1" steps0
  /\ length (step_requests "c1" steps) = 3%nat
  (* and so does [initializeDefaultSteps] itself *)
  /\ mutations (trace (body CampaignBuilder_initializeDefaultSteps
                         ("c1", false, now, d))
                      [Resolved JNull; Resolved JNull; Resolved JNull])
     = step_requests "c1" steps.
Proof. cbn zeta. repeat split; vm_compute; reflexivity. Qed.

(* ================================================================== *)
(** * C6: presence checks before a form is submitted *)
(* ================================================================== *)


Lemma presence_checks_stop_the_request :
  forall h, checks_presence h = true ->
  forall (i : input h) (o : list outcome),
    required_missing h i = true ->
    requests (trace (body h i) o) = []
    /\ exists msg, trace (body h i) o = [EToast TError msg].
Proof.
  intros h; destruct h; intros Hr; try discriminate Hr; clear Hr;
    cbn [input body required_missing]; intros i o; split_input;
    autounfold with handlers; run_atoms; intros; try discriminate;
    (split; [reflexivity | eexists; reflexivity]).
Qed.

(** [saveApiKeys] starts with its POST, on any keys. *)
Lemma saveApiKeys_request (apiKeys : App.apiKeysT) (o : list outcome) :
  exists rq, action_request SettingsPage_saveApiKeys apiKeys = Some rq
             /\ is_mutation rq = true
             /\ exists settled rest,
                  trace (body SettingsPage_saveApiKeys apiKeys) o
                  = EHttp rq settled :: rest.
Proof.
  destruct apiKeys as [[|? ?] [|? ?] [|? ?] [|? ?] [|? ?] cookie];
    (eexists; split; [reflexivity|split; [reflexivity|]]);
    destruct o as [|[d|e] o]; eexists _, _; reflexivity.
Qed.

Lemma unchecked_forms_are_posted :
  forall h, unchecked_form h = true ->
  forall (i : input h) (o : list outcome),
    exists rq settled rest,
      action_request h i = Some rq
      /\ rq_method rq = POST
      /\ trace (body h i) o = EHttp rq settled :: rest.
Proof.
  intros h; destruct h; intros Hr; try discriminate Hr; clear Hr;
    cbn [input]; intros i o;
    try (solve [cbn [body action_request]; split_input; autounfold with handlers;
                destruct o as [|[d|e] o]; eexists _, _, _;
                (split; [reflexivity|split; reflexivity])]).
  destruct (saveApiKeys_request i o) as (rq & Hrq & Hm & st & rest & Ht).
  exists rq, st, rest. split; [exact Hrq|]. split; [|exact Ht].
  cbn in Hrq. injection Hrq as <-. reflexivity.
Qed.



(* ================================================================== *)
(** * C7: user actions, their request and the re-fetch *)
(* ================================================================== *)


(** So does [updateStepTiming]: a delay typed into a step is answered by a
    toast, and neither kept nor sent. *)
Lemma updateStepTiming_issues_no_request :
  user_action StepsBuilder_updateStepTiming = true
  /\ trace (body StepsBuilder_updateStepTiming (JNum 0, "delay_days", JNum 3))
           [Resolved JNull] =
       [EToast TInfo "Step timing update - save to apply"].
Proof. split; reflexivity. Qed.

Lemma first_request_of_trace {A} (m : prog A) o rq settled rest :
  trace m o = EHttp rq settled :: rest -> head (requests (trace m o)) = Some rq.
Proof. intros ->. reflexivity. Qed.

Lemma user_actions_issue_their_request :
  forall h, user_action h = true -> stub h = false -> local_only h = false ->
  forall (i : input h) (o : list outcome),
    lets_through h i = true ->
    exists rq, action_request h i = Some rq
               /\ is_mutation rq = true
               /\ head (requests (trace (body h i) o)) = Some rq.
Proof.
  intros h; destruct h; intros Hu Hs Hl;
    try discriminate Hu; try discriminate Hs; try discriminate Hl;
    clear Hu Hs Hl; cbn [input lets_through]; intros i o;
    try (solve [cbn [body action_request]; split_input;
                autounfold with handlers; unfold chosen_document; run_atoms;
                intros; try discriminate;
                (eexists; split; [reflexivity|split; reflexivity])]).
  intros _. destruct (saveApiKeys_request i o) as (rq & Hrq & Hm & st & rest & Ht).
  exists rq. split; [exact Hrq|]. split; [exact Hm|].
  eapply first_request_of_trace, Ht.
Qed.

Lemma enrich_refetch onClose us n t :
  enrich_trace true onClose us n t ->
  all_resolved t = true -> existsb is_refetch t = true.
Proof.
  induction 1; cbn; intros Hall; try discriminate; auto.
Qed.

Lemma handleEnrich_refetches leads enrichmentData onClose o :
  let t := trace (BulkLeadEnrichment.handleEnrich leads enrichmentData true onClose) o in
  existsb is_http t = true -> all_resolved t = true ->
  existsb is_refetch (after_first_request t) = true.
Proof.
  cbn zeta. rewrite handleEnrich_unfold. cbn.
  destruct (BulkLeadEnrichment.collect_updates _ _) as [us|]; [|discriminate].
  pose proof (enrich_rest_trace true onClose us o) as Ht.
  destruct Ht; cbn; intros Hh Hall; try discriminate.
  - destruct onClose; discriminate.
  - eapply enrich_refetch; eassumption.
Qed.

Lemma refetchers_refetch :
  forall h, refetches h = true ->
  forall (i : input h) (o : list outcome),
    callback_given h i = true ->
    existsb is_http (trace (body h i) o) = true ->
    all_resolved (trace (body h i) o) = true ->
    existsb is_error_toast (trace (body h i) o) = false ->
    existsb is_refetch (after_first_request (trace (body h i) o)) = true.
Proof.
  intros h; destruct h; intros Hr; try discriminate Hr; clear Hr;
    cbn [input body callback_given]; intros i o; split_input;
    try (solve [autounfold with handlers; run_atoms; intros; try discriminate;
                reflexivity]).
  intros -> Hh Hall _. apply handleEnrich_refetches; assumption.
Qed.

Lemma stubs_only_toast (h : handler) (i : input h) (o : list outcome) :
  stub h = true ->
  trace (body h i) o = [EToast TSuccess "Step saved!"]
  \/ trace (body h i) o = [EToast TInfo "Step timing update - save to apply"].
Proof.
  destruct h; intros Hs; try discriminate Hs; cbn [input body] in *; split_input;
    [left|right]; reflexivity.
Qed.

Lemma local_edits_stay_local (h : handler) (i : input h) (o : list outcome) :
  local_only h = true ->
  requests (trace (body h i) o) = []
  /\ forallb is_local_effect (trace (body h i) o) = true.
Proof.
  destruct h; intros Hs; try discriminate Hs; clear Hs;
    cbn [input body] in *; split_input; autounfold with handlers;
    run; split; reflexivity.
Qed.



(** The list [refetches] is tight: every other user action that issues a
    request has a run in which all went well and nothing was loaded
    again. *)
Lemma other_actions_do_not_refetch :
  forall h, user_action h = true -> stub h = false -> local_only h = false ->
            refetches h = false ->
  exists (i : input h) (o : list outcome),
    lets_through h i = true
    /\ existsb is_http (trace (body h i) o) = true
    /\ all_resolved (trace (body h i) o) = true
    /\ existsb is_error_toast (trace (body h i) o) = false
    /\ existsb is_refetch (trace (body h i) o) = false.
Proof.
  intros h; destruct h; intros Hu Hs Hl Hr;
    try discriminate Hu; try discriminate Hs; try discriminate Hl;
    try discriminate Hr; clear Hu Hs Hl Hr; cbn [input].
  - (* handleLogout *)
    exists tt, [Resolved JNull]. repeat split; reflexivity.
  - (* CampaignsPage.handleCreate *)
    exists {| App.nc_name := "Q4"; App.nc_goal_type := "email";
              App.nc_target_persona := "" |},
      [Resolved (JObj [("id", JStr "c1")])].
    repeat split; reflexivity.
  - (* generateInsights *)
    exists (fun _ => "2025-01-01T00:00:00.000Z"),
      [Resolved (JObj [("insights", JArr [JObj [("title", JStr "t")]])])].
    repeat split; reflexivity.
  - (* handleSyncSheets *)
    exists tt, [Resolved (JObj [("synced_leads", JNum 3)])].
    repeat split; reflexivity.
  - (* handleRegeneratePersona *)
    exists (JObj [("id", JStr "l1"); ("name", JStr "Ada");
                  ("linkedin_url", JStr "https://linkedin.com/in/ada")], true),
      [Resolved JNull].
    repeat split; reflexivity.
  - (* handleGeneratePersona *)
    exists (JObj [("id", JStr "l1"); ("name", JStr "Ada");
                  ("linkedin_url", JStr "https://linkedin.com/in/ada")], true),
      [Resolved JNull].
    repeat split; reflexivity.
  - (* createCampaign *)
    exists {| CampaignsV2Page.nc_name := "Q4"; CampaignsV2Page.nc_type := "email";
              CampaignsV2Page.nc_lead_limit := JNum 100 |},
      [Resolved (JObj [("id", JStr "c1")])].
    repeat split; reflexivity.
  - (* validateCampaign *)
    exists ("c1", false, fun _ => 0), [Resolved (JObj [("valid", JBool true)])].
    repeat split; reflexivity.
  - (* generateAIMessage *)
    exists ("c1", false, fun _ => 0, JNum 1, JStr "Variant A", JStr "l1"),
      [Resolved (JObj [("content", JStr "Hi")])].
    repeat split; reflexivity.
  - (* handleAIGenerate *)
    exists ("c1", false, fun _ => 0,
            JObj [("product_info", JObj [("name", JStr "Widget")]);
                  ("goal_type", JStr "email");
                  ("message_steps", JArr [JObj [("step_number", JNum 1)]])],
            JArr [JObj [("id", JStr "l1"); ("persona", JStr "CTO")]],
            JNum 1, JNum 0, JStr "Variant A"),
      [Resolved (JObj [("content", JStr "Hi"); ("subject", JStr "Hello")])].
    repeat split; reflexivity.
  - (* ProductInfoEditor.handleFileUpload *)
    exists (JObj [("id", JStr "c1")], JObj [], Some "deck.pdf"),
      [Resolved (JObj [("preview", JStr "text")])].
    repeat split; reflexivity.
Qed.

(* ================================================================== *)
(** * C8: the rows of the CSV import *)
(* ================================================================== *)

(** ** Trailing whitespace does not change the rows *)

Lemma app_cons c a w : String c a +:+ w = String c (a +:+ w).
Proof. reflexivity. Qed.

Lemma app_empty w : EmptyString +:+ w = w.
Proof. reflexivity. Qed.

Lemma js_split_cons sep c s :
  js_split sep (String c s) =
  if Ascii.eqb c sep then EmptyString :: js_split sep s
  else match js_split sep s with
       | [] => [String c EmptyString]
       | h :: t => String c h :: t
       end.
Proof. reflexivity. Qed.

Lemma js_split_nonempty sep s : js_split sep s <> [].
Proof.
  destruct s as [|c r]; cbn; [discriminate|].
  destruct (Ascii.eqb c sep); [discriminate|].
  destruct (js_split sep r); discriminate.
Qed.

Lemma trim_end_all_ws w : all_ws w = true -> trim_end w = EmptyString.
Proof.
  induction w as [|c w IH]; cbn; [reflexivity|].
  intros H. apply andb_true_iff in H as [Hc Hw].
  rewrite (IH Hw), Hc. reflexivity.
Qed.

Lemma trim_start_all_ws w : all_ws w = true -> trim_start w = EmptyString.
Proof.
  induction w as [|c w IH]; cbn; [reflexivity|].
  intros H. apply andb_true_iff in H as [Hc Hw].
  rewrite Hc. apply IH, Hw.
Qed.

Lemma trim_end_app_ws y w : all_ws w = true -> trim_end (y +:+ w) = trim_end y.
Proof.
  intros Hw. induction y as [|c y IH].
  - rewrite app_empty. cbn. apply trim_end_all_ws, Hw.
  - rewrite app_cons. cbn. rewrite IH. reflexivity.
Qed.

Lemma all_ws_app x w : all_ws (x +:+ w) = all_ws x && all_ws w.
Proof.
  induction x as [|c x IH]; [reflexivity|].
  rewrite app_cons. cbn. rewrite IH. apply andb_assoc.
Qed.

Lemma trim_start_app_ws x w :
  all_ws w = true ->
  trim_start (x +:+ w) = if all_ws x then EmptyString else trim_start x +:+ w.
Proof.
  intros Hw. induction x as [|c x IH].
  - rewrite app_empty. cbn. apply trim_start_all_ws, Hw.
  - rewrite app_cons. cbn. destruct (is_ws c); cbn; [exact IH | reflexivity].
Qed.

Lemma js_trim_app_ws x w : all_ws w = true -> js_trim (x +:+ w) = js_trim x.
Proof.
  intros Hw. unfold js_trim. rewrite (trim_start_app_ws _ _ Hw).
  destruct (all_ws x) eqn:Hx.
  - rewrite (trim_start_all_ws _ Hx). reflexivity.
  - apply trim_end_app_ws, Hw.
Qed.

Lemma js_trim_all_ws w : all_ws w = true -> js_trim w = EmptyString.
Proof.
  intros Hw. unfold js_trim. rewrite (trim_start_all_ws _ Hw). reflexivity.
Qed.

Lemma is_ws_not_comma c : is_ws c = true -> Ascii.eqb c "," = false.
Proof.
  destruct c as [[] [] [] [] [] [] [] []]; cbn; intros H; try discriminate H; reflexivity.
Qed.

Lemma split_comma_all_ws w : all_ws w = true -> js_split "," w = [w].
Proof.
  induction w as [|c w IH]; cbn; [reflexivity|].
  intros H. apply andb_true_iff in H as [Hc Hw].
  rewrite (is_ws_not_comma _ Hc), (IH Hw). reflexivity.
Qed.

Lemma split_comma_app_ws a w :
  all_ws w = true -> js_split "," (a +:+ w) = app_last (js_split "," a) w.
Proof.
  intros Hw. induction a as [|c a IH].
  - rewrite app_empty. cbn. apply split_comma_all_ws, Hw.
  - rewrite app_cons. cbn. rewrite IH.
    pose proof (js_split_nonempty "," a) as Hne.
    destruct (Ascii.eqb c ",").
    + destruct (js_split "," a) as [|h t]; [congruence|]. reflexivity.
    + destruct (js_split "," a) as [|h [|h' t]]; [congruence| |]; reflexivity.
Qed.

Lemma map_trim_app_last l w :
  all_ws w = true -> List.map js_trim (app_last l w) = List.map js_trim l.
Proof.
  intros Hw. induction l as [|x [|y l] IH]; [reflexivity| |].
  - cbn. rewrite (js_trim_app_ws _ _ Hw). reflexivity.
  - cbn [app_last List.map] in *. rewrite IH. reflexivity.
Qed.

Lemma row_of_line_app_ws a w :
  all_ws w = true -> row_of_line (a +:+ w) = row_of_line a.
Proof.
  intros Hw. unfold row_of_line.
  rewrite (split_comma_app_ws _ _ Hw), (map_trim_app_last _ _ Hw). reflexivity.
Qed.

Lemma blank_line_has_no_name b : all_ws b = true -> has_name (row_of_line b) = false.
Proof.
  intros Hb. unfold has_name, row_of_line.
  rewrite (split_comma_all_ws _ Hb). cbn. rewrite (js_trim_all_ws _ Hb). reflexivity.
Qed.

Lemma rows_blank ls : forallb all_ws ls = true -> rows ls = [].
Proof.
  induction ls as [|b ls IH]; [reflexivity|]. cbn.
  intros H. apply andb_true_iff in H as [Hb Hls].
  unfold rows in *. cbn. rewrite (blank_line_has_no_name _ Hb). apply IH, Hls.
Qed.

Lemma padded_rows ls ls' : padded ls ls' -> rows ls = rows ls'.
Proof.
  induction 1 as [a w more Hw Hmore | a ls ls' _ IH].
  - unfold rows. cbn. rewrite (row_of_line_app_ws _ _ Hw).
    fold (rows more). rewrite (rows_blank _ Hmore). reflexivity.
  - unfold rows in *. cbn. rewrite IH. reflexivity.
Qed.

Lemma padded_tl_rows ls ls' : padded ls ls' -> rows (tl ls) = rows (tl ls').
Proof.
  destruct 1 as [a w more Hw Hmore | a ls ls' H]; cbn.
  - symmetry. apply rows_blank, Hmore.
  - apply padded_rows, H.
Qed.

Lemma is_ws_newline : is_ws App.newline = true.
Proof. reflexivity. Qed.

Lemma padded_head c ls ls' :
  padded ls ls' ->
  match ls, ls' with
  | h :: t, h' :: t' => padded (String c h :: t) (String c h' :: t')
  | _, _ => True
  end.
Proof.
  destruct 1 as [a w more Hw Hmore | a ls ls' H].
  - rewrite <- app_cons. apply padded_last; assumption.
  - apply padded_cons, H.
Qed.

Lemma padded_blank l :
  padded [EmptyString] l ->
  exists w more, l = w :: more /\ all_ws w = true /\ forallb all_ws more = true.
Proof.
  inversion 1 as [a w more Hw Hmore | a ls ls' H']; subst.
  - exists w, more. rewrite app_empty. auto.
  - inversion H'.
Qed.

Lemma split_trim_end_padded t :
  padded (js_split App.newline (trim_end t)) (js_split App.newline t).
Proof.
  induction t as [|c r IH].
  - cbn. apply (padded_last "" "" []); reflexivity.
  - cbn [trim_end].
    destruct (trim_end r) as [|c' r'] eqn:Hr.
    + (* the rest is whitespace *)
      cbn in IH. apply padded_blank in IH as (w & more & Hsplit & Hw & Hmore).
      destruct (is_ws c) eqn:Hc.
      * cbn. destruct (Ascii.eqb c App.newline) eqn:Hnl.
        -- apply (padded_last "" "" (js_split App.newline r)); [reflexivity|].
           rewrite Hsplit. cbn. rewrite Hw. exact Hmore.
        -- rewrite Hsplit. apply (padded_last "" (String c w) more); [|exact Hmore].
           cbn. rewrite Hc. exact Hw.
      * cbn. destruct (Ascii.eqb c App.newline) eqn:Hnl.
        -- apply Ascii.eqb_eq in Hnl. subst c. discriminate Hc.
        -- rewrite Hsplit. apply (padded_last (String c "") w more); assumption.
    + set (s := String c' r') in *. rewrite !(js_split_cons _ c).
      destruct (Ascii.eqb c App.newline) eqn:Hnl.
      * apply padded_cons, IH.
      * pose proof (padded_head c _ _ IH) as Hh.
        pose proof (js_split_nonempty App.newline s) as Hne1.
        pose proof (js_split_nonempty App.newline r) as Hne2.
        destruct (js_split App.newline s) as [|h t]; [congruence|].
        destruct (js_split App.newline r) as [|h' t']; [congruence|].
        exact Hh.
Qed.

Lemma trim_start_id text : starts_with_space text = false -> trim_start text = text.
Proof.
  destruct text as [|c r]; cbn; [reflexivity|]. intros ->. reflexivity.
Qed.

Lemma rows_of_trim text :
  starts_with_space text = false -> rows_of (js_trim text) = rows_of text.
Proof.
  intros Hs. unfold js_trim. rewrite (trim_start_id _ Hs).
  apply (padded_tl_rows _ _ (split_trim_end_padded text)).
Qed.

(** ** The request of [handleImport] *)

Lemma parse_line_row line : App.parse_line line = row_json (row_of_line line).
Proof.
  unfold App.parse_line, row_of_line, row_json, App.field. cbn.
  pose proof (js_split_nonempty "," line) as Hne.
  destruct (js_split "," line) as [|x fields]; [congruence|]. reflexivity.
Qed.

Lemma name_truthy r : truthy (getq "name" (row_json r)) = has_name r.
Proof. reflexivity. Qed.

Lemma import_rows_rows text :
  App.import_rows text = List.map row_json (rows_of (js_trim text)).
Proof.
  unfold App.import_rows, rows_of, rows.
  generalize (tl (js_split App.newline (js_trim text))) as ls.
  induction ls as [|l ls IH]; [reflexivity|].
  cbn [List.map List.filter]. rewrite parse_line_row, name_truthy.
  unfold rows in *. cbn [List.map List.filter].
  destruct (has_name (row_of_line l)); cbn [List.map]; rewrite IH; reflexivity.
Qed.

(** C8, as stated, fails: the handler trims the text before it drops the
    first line.  With a blank line before the header, the first line of
    the text is the blank one, so the header is a row with the name
    [name] by the claim, and the handler posts John alone. *)
Lemma C8_leading_blank_line :
  let john := {| row_name := "John"; row_email := Some "j@x.io";
                 row_linkedin_url := None; row_company := None; row_title := None |} in
  let header := {| row_name := "name"; row_email := Some "email";
                   row_linkedin_url := None; row_company := None; row_title := None |} in
  rows_of header_after_blank_line = [header; john]
  /\ requests (trace (body LeadsPage_handleImport header_after_blank_line) []) =
       [import_request [john]]
  /\ requests (trace (body LeadsPage_handleImport header_after_blank_line) []) <>
       [import_request (rows_of header_after_blank_line)].
Proof.
  cbn zeta. split; [reflexivity|]. split; [reflexivity|].
  vm_compute. discriminate.
Qed.

(** C8, amended: for every import text and whatever the backend answers,
    [handleImport] issues one request, [POST /api/leads/import], with the
    rows of the trimmed text: its first line dropped, each other line
    split on commas, the fields trimmed and taken by position, the rows
    with a non-empty name kept, in order.  When the text does not begin
    with whitespace these are the rows of the text itself. *)
Theorem C8_import_posts_rows (importText : string) (o : list outcome) :
  requests (trace (body LeadsPage_handleImport importText) o) =
    [import_request (rows_of (js_trim importText))]
  /\ (starts_with_space importText = false ->
      rows_of (js_trim importText) = rows_of importText).
Proof.
  split; [|apply rows_of_trim].
  cbn [body]. unfold App.handleImport. cbn zeta. rewrite import_rows_rows.
  destruct o as [|[d|e] o]; try reflexivity.
  cbn. repeat (case_match; cbn); reflexivity.
Qed.

Lemma C8_import_posts_rows_witness :
  let text := "name,email" +:+ String App.newline
                ("Ada, ada@x.io" +:+ String App.newline "  ") in
  starts_with_space text = false
  /\ requests (trace (body LeadsPage_handleImport text) []) =
       [import_request (rows_of (js_trim text))]
  /\ rows_of (js_trim text) = rows_of text.
Proof.
  cbn zeta. split; [reflexivity|]. split.
  - apply (C8_import_posts_rows _ []).
  - apply (C8_import_posts_rows _ []). reflexivity.
Defined.


(* ================================================================== *)
(** * C9: toggling a lead of the selection *)
(* ================================================================== *)

Section ToggleLeadFacts.
Context {Id : Type} `{EqDecision Id}.
Implicit Types (leadId id : Id) (prev : list Id).

Lemma includes_In leadId prev : includes leadId prev = true <-> In leadId prev.
Proof.
  unfold includes. rewrite existsb_exists. split.
  - intros (id & Hin & Heq). apply bool_decide_eq_true in Heq. subst. exact Hin.
  - intros Hin. exists leadId. split; [exact Hin|]. apply bool_decide_eq_true. reflexivity.
Qed.

Lemma includes_not_In leadId prev : includes leadId prev = false <-> ~ In leadId prev.
Proof.
  rewrite <- includes_In. destruct (includes leadId prev); split; congruence.
Qed.

Lemma In_others leadId id prev :
  In id (List.filter (fun id => negb (bool_decide (id = leadId))) prev) <->
  In id prev /\ id <> leadId.
Proof.
  rewrite List.filter_In, negb_true_iff, bool_decide_eq_false. reflexivity.
Qed.

Lemma others_all leadId prev :
  ~ In leadId prev ->
  List.filter (fun id => negb (bool_decide (id = leadId))) prev = prev.
Proof.
  induction prev as [|x prev IH]; [reflexivity|]. cbn. intros Hnot.
  destruct (bool_decide_reflect (x = leadId)) as [->|Hne]; cbn.
  - exfalso. apply Hnot. left. reflexivity.
  - rewrite IH; [reflexivity|]. intros Hin. apply Hnot. right. exact Hin.
Qed.

Lemma In_toggleLead leadId id prev :
  In id (toggleLead leadId prev) <->
  (id = leadId /\ ~ In leadId prev) \/ (id <> leadId /\ In id prev).
Proof.
  unfold toggleLead. destruct (includes leadId prev) eqn:Hinc.
  - apply includes_In in Hinc. rewrite In_others. intuition congruence.
  - apply includes_not_In in Hinc. rewrite List.in_app_iff. cbn.
    destruct (decide (id = leadId)) as [->|Hne]; intuition congruence.
Qed.

Lemma toggleLead_NoDup leadId prev :
  List.NoDup prev -> List.NoDup (toggleLead leadId prev).
Proof.
  intros Hnd. unfold toggleLead. destruct (includes leadId prev) eqn:Hinc.
  - apply List.NoDup_filter, Hnd.
  - apply includes_not_In in Hinc.
    apply (Permutation_NoDup (l := leadId :: prev)).
    + apply Permutation_cons_append.
    + constructor; assumption.
Qed.

Lemma toggleLead_twice_absent leadId prev :
  ~ In leadId prev -> toggleLead leadId (toggleLead leadId prev) = prev.
Proof.
  intros Hnot. unfold toggleLead at 2.
  rewrite (proj2 (includes_not_In leadId prev) Hnot).
  unfold toggleLead.
  rewrite (proj2 (includes_In leadId (prev ++ [leadId]))).
  - rewrite List.filter_app, (others_all _ _ Hnot). cbn.
    rewrite bool_decide_eq_true_2 by reflexivity. cbn. apply app_nil_r.
  - apply List.in_app_iff. right. left. reflexivity.
Qed.

(** C9: for a selection without duplicates, the toggled list contains the
    id exactly when the selection did not; the other ids are in it exactly
    when they were; toggling twice gives the same ids again, as a
    permutation of the selection; and the toggled list has no
    duplicates. *)
Theorem C9_toggleLead leadId prev (Hnodup : List.NoDup prev) :
  (In leadId (toggleLead leadId prev) <-> ~ In leadId prev)
  /\ (forall id, id <> leadId -> (In id (toggleLead leadId prev) <-> In id prev))
  /\ (forall id, In id (toggleLead leadId (toggleLead leadId prev)) <-> In id prev)
  /\ Permutation (toggleLead leadId (toggleLead leadId prev)) prev
  /\ List.NoDup (toggleLead leadId prev).
Proof.
  assert (Hset : forall id,
             In id (toggleLead leadId (toggleLead leadId prev)) <-> In id prev).
  { intros id. rewrite !In_toggleLead.
    destruct (decide (id = leadId)) as [->|Hne]; [|intuition congruence].
    destruct (includes leadId prev) eqn:Hinc.
    - apply includes_In in Hinc. intuition congruence.
    - apply includes_not_In in Hinc. intuition congruence. }
  split; [|split; [|split; [exact Hset|split]]].
  - rewrite In_toggleLead. intuition congruence.
  - intros id Hne. rewrite In_toggleLead. intuition congruence.
  - apply Permutation.NoDup_Permutation; [| exact Hnodup | exact Hset].
    apply toggleLead_NoDup, toggleLead_NoDup, Hnodup.
  - apply toggleLead_NoDup, Hnodup.
Qed.
End ToggleLeadFacts.

Lemma C9_toggleLead_witness :
  List.NoDup ["lead-1"; "lead-2"]
  /\ toggleLead "lead-1" ["lead-1"; "lead-2"] = ["lead-2"]
  /\ toggleLead "lead-1" (toggleLead "lead-1" ["lead-1"; "lead-2"]) = ["lead-2"; "lead-1"]
  /\ Permutation (toggleLead "lead-1" (toggleLead "lead-1" ["lead-1"; "lead-2"]))
                 ["lead-1"; "lead-2"].
Proof.
  assert (Hnd : List.NoDup ["lead-1"; "lead-2"]).
  { repeat constructor; cbn; intuition discriminate. }
  split; [exact Hnd|]. split; [reflexivity|]. split; [reflexivity|].
  exact (proj1 (proj2 (proj2 (proj2 (C9_toggleLead "lead-1" ["lead-1"; "lead-2"] Hnd))))).
Defined.


(* ================================================================== *)
(** * C10: the messages grouped by lead *)
(* ================================================================== *)

(** C10 at a message of the lead [constructor]: [acc["constructor"]] of
    the empty object is the inherited [Object], which is truthy and has no
    [push]; the reducer throws a TypeError and there are no groups, so the
    message is in none. *)
Lemma C10_inherited_key_throws :
  messagesByLead fst [("constructor", "Hello")] = None
  /\ ~ exists gs, messagesByLead fst [("constructor", "Hello")] = Some gs
                  /\ Permutation (concat (List.map snd gs)) [("constructor", "Hello")].
Proof.
  split; [reflexivity|]. intros (gs & Hgs & _). discriminate Hgs.
Qed.

Section MessagesByLeadFacts.
Context {Msg : Type} (lead_id : Msg -> string).
Implicit Types (k : string) (msg : Msg) (acc : @groups Msg) (messages : list Msg).

Lemma own_push_to k k' msg acc :
  own k' (push_to k msg acc) =
  if String.eqb k' k then Some (default [] (own k acc) ++ [msg]) else own k' acc.
Proof.
  induction acc as [|[k0 ms] acc IH]; cbn.
  - destruct (String.eqb_spec k' k); reflexivity.
  - destruct (String.eqb_spec k k0) as [->|Hne]; cbn.
    + destruct (String.eqb_spec k' k0); reflexivity.
    + rewrite IH. destruct (String.eqb_spec k' k0) as [->|Hne'].
      * destruct (String.eqb_spec k0 k); [congruence | reflexivity].
      * reflexivity.
Qed.

Lemma keys_push_to k msg acc :
  List.map fst (push_to k msg acc) =
  match own k acc with
  | Some _ => List.map fst acc
  | None => List.map fst acc ++ [k]
  end.
Proof.
  induction acc as [|[k0 ms] acc IH]; cbn; [reflexivity|].
  destruct (String.eqb_spec k k0) as [->|Hne]; cbn; [reflexivity|].
  rewrite IH. destruct (own k acc); reflexivity.
Qed.

Lemma own_None k acc : own k acc = None <-> ~ In k (List.map fst acc).
Proof.
  induction acc as [|[k0 ms] acc IH]; cbn; [intuition congruence|].
  destruct (String.eqb_spec k k0) as [->|Hne]; [intuition congruence|].
  rewrite IH. intuition congruence.
Qed.

Lemma own_In k ms acc :
  List.NoDup (List.map fst acc) -> In (k, ms) acc -> own k acc = Some ms.
Proof.
  induction acc as [|[k0 ms0] acc IH]; cbn; [contradiction|].
  intros Hnd [Heq|Hin].
  - injection Heq as -> ->. rewrite String.eqb_refl. reflexivity.
  - apply List.NoDup_cons_iff in Hnd as [Hnot Hnd].
    destruct (String.eqb_spec k k0) as [->|Hne].
    + exfalso. apply Hnot. apply (List.in_map fst) in Hin. exact Hin.
    + apply IH; assumption.
Qed.

Lemma In_own k ms acc : own k acc = Some ms -> In (k, ms) acc.
Proof.
  induction acc as [|[k0 ms0] acc IH]; cbn; [discriminate|].
  destruct (String.eqb_spec k k0) as [->|Hne].
  - intros [= ->]. left. reflexivity.
  - intros Hown. right. apply IH, Hown.
Qed.

Lemma push_to_NoDup k msg acc :
  List.NoDup (List.map fst acc) -> List.NoDup (List.map fst (push_to k msg acc)).
Proof.
  intros Hnd. rewrite keys_push_to. destruct (own k acc) eqn:Hown; [exact Hnd|].
  apply own_None in Hown.
  apply (Permutation_NoDup (l := k :: List.map fst acc)).
  - apply Permutation_cons_append.
  - constructor; assumption.
Qed.

Lemma push_to_concat k msg acc :
  Permutation (concat (List.map snd (push_to k msg acc)))
              (concat (List.map snd acc) ++ [msg]).
Proof.
  induction acc as [|[k0 ms] acc IH]; cbn; [reflexivity|].
  destruct (String.eqb k k0); cbn.
  - rewrite <- !app_assoc. apply Permutation_app_head, Permutation_app_comm.
  - rewrite <- app_assoc. apply Permutation_app_head, IH.
Qed.

Lemma group_of_snoc k msg seen :
  group_of lead_id k (seen ++ [msg]) =
  if String.eqb (lead_id msg) k then group_of lead_id k seen ++ [msg] else group_of lead_id k seen.
Proof.
  unfold group_of. rewrite List.filter_app. cbn.
  destruct (String.eqb (lead_id msg) k); [reflexivity | apply app_nil_r].
Qed.

Lemma push_to_groups msg acc seen :
  groups_of lead_id acc seen -> groups_of lead_id (push_to (lead_id msg) msg acc) (seen ++ [msg]).
Proof.
  intros Hacc k. rewrite own_push_to, group_of_snoc, (String.eqb_sym k).
  destruct (String.eqb_spec (lead_id msg) k) as [<-|Hne].
  - rewrite Hacc. destruct (group_of lead_id (lead_id msg) seen) as [|m ms]; reflexivity.
  - apply Hacc.
Qed.

Lemma reduce_groups messages : forall acc seen,
  Forall (fun msg => inherited (lead_id msg) = false) messages ->
  groups_of lead_id acc seen ->
  List.NoDup (List.map fst acc) ->
  Permutation (concat (List.map snd acc)) seen ->
  exists gs,
    reduce lead_id acc messages = Some gs
    /\ groups_of lead_id gs (seen ++ messages)
    /\ List.NoDup (List.map fst gs)
    /\ Permutation (concat (List.map snd gs)) (seen ++ messages).
Proof.
  induction messages as [|msg messages IH]; intros acc seen Hkeys Hacc Hnd Hperm.
  - exists acc. rewrite app_nil_r. cbn. auto.
  - apply Forall_cons_iff in Hkeys as [Hkey Hkeys]. cbn. unfold reducer. rewrite Hkey.
    destruct (IH (push_to (lead_id msg) msg acc) (seen ++ [msg]) Hkeys) as (gs & Hgs).
    + apply push_to_groups, Hacc.
    + apply push_to_NoDup, Hnd.
    + rewrite push_to_concat. apply Permutation_app_tail, Hperm.
    + exists gs. rewrite <- app_assoc in Hgs. exact Hgs.
Qed.

(** X27.  Away from the names of the members of [Object.prototype] the
    grouping is the intended one: there is one group per lead that has a message;
    the group keyed [k] holds the messages whose [lead_id] is [k], in their
    order in the list; and the groups, concatenated, are a permutation of
    the list. *)
Theorem messagesByLead_groups messages
    (Hkeys : Forall (fun msg => inherited (lead_id msg) = false) messages) :
  exists gs,
    messagesByLead lead_id messages = Some gs
    /\ List.NoDup (List.map fst gs)
    /\ (forall k ms, In (k, ms) gs <-> ms <> [] /\ ms = group_of lead_id k messages)
    /\ Permutation (concat (List.map snd gs)) messages.
Proof.
  destruct (reduce_groups messages [] [] Hkeys) as (gs & Hred & Hgs & Hnd & Hperm).
  - intros k. reflexivity.
  - constructor.
  - reflexivity.
  - exists gs. cbn in Hgs, Hperm. split; [exact Hred|]. split; [exact Hnd|].
    split; [|exact Hperm].
    intros k ms. split.
    + intros Hin. apply (own_In _ _ _ Hnd) in Hin. rewrite Hgs in Hin.
      destruct (group_of lead_id k messages); [discriminate|].
      injection Hin as <-. split; [discriminate | reflexivity].
    + intros [Hne ->]. apply In_own. rewrite Hgs.
      destruct (group_of lead_id k messages); [congruence | reflexivity].
Qed.
End MessagesByLeadFacts.

Lemma messagesByLead_groups_witness :
  let messages := [("lead-1", "Hi"); ("lead-2", "Hello"); ("lead-1", "Again")] in
  Forall (fun msg => inherited (fst msg) = false) messages
  /\ messagesByLead fst messages =
       Some [("lead-1", [("lead-1", "Hi"); ("lead-1", "Again")]);
             ("lead-2", [("lead-2", "Hello")])]
  /\ exists gs,
       messagesByLead fst messages = Some gs
       /\ List.NoDup (List.map fst gs)
       /\ (forall k ms, In (k, ms) gs <-> ms <> [] /\ ms = group_of fst k messages)
       /\ Permutation (concat (List.map snd gs)) messages.
Proof.
  cbn zeta.
  assert (Hkeys : Forall (fun msg : string * string => inherited (fst msg) = false)
                         [("lead-1", "Hi"); ("lead-2", "Hello"); ("lead-1", "Again")]).
  { repeat constructor. }
  split; [exact Hkeys|]. split; [reflexivity|].
  exact (messagesByLead_groups fst _ Hkeys).
Defined.

(* ================================================================== *)
(** * Every handler: the checks, the requests, the failures, the flags *)
(* ================================================================== *)

(** X1.  An input that the checks of a handler turn down (a missing
    field, a declined confirmation, a file of another type, a campaign
    that is not approved, fewer than three selected leads, no line that
    matches a lead) reaches no request. *)
Theorem turned_down_inputs_reach_no_backend (h : handler) (i : input h)
    (o : list outcome) :
  lets_through h i = false -> requests (trace (body h i) o) = [].
Proof.
  destruct h; cbn [input body lets_through] in *; split_input;
    try (intros H; discriminate H);
    try (solve [autounfold with handlers; unfold chosen_document; run_atoms;
                intros; try discriminate; reflexivity]).
Qed.

Lemma turned_down_inputs_reach_no_backend_witness :
  lets_through LeadsPage_handleDelete (JStr "l1", false) = false
  /\ requests (trace (body LeadsPage_handleDelete (JStr "l1", false)) [Resolved JNull]) = [].
Proof.
  split; [reflexivity|].
  apply (turned_down_inputs_reach_no_backend LeadsPage_handleDelete (JStr "l1", false)).
  reflexivity.
Defined.


Lemma enrich_no_success_after_failure onComplete onClose us n t :
  enrich_trace onComplete onClose us n t -> no_success_after_failure t = true.
Proof.
  induction 1; cbn; auto.
  destruct onComplete, onClose; reflexivity.
Qed.

(** X3.  In every handler but [onSelectProfile], on every input and
    whatever the backend answers, no success toast is shown after a
    request was rejected. *)
Theorem success_not_after_failure :
  forall (h : handler), hasty h = false ->
  forall (i : input h) (o : list outcome),
    no_success_after_failure (trace (body h i) o) = true.
Proof.
  intros h; destruct h; intros Hs; try discriminate Hs; clear Hs;
    cbn [input body]; intros i o; split_input;
    try (solve [autounfold with handlers; run; reflexivity]).
  rewrite handleEnrich_unfold. cbn.
  destruct (BulkLeadEnrichment.collect_updates _ _); [|reflexivity].
  eapply enrich_no_success_after_failure, enrich_rest_trace.
Qed.

Lemma success_not_after_failure_witness :
  hasty LeadsPage_handleImport = false
  /\ no_success_after_failure
       (trace (body LeadsPage_handleImport "name,email") [Rejected []]) = true.
Proof.
  split; [reflexivity|].
  apply (success_not_after_failure LeadsPage_handleImport). reflexivity.
Defined.

(** [onSelectProfile] shows its toast whatever becomes of the PATCH. *)
Lemma onSelectProfile_reports_success_anyway :
  trace (body CampaignBuilder_onSelectProfile ("c1", false, fun _ => 0, JStr "p1"))
        [Rejected []] =
    [EHttp (Request PATCH "/api/campaigns/c1" (JObj [("agent_profile_id", JStr "p1")])
              JUndef) (Some (Rejected []));
     EUnhandledRejection (JObj []);
     ESpawn "fetchCampaign";
     EToast TSuccess "Agent profile linked!"].
Proof. reflexivity. Qed.

Lemma enrich_failures_handled onComplete onClose us n t :
  enrich_trace onComplete onClose us n t ->
  failures_handled t = true /\ existsb is_unhandled t = false.
Proof.
  induction 1; cbn; auto.
  destruct onComplete, onClose; split; reflexivity.
Qed.

(** X4.  Every awaited request is in a [try]: but for the two requests
    issued without [await] (the Pause button, [onSelectProfile]), a
    rejected request is at once followed by the first effect of the catch
    block (an error toast, a [console.error] or the removal of the
    session), and no rejection is left unhandled. *)
Theorem rejections_are_caught :
  forall (h : handler), fire_and_forget h = false ->
  forall (i : input h) (o : list outcome),
    failures_handled (trace (body h i) o) = true
    /\ existsb is_unhandled (trace (body h i) o) = false.
Proof.
  intros h; destruct h; intros Hs; try discriminate Hs; clear Hs;
    cbn [input body]; intros i o; split_input;
    try (solve [autounfold with handlers; run; split; reflexivity]).
  rewrite handleEnrich_unfold. cbn.
  destruct (BulkLeadEnrichment.collect_updates _ _); [|split; reflexivity].
  eapply enrich_failures_handled, enrich_rest_trace.
Qed.

Lemma rejections_are_caught_witness :
  fire_and_forget AnalyticsPage_fetchInsights = false
  /\ failures_handled (trace (body AnalyticsPage_fetchInsights tt) [Rejected []]) = true
  /\ existsb is_unhandled (trace (body AnalyticsPage_fetchInsights tt) [Rejected []])
     = false.
Proof.
  split; [reflexivity|].
  apply (rejections_are_caught AnalyticsPage_fetchInsights). reflexivity.
Defined.

Lemma enrich_rest_lowers_gen onComplete onClose us (n : nat) o :
  let m :=
    ((try (
        for_each us (fun u =>
          _ <- api PATCH ("/leads/" +:+ to_str (BulkLeadEnrichment.up_id u))
                 (obj_str [("company", BulkLeadEnrichment.up_company u);
                           ("title", BulkLeadEnrichment.up_title u);
                           ("persona_status", "pending")]) ;;
          Ret tt) ;;
        toast_success ("✅ Updated " +:+ pretty n
                       +:+ " leads! Auto-research starting...") ;;
        call_prop_if onComplete "onComplete" ;;
        call_prop_if onClose "onClose"
      ) catch (fun error => toast_error "Enrichment failed")) ;;
     set_state "processing" (JBool false)) in
  outcome_of m o = Val tt ->
  existsb (lowers "processing") (trace m o) = true
  /\ flags_lowered (trace m o) = true.
Proof.
  cbn zeta. revert o. induction us as [|u us IH]; intros o.
  - destruct onComplete, onClose; cbn; intros _; split; reflexivity.
  - cbn. destruct o as [|[d|e] o]; cbn.
    + discriminate.
    + apply IH.
    + intros _. split; reflexivity.
Qed.

Lemma enrich_rest_lowers onComplete onClose us o :
  outcome_of (enrich_rest us onComplete onClose) o = Val tt ->
  existsb (lowers "processing") (trace (enrich_rest us onComplete onClose) o) = true
  /\ flags_lowered (trace (enrich_rest us onComplete onClose) o) = true.
Proof. apply enrich_rest_lowers_gen. Qed.

Lemma handleEnrich_outcome leads enrichmentData onComplete onClose o :
  outcome_of (BulkLeadEnrichment.handleEnrich leads enrichmentData onComplete onClose) o =
  match BulkLeadEnrichment.collect_updates leads
          (js_split App.newline (js_trim enrichmentData)) with
  | Some updates => outcome_of (enrich_rest updates onComplete onClose) o
  | None => Val tt
  end.
Proof.
  unfold BulkLeadEnrichment.handleEnrich, enrich_rest.
  cbn. destruct (BulkLeadEnrichment.collect_updates _ _); reflexivity.
Qed.

(** X5.  Whenever a handler returns (no request is left pending and no
    TypeError escapes), every in-flight flag it raised has been reset to
    [false] or [null] by the end of the run. *)
Theorem flags_are_lowered (h : handler) (i : input h) (o : list outcome) :
  outcome_of (body h i) o = Val tt ->
  flags_lowered (trace (body h i) o) = true.
Proof.
  destruct h; cbn [input body] in *; split_input;
    try (solve [autounfold with handlers; run;
                first [reflexivity | intros H; discriminate H | intros _; reflexivity]]);
    try (solve [autounfold with handlers; run_atoms;
                first [reflexivity | intros H; discriminate H | intros _; reflexivity]]).
  rewrite handleEnrich_unfold, handleEnrich_outcome.
  destruct (BulkLeadEnrichment.collect_updates _ _) as [us|]; [|reflexivity].
  intros Hv. destruct (enrich_rest_lowers b0 b us o Hv) as [Hl Hf].
  cbn. rewrite Hl, Hf. reflexivity.
Qed.

Lemma flags_are_lowered_witness :
  let lead := JObj [("id", JStr "l1"); ("name", JStr "Ada")] in
  outcome_of (body ResearchPage_handleResearch lead) [Rejected []] = Val tt
  /\ flags_lowered (trace (body ResearchPage_handleResearch lead) [Rejected []]) = true.
Proof.
  cbn zeta. split; [reflexivity|].
  apply (flags_are_lowered ResearchPage_handleResearch). reflexivity.
Defined.

(** A request that never settles leaves the flag raised. *)
Lemma pending_request_keeps_the_flag :
  outcome_of (body AnalyticsPage_generateInsights (fun _ => "")) [] = Hang
  /\ flags_lowered (trace (body AnalyticsPage_generateInsights (fun _ => "")) []) = false.
Proof.
  split; reflexivity.
Qed.

(* ================================================================== *)
(** * The session: [handleAuth], [checkAuth], [handleLogout] *)
(* ================================================================== *)

Lemma starts_with_app p q s :
  starts_with (p +:+ q) (p +:+ s) = starts_with q s.
Proof.
  induction p as [|a p IH]; [reflexivity|].
  rewrite !app_cons. cbn. rewrite Ascii.eqb_refl. exact IH.
Qed.

Lemma starts_with_split p s :
  starts_with p s = true ->
  s = p +:+ String.substring (String.length p) (String.length s - String.length p) s.
Proof.
  revert s. induction p as [|a p IH]; intros s.
  - intros _. rewrite app_empty. cbn. rewrite Nat.sub_0_r.
    clear. induction s as [|c s IH]; [reflexivity|]. cbn. rewrite <- IH. reflexivity.
  - destruct s as [|b s]; cbn; [discriminate|].
    intros H. apply andb_true_iff in H as [Hab Hp].
    apply Ascii.eqb_eq in Hab. subst b. rewrite app_cons. f_equal. apply IH, Hp.
Qed.

Lemma strip_prefix_Some p s rest : strip_prefix p s = Some rest -> s = p +:+ rest.
Proof.
  unfold strip_prefix. destruct (starts_with p s) eqn:Hp; [|discriminate].
  intros [= <-]. apply starts_with_split, Hp.
Qed.

Lemma until_amp_prefix s : starts_with (until_amp s) s = true.
Proof.
  induction s as [|c s IH]; [reflexivity|]. cbn.
  destruct (Ascii.eqb c "&"); [reflexivity|]. cbn. rewrite Ascii.eqb_refl. exact IH.
Qed.

Lemma until_amp_no_amp s : has_char "&" (until_amp s) = false.
Proof.
  induction s as [|c s IH]; [reflexivity|]. cbn.
  destruct (Ascii.eqb c "&") eqn:Hc; [reflexivity|]. cbn. rewrite Hc. exact IH.
Qed.

Lemma starts_with_app_l p q s :
  starts_with p s = true -> starts_with (q +:+ p) (q +:+ s) = true.
Proof. intros H. rewrite starts_with_app. exact H. Qed.

Lemma str_includes_here needle hay :
  starts_with needle hay = true -> str_includes needle hay = true.
Proof. intros H. destruct hay; cbn in *; rewrite H; reflexivity. Qed.

Lemma str_includes_later needle c hay :
  str_includes needle hay = true -> str_includes needle (String c hay) = true.
Proof. intros H. cbn. cbn in H. rewrite H. apply orb_true_r. Qed.

Lemma match_session_id_eq hash :
  match_session_id hash =
  let later := match hash with
               | EmptyString => None
               | String _ r => match_session_id r
               end in
  match strip_prefix "session_id=" hash with
  | Some rest =>
      match until_amp rest with
      | EmptyString => later
      | cap => Some cap
      end
  | None => later
  end.
Proof. destruct hash; reflexivity. Qed.

(** What the regular expression of [handleAuth] captures. *)
Lemma match_session_id_Some hash id :
  match_session_id hash = Some id ->
  id <> EmptyString
  /\ has_char "&" id = false
  /\ str_includes ("session_id=" +:+ id) hash = true.
Proof.
  induction hash as [|c hash IH].
  - cbn. discriminate.
  - intros H.
    assert (Hlater : match_session_id hash = Some id ->
                     id <> EmptyString /\ has_char "&" id = false
                     /\ str_includes ("session_id=" +:+ id) (String c hash) = true).
    { intros H'. destruct (IH H') as (H1 & H2 & H3).
      split; [exact H1|]. split; [exact H2|]. apply str_includes_later, H3. }
    rewrite match_session_id_eq in H. cbn zeta in H.
    destruct (strip_prefix "session_id=" (String c hash)) as [rest|] eqn:Hrest;
      [|apply Hlater, H].
    destruct (until_amp rest) as [|a cap] eqn:Hcap; [apply Hlater, H|].
    injection H as <-. split; [discriminate|]. split.
    + rewrite <- Hcap. apply until_amp_no_amp.
    + apply strip_prefix_Some in Hrest. rewrite Hrest.
      apply str_includes_here, starts_with_app_l.
      rewrite <- Hcap. apply until_amp_prefix.
Qed.

Lemma until_amp_all id tail :
  has_char "&" id = false ->
  (tail = EmptyString \/ exists t, tail = String "&" t) ->
  until_amp (id +:+ tail) = id.
Proof.
  intros Hid Htail. induction id as [|c id IH].
  - rewrite app_empty. destruct Htail as [->|[t ->]]; reflexivity.
  - rewrite app_cons. cbn in *. apply orb_false_iff in Hid as [Hc Hid].
    rewrite Hc, (IH Hid). reflexivity.
Qed.

Lemma starts_with_self p x : starts_with p (p +:+ x) = true.
Proof.
  induction p as [|a p IH]; [reflexivity|].
  rewrite app_cons. cbn. rewrite Ascii.eqb_refl. exact IH.
Qed.

Lemma substring_all x : String.substring 0 (String.length x) x = x.
Proof. induction x as [|c x IH]; [reflexivity|]. cbn. rewrite IH. reflexivity. Qed.

Lemma strip_prefix_app p x : strip_prefix p (p +:+ x) = Some x.
Proof.
  unfold strip_prefix. rewrite starts_with_self. f_equal.
  induction p as [|a p IH].
  - rewrite app_empty. cbn. rewrite Nat.sub_0_r. apply substring_all.
  - rewrite app_cons. cbn. exact IH.
Qed.

(** The fragment the auth provider redirects back with. *)
Lemma match_session_id_fragment id tail :
  id <> EmptyString -> has_char "&" id = false ->
  (tail = EmptyString \/ exists t, tail = String "&" t) ->
  match_session_id ("#session_id=" +:+ id +:+ tail) = Some id.
Proof.
  intros Hne Hid Htail.
  change ("#session_id=" +:+ id +:+ tail)
    with (String "#" ("session_id=" +:+ (id +:+ tail))).
  rewrite match_session_id_eq.
  replace (strip_prefix "session_id=" (String "#" ("session_id=" +:+ (id +:+ tail))))
    with (@None string) by reflexivity.
  cbn zeta. rewrite match_session_id_eq, strip_prefix_app, (until_amp_all id tail Hid Htail).
  destruct id; [congruence | reflexivity].
Qed.

Lemma handleAuth_with_session_id hash pathname token o id :
  match_session_id hash = Some id ->
  requests (trace (App.handleAuth hash pathname token) o) = [session_exchange id].
Proof.
  intros Hid. unfold App.handleAuth. rewrite Hid.
  autounfold with handlers; run; reflexivity.
Qed.

(** X6.  When the URL fragment holds a session id, [handleAuth] issues
    one request, the exchange [POST /api/auth/session-data] with the id in
    the [X-Session-ID] header; the id is not empty, holds no [&], and
    stands in the fragment right after [session_id=]. *)
Theorem handleAuth_exchanges_session_id hash pathname token o id :
  match_session_id hash = Some id ->
  requests (trace (body AuthHandler_handleAuth (hash, pathname, token)) o)
    = [session_exchange id]
  /\ id <> EmptyString
  /\ has_char "&" id = false
  /\ str_includes ("session_id=" +:+ id) hash = true.
Proof.
  intros Hid. split; [apply handleAuth_with_session_id, Hid|].
  apply match_session_id_Some, Hid.
Qed.

Lemma handleAuth_exchanges_session_id_witness :
  match_session_id "#session_id=abc123&state=x" = Some "abc123"
  /\ requests (trace (body AuthHandler_handleAuth
                        ("#session_id=abc123&state=x", "/dashboard", None)) [])
     = [session_exchange "abc123"].
Proof.
  split; [reflexivity|].
  apply (handleAuth_exchanges_session_id
           "#session_id=abc123&state=x" "/dashboard" None [] "abc123").
  reflexivity.
Defined.

(** X7.  The fragment [#session_id=<id>], alone or followed by
    [&...], is read as the session id [<id>], for every non-empty [<id>]
    without [&]. *)
Theorem handleAuth_reads_fragment id tail pathname token o :
  id <> EmptyString -> has_char "&" id = false ->
  (tail = EmptyString \/ exists t, tail = String "&" t) ->
  requests (trace (body AuthHandler_handleAuth
                     ("#session_id=" +:+ id +:+ tail, pathname, token)) o)
    = [session_exchange id].
Proof.
  intros Hne Hid Htail. apply handleAuth_with_session_id.
  apply match_session_id_fragment; assumption.
Qed.

Lemma handleAuth_reads_fragment_witness :
  requests (trace (body AuthHandler_handleAuth
                     ("#session_id=" +:+ "s-42" +:+ "&next=1", "/", None)) [])
    = [session_exchange "s-42"].
Proof.
  apply handleAuth_reads_fragment.
  - discriminate.
  - reflexivity.
  - right. eexists. reflexivity.
Defined.

Lemma assoc_without k k' fs :
  assoc k' (without k fs) = if String.eqb k' k then None else assoc k' fs.
Proof.
  unfold without. induction fs as [|[k0 v] fs IH]; cbn.
  - destruct (String.eqb k' k); reflexivity.
  - destruct (String.eqb_spec k0 k) as [->|Hne]; cbn.
    + rewrite IH. destruct (String.eqb_spec k' k); [reflexivity|]. reflexivity.
    + rewrite IH. destruct (String.eqb_spec k' k0) as [->|Hne'].
      * destruct (String.eqb_spec k0 k); [congruence | reflexivity].
      * reflexivity.
Qed.

(** X8.  When the exchange resolves with an object, [handleAuth] stores
    its [session_token] (as a string) under [session_token], and under
    [user] the other fields of the object: the stored user never holds the
    token.  It then cleans the URL, greets, and goes to the dashboard. *)
Theorem handleAuth_stores_session hash pathname token id fs o :
  match_session_id hash = Some id ->
  exists user,
    trace (body AuthHandler_handleAuth (hash, pathname, token))
          (Resolved (JObj fs) :: o) =
      [EHttp (session_exchange id) (Some (Resolved (JObj fs)));
       EStorageSet "session_token"
         (SText (to_str (default JUndef (assoc "session_token" fs))));
       EStorageSet "user" (SJson (JObj user));
       EReplaceState pathname;
       EToast TSuccess "Welcome back!";
       ENavigate "/dashboard";
       ESet "loading" (JBool false)]
    /\ assoc "session_token" user = None
    /\ forall k, k <> "session_token" -> assoc k user = assoc k fs.
Proof.
  intros Hid. exists (without "session_token" fs). split; [|split].
  - cbn [body]. unfold App.handleAuth. rewrite Hid. reflexivity.
  - rewrite assoc_without. reflexivity.
  - intros k Hk. rewrite assoc_without.
    destruct (String.eqb_spec k "session_token"); [congruence | reflexivity].
Qed.

Lemma handleAuth_stores_session_witness :
  exists user,
    trace (body AuthHandler_handleAuth ("#session_id=abc", "/dashboard", None))
          [Resolved (JObj [("id", JStr "u1"); ("session_token", JStr "tok");
                           ("email", JStr "ada@x.io")])] =
      [EHttp (session_exchange "abc")
         (Some (Resolved (JObj [("id", JStr "u1"); ("session_token", JStr "tok");
                                ("email", JStr "ada@x.io")])));
       EStorageSet "session_token" (SText "tok");
       EStorageSet "user" (SJson (JObj user));
       EReplaceState "/dashboard";
       EToast TSuccess "Welcome back!";
       ENavigate "/dashboard";
       ESet "loading" (JBool false)]
    /\ assoc "session_token" user = None
    /\ forall k, k <> "session_token" ->
         assoc k user = assoc k [("id", JStr "u1"); ("session_token", JStr "tok");
                                 ("email", JStr "ada@x.io")].
Proof.
  apply (handleAuth_stores_session "#session_id=abc" "/dashboard" None "abc"
           [("id", JStr "u1"); ("session_token", JStr "tok"); ("email", JStr "ada@x.io")]
           []).
  reflexivity.
Defined.

(** X9.  [handleAuth] goes to the dashboard, or stores anything in
    [localStorage], only in a run whose request the backend resolved.  It
    removes from [localStorage] only [session_token] and [user], and only
    in a run without a session id in the fragment, with a stored token,
    whose [GET /api/auth/me] the backend rejected. *)
Theorem handleAuth_enters_after_backend hash pathname token o :
  ((In (ENavigate "/dashboard")
       (trace (body AuthHandler_handleAuth (hash, pathname, token)) o)
    \/ exists k v, In (EStorageSet k v)
                     (trace (body AuthHandler_handleAuth (hash, pathname, token)) o)) ->
   exists d o', o = Resolved d :: o')
  /\ (forall k, In (EStorageRemove k)
                  (trace (body AuthHandler_handleAuth (hash, pathname, token)) o) ->
        (k = "session_token" \/ k = "user")
        /\ match_session_id hash = None
        /\ App.has_token token = true
        /\ exists e o', o = Rejected e :: o'
             /\ requests (trace (body AuthHandler_handleAuth (hash, pathname, token)) o)
                = [Request GET "/api/auth/me" JUndef JUndef]).
Proof.
  cbn [body]. unfold App.handleAuth.
  destruct (match_session_id hash) as [id|].
  - split.
    + destruct o as [|[d|e] o]; [| eauto |];
        cbn; intros [H|(k & v & H)];
        repeat (destruct H as [H|H]; try discriminate H); contradiction.
    + intros k. destruct o as [|[d|e] o]; autounfold with handlers; run;
        intros H; repeat (destruct H as [H|H]; try discriminate H); contradiction.
  - destruct (App.has_token token).
    + split.
      * destruct o as [|[d|e] o]; [| eauto |];
          cbn; intros [H|(k & v & H)];
          repeat (destruct H as [H|H]; try discriminate H); contradiction.
      * intros k. destruct o as [|[d|e] o]; cbn; intros H.
        -- repeat (destruct H as [H|H]; try discriminate H); contradiction.
        -- repeat (destruct H as [H|H]; try discriminate H); contradiction.
        -- destruct H as [H|[H|[H|[H|[H|[]]]]]]; try discriminate H;
             injection H as <-;
             (split; [auto | repeat split; eexists _, _; split; reflexivity]).
    + split.
      * cbn. intros [H|(k & v & H)];
          repeat (destruct H as [H|H]; try discriminate H); contradiction.
      * intros k. cbn. intros H.
        repeat (destruct H as [H|H]; try discriminate H); contradiction.
Qed.

Lemma handleAuth_enters_after_backend_witness :
  (exists d o', [Resolved (JObj [("email", JStr "ada@x.io")])] = Resolved d :: o')
  /\ match_session_id "" = None.
Proof.
  split.
  - apply (proj1 (handleAuth_enters_after_backend "" "/" (Some "tok")
                    [Resolved (JObj [("email", JStr "ada@x.io")])])).
    left. cbn. right. left. reflexivity.
  - apply (proj2 (handleAuth_enters_after_backend "" "/" (Some "tok") [Rejected []])
             "user").
    cbn. right. right. left. reflexivity.
Defined.

(** X10.  [checkAuth] sets [isAuthenticated] to [true] exactly when a
    token is stored and [GET /api/auth/me] resolved. *)
Theorem checkAuth_grants_after_backend (sessionToken : option string)
    (o : list outcome) :
  In (ESet "isAuthenticated" (JBool true))
     (trace (body ProtectedRoute_checkAuth sessionToken) o)
  <-> App.has_token sessionToken = true /\ exists d o', o = Resolved d :: o'.
Proof.
  cbn [body]. unfold App.checkAuth.
  destruct (App.has_token sessionToken); cbn.
  - destruct o as [|[d|e] o]; cbn.
    + split; [intros [H|[]]; discriminate H | intros (_ & d & o' & H); discriminate H].
    + split; [eauto | intros _; right; left; reflexivity].
    + split.
      * intros H. repeat (destruct H as [H|H]; try discriminate H). contradiction.
      * intros (_ & d & o' & H). discriminate H.
  - split; [intros [H|[]]; discriminate H | intros (H & _); discriminate H].
Qed.

Lemma checkAuth_grants_after_backend_witness :
  In (ESet "isAuthenticated" (JBool true))
     (trace (body ProtectedRoute_checkAuth (Some "tok")) [Resolved JNull]).
Proof.
  apply (checkAuth_grants_after_backend (Some "tok") [Resolved JNull]).
  split; [reflexivity|]. exists JNull, []. reflexivity.
Defined.

(** Without a token, or with an empty one, [checkAuth] asks nothing. *)
Lemma checkAuth_without_token_asks_nothing (o : list outcome) :
  trace (body ProtectedRoute_checkAuth None) o = [ESet "isAuthenticated" (JBool false)]
  /\ trace (body ProtectedRoute_checkAuth (Some "")) o
     = [ESet "isAuthenticated" (JBool false)].
Proof. split; reflexivity. Qed.

(** X11.  Once [POST /api/auth/logout] has settled, resolved or
    rejected, [handleLogout] has removed [session_token] and [user] from
    [localStorage], has left the state variables alone, and ends at
    [/]. *)
Theorem handleLogout_clears_session (answer : outcome) (o : list outcome) (s : ui) :
  let t := trace (body DashboardLayout_handleLogout tt) (answer :: o) in
  let s' := run_events t s in
  requests t = [Request POST "/api/auth/logout" JUndef JUndef]
  /\ storage s' !! "session_token" = None
  /\ storage s' !! "user" = None
  /\ vars s' = vars s
  /\ last t = Some (ENavigate "/").
Proof.
  cbn zeta. destruct answer as [d|e]; cbn.
  - repeat split; try reflexivity.
    + rewrite lookup_delete_ne by discriminate. apply lookup_delete_eq.
    + apply lookup_delete_eq.
  - repeat split; try reflexivity.
    + rewrite lookup_delete_ne by discriminate. apply lookup_delete_eq.
    + apply lookup_delete_eq.
Qed.

(** While the request is pending nothing is removed. *)
Lemma handleLogout_waits_for_the_backend (s : ui) :
  trace (body DashboardLayout_handleLogout tt) []
    = [EHttp (Request POST "/api/auth/logout" JUndef JUndef) None]
  /\ run_events (trace (body DashboardLayout_handleLogout tt) []) s = s.
Proof. split; reflexivity. Qed.

Lemma all_chars_app p a b : all_chars p (a +:+ b) = all_chars p a && all_chars p b.
Proof.
  induction a as [|c a IH]; [reflexivity|].
  rewrite app_cons. cbn. rewrite IH. apply andb_assoc.
Qed.

Lemma encode_char_safe c :
  all_chars uri_safe (encodeURIComponent (String c EmptyString)) = true.
Proof. destruct c as [[] [] [] [] [] [] [] []]; vm_compute; reflexivity. Qed.

Lemma encodeURIComponent_cons c s :
  encodeURIComponent (String c s) =
  encodeURIComponent (String c EmptyString) +:+ encodeURIComponent s.
Proof.
  cbn [encodeURIComponent].
  generalize (if uri_unreserved c then String c EmptyString
              else if (code c <? 128)%N then percent (code c)
                   else percent (192 + code c / 64) +:+ percent (128 + code c mod 64)).
  intros x. clear.
  assert (H : forall y : string, y +:+ EmptyString = y).
  { induction y as [|a y IH]; [reflexivity|]. rewrite app_cons, IH. reflexivity. }
  rewrite H. reflexivity.
Qed.

Lemma encodeURIComponent_safe s : all_chars uri_safe (encodeURIComponent s) = true.
Proof.
  induction s as [|c s IH]; [reflexivity|].
  rewrite encodeURIComponent_cons, all_chars_app, encode_char_safe, IH. reflexivity.
Qed.

Lemma all_chars_has_char p c s :
  all_chars p s = true -> p c = false -> has_char c s = false.
Proof.
  intros Hs Hc. induction s as [|a s IH]; [reflexivity|]. cbn in *.
  apply andb_true_iff in Hs as [Ha Hs]. rewrite (IH Hs), orb_false_r.
  destruct (Ascii.eqb_spec a c) as [->|]; [congruence | reflexivity].
Qed.

(** X12.  [handleLogin] sends the browser to the auth provider with one
    query parameter: the redirect target is the encoded origin, made of
    unreserved characters and escapes only, so it holds no [&], [#], [?],
    [=], [/], [:] or space. *)
Theorem handleLogin_redirect (origin : string) (o : list outcome) :
  exists target,
    trace (body LandingPage_handleLogin origin) o =
      [ELocation ("https://auth.emergentagent.com/?redirect=" +:+ target)]
    /\ target = encodeURIComponent (origin +:+ "/dashboard")
    /\ all_chars uri_safe target = true
    /\ forallb (fun c => negb (has_char c target)) ["&"; "#"; "?"; "="; "/"; ":"; " "]%char
       = true.
Proof.
  eexists. split; [reflexivity|]. split; [reflexivity|].
  pose proof (encodeURIComponent_safe (origin +:+ "/dashboard")) as Hsafe.
  split; [exact Hsafe|].
  cbn [forallb]. rewrite !(all_chars_has_char _ _ _ Hsafe) by reflexivity. reflexivity.
Qed.

(* ================================================================== *)
(** * Lists typed into a text field *)
(* ================================================================== *)

Lemma trim_start_head s :
  match trim_start s with
  | EmptyString => True
  | String c _ => is_ws c = false
  end.
Proof.
  induction s as [|c s IH]; cbn; [exact I|].
  destruct (is_ws c) eqn:Hc; [exact IH | exact Hc].
Qed.

Lemma trim_end_head c r :
  is_ws c = false -> exists r', trim_end (String c r) = String c r'.
Proof.
  intros Hc. cbn. destruct (trim_end r); rewrite ?Hc; eauto.
Qed.

Lemma trim_end_idem s : trim_end (trim_end s) = trim_end s.
Proof.
  induction s as [|c s IH]; [reflexivity|]. cbn.
  destruct (trim_end s) as [|a r'] eqn:Hs.
  - destruct (is_ws c) eqn:Hc; [reflexivity|]. cbn. rewrite Hc. reflexivity.
  - cbn [trim_end] in *. rewrite IH. reflexivity.
Qed.

Lemma js_trim_idem s : js_trim (js_trim s) = js_trim s.
Proof.
  unfold js_trim. pose proof (trim_start_head s) as Hh.
  destruct (trim_start s) as [|c r]; [reflexivity|].
  destruct (trim_end_head c r Hh) as [r' Hr]. rewrite Hr.
  cbn [trim_start]. rewrite Hh, <- Hr. apply trim_end_idem.
Qed.

Lemma js_trim_trimmed s : trimmed (js_trim s) = true.
Proof. unfold trimmed. rewrite js_trim_idem. apply String.eqb_refl. Qed.

Lemma Forall_map_trim (ls : list string) :
  Forall (fun s => trimmed s = true) (List.map js_trim ls).
Proof.
  induction ls; cbn; constructor; [apply js_trim_trimmed | assumption].
Qed.

(** X13.  Every lead that [handleImport] posts has a name that is not
    empty and has no whitespace at either end; and there are fewer leads
    than lines in the trimmed text. *)
Theorem imported_leads_have_names (importText : string) :
  Forall (fun lead =>
            exists name, get "name" lead = Some (JStr name)
                         /\ name <> EmptyString /\ trimmed name = true)
         (App.import_rows importText)
  /\ (length (App.import_rows importText)
      < length (js_split App.newline (js_trim importText)))%nat.
Proof.
  unfold App.import_rows. cbn zeta.
  pose proof (js_split_nonempty App.newline (js_trim importText)) as Hne.
  destruct (js_split App.newline (js_trim importText)) as [|header ls]; [congruence|].
  cbn [tl length]. split.
  - apply List.Forall_forall. intros lead Hin. apply List.filter_In in Hin as [Hin Hname].
    apply List.in_map_iff in Hin as (line & <- & _).
    rewrite parse_line_row in *. rewrite name_truthy in Hname.
    exists (row_name (row_of_line line)). split; [reflexivity|]. split.
    + intros Hempty. unfold has_name in Hname. rewrite Hempty in Hname.
      discriminate Hname.
    + unfold row_of_line. cbn.
      pose proof (js_split_nonempty "," line) as Hf.
      destruct (js_split "," line) as [|x fields]; [congruence|]. cbn.
      apply js_trim_trimmed.
  - pose proof (List.filter_length_le
                  (fun lead => truthy (getq "name" lead)) (List.map App.parse_line ls)) as Hle.
    rewrite length_map in Hle. lia.
Qed.

(** X14.  An import text of one line (the header alone, or nothing) is
    still posted, with an empty list of leads. *)
Theorem import_of_one_line_posts_no_lead (importText : string) (o : list outcome) :
  has_char App.newline (js_trim importText) = false ->
  requests (trace (body LeadsPage_handleImport importText) o)
    = [Request POST "/api/leads/import" (JObj [("leads", JArr [])]) JUndef].
Proof.
  intros Hnl. cbn [body]. unfold App.handleImport. cbn zeta.
  assert (Hrows : App.import_rows importText = []).
  { unfold App.import_rows. cbn zeta.
    assert (Hsplit : forall s, has_char App.newline s = false ->
                               js_split App.newline s = [s]).
    { induction s as [|c s IH]; [reflexivity|]. cbn.
      intros H. apply orb_false_iff in H as [Hc Hs]. rewrite Hc, (IH Hs). reflexivity. }
    rewrite (Hsplit _ Hnl). reflexivity. }
  rewrite Hrows.
  destruct o as [|[d|e] o]; try reflexivity.
  cbn. repeat (case_match; cbn); reflexivity.
Qed.

Lemma import_of_one_line_posts_no_lead_witness :
  requests (trace (body LeadsPage_handleImport "name,email,linkedin_url,company,title") [])
    = [Request POST "/api/leads/import" (JObj [("leads", JArr [])]) JUndef].
Proof. apply import_of_one_line_posts_no_lead. reflexivity. Defined.

(** X15.  The words to avoid that [handleCreate] posts are never empty
    and have no whitespace at either end, whatever was typed. *)
Theorem avoid_list_entries (avoid_words : string) :
  Forall (fun w => exists s, w = JStr s /\ s <> EmptyString /\ trimmed s = true)
         (AIAgentProfileManager.avoid_list avoid_words).
Proof.
  unfold AIAgentProfileManager.avoid_list.
  apply List.Forall_forall. intros w Hin.
  apply List.in_map_iff in Hin as (s & <- & Hin).
  apply List.filter_In in Hin as [Hin Hne].
  exists s. split; [reflexivity|]. split.
  - intros ->. discriminate Hne.
  - apply List.in_map_iff in Hin as (x & <- & _). apply js_trim_trimmed.
Qed.

Lemma split_comma_head w rest :
  has_char "," w = false ->
  js_split "," (w +:+ String "," rest) = w :: js_split "," rest.
Proof.
  intros Hw. induction w as [|c w IH].
  - rewrite app_empty. reflexivity.
  - rewrite app_cons. cbn in *. apply orb_false_iff in Hw as [Hc Hw].
    rewrite Hc, (IH Hw). reflexivity.
Qed.

Lemma split_comma_whole w : has_char "," w = false -> js_split "," w = [w].
Proof.
  induction w as [|c w IH]; [reflexivity|]. cbn.
  intros H. apply orb_false_iff in H as [Hc Hw]. rewrite Hc, (IH Hw). reflexivity.
Qed.

Lemma map_trim_split_space x :
  List.map js_trim (js_split "," (String " " x)) = List.map js_trim (js_split "," x).
Proof.
  rewrite js_split_cons. cbn [Ascii.eqb Bool.eqb].
  pose proof (js_split_nonempty "," x) as Hne.
  destruct (js_split "," x) as [|h t]; [congruence|]. reflexivity.
Qed.

(** The words a profile shows, [avoid_words.join(', ')] (part_001:462). *)
Lemma join_words_cons w w' ws :
  js_join ", " (List.map JStr (w :: w' :: ws)) =
  w +:+ String "," (String " " (js_join ", " (List.map JStr (w' :: ws)))).
Proof. reflexivity. Qed.

(** X16.  Typing in the words as a profile shows them
    ([avoid_words.join(', ')]) gives the same list back, for words that
    are not empty, have no whitespace at either end and hold no comma. *)
Theorem avoid_list_of_joined_words (words : list string) :
  Forall (fun w => w <> EmptyString /\ trimmed w = true /\ has_char "," w = false) words ->
  AIAgentProfileManager.avoid_list (js_join ", " (List.map JStr words))
    = List.map JStr words.
Proof.
  unfold AIAgentProfileManager.avoid_list.
  induction words as [|w [|w' ws] IH]; intros Hws.
  - reflexivity.
  - apply Forall_cons_iff in Hws as [(Hne & Ht & Hc) _].
    cbn [List.map js_join to_str]. rewrite (split_comma_whole _ Hc). cbn.
    apply String.eqb_eq in Ht. rewrite Ht.
    destruct (String.eqb_spec w ""); [congruence | reflexivity].
  - apply Forall_cons_iff in Hws as [(Hne & Ht & Hc) Hws].
    rewrite join_words_cons, (split_comma_head _ _ Hc).
    cbn [List.map]. rewrite map_trim_split_space.
    apply String.eqb_eq in Ht. rewrite Ht. cbn [List.filter].
    destruct (String.eqb_spec w ""); [congruence|]. cbn [negb List.map].
    f_equal. apply IH, Hws.
Qed.

Lemma avoid_list_of_joined_words_witness :
  AIAgentProfileManager.avoid_list
    (js_join ", " (List.map JStr ["synergy"; "cutting edge"; "disrupt"]))
  = List.map JStr ["synergy"; "cutting edge"; "disrupt"].
Proof.
  apply avoid_list_of_joined_words.
  repeat constructor; discriminate.
Defined.

(* ================================================================== *)
(** * BulkLeadEnrichment: which leads a pasted line updates *)
(* ================================================================== *)

Lemma js_find_found p items x :
  js_find p items = Some x -> truthy x = true ->
  In x items /\ p x = Some true.
Proof.
  induction items as [|y items IH]; cbn.
  - intros [= <-]. discriminate.
  - destruct (p y) as [[|]|] eqn:Hp; [| |discriminate].
    + intros [= <-] _. split; [left; reflexivity | exact Hp].
    + intros Hf Hx. destruct (IH Hf Hx) as [Hin Hpx]. split; [right; exact Hin | exact Hpx].
Qed.

(** X17.  Every update that [handleEnrich] collects comes from one of
    the pasted lines with at least three fields and from one of the given
    leads: the lead's name contains the name of the line or is contained
    in it (case aside), the update carries the lead's id and the company
    and title of the line. *)
Theorem enrichment_updates_matching_leads leads lines updates u :
  BulkLeadEnrichment.collect_updates leads lines = Some updates ->
  In u updates ->
  exists items lead line name more,
    leads = JArr items /\ In lead items /\ In line lines
    /\ List.map js_trim (js_split "|" line)
       = name :: BulkLeadEnrichment.up_company u :: BulkLeadEnrichment.up_title u :: more
    /\ BulkLeadEnrichment.name_matches name lead = Some true
    /\ BulkLeadEnrichment.up_id u = getq "id" lead.
Proof.
  revert updates. induction lines as [|line lines IH]; intros updates; cbn.
  - intros [= <-] [].
  - assert (Hlater : forall ups,
               BulkLeadEnrichment.collect_updates leads lines = Some ups ->
               In u ups ->
               exists items lead line0 name more,
                 leads = JArr items /\ In lead items /\ (line = line0 \/ In line0 lines)
                 /\ List.map js_trim (js_split "|" line0)
                    = name :: BulkLeadEnrichment.up_company u
                           :: BulkLeadEnrichment.up_title u :: more
                 /\ BulkLeadEnrichment.name_matches name lead = Some true
                 /\ BulkLeadEnrichment.up_id u = getq "id" lead).
    { intros ups Hc Hin. destruct (IH _ Hc Hin) as (items & lead & l0 & name & more & H).
      exists items, lead, l0, name, more. intuition. }
    clear IH.
    destruct (List.map js_trim (js_split "|" line))
      as [|name [|company [|title more]]] eqn:Hfields; try apply Hlater.
    destruct leads as [| | | | |items|]; cbn [as_array]; try discriminate.
    destruct (js_find (BulkLeadEnrichment.name_matches name) items) as [lead|] eqn:Hfind;
      [|discriminate].
    destruct (BulkLeadEnrichment.collect_updates (JArr items) lines) as [rest|] eqn:Hrest;
      [|discriminate].
    intros [= <-] Hin. apply List.in_app_iff in Hin as [Hin|Hin].
    + destruct (truthy lead) eqn:Hlead; [|destruct Hin].
      destruct Hin as [<-|[]]. cbn [BulkLeadEnrichment.up_id BulkLeadEnrichment.up_company
                                     BulkLeadEnrichment.up_title].
      destruct (js_find_found _ _ _ Hfind Hlead) as [Hl Hm].
      exists items, lead, line, name, more. auto 10.
    + apply (Hlater _ eq_refl Hin).
Qed.

Lemma enrichment_updates_matching_leads_witness :
  let ada := JObj [("id", JStr "l1"); ("name", JStr "Ada Lovelace")] in
  let u := {| BulkLeadEnrichment.up_id := JStr "l1";
              BulkLeadEnrichment.up_company := "Acme";
              BulkLeadEnrichment.up_title := "CEO" |} in
  BulkLeadEnrichment.collect_updates (JArr [ada]) ["ada | Acme | CEO"] = Some [u]
  /\ exists items lead line name more,
       JArr [ada] = JArr items /\ In lead items /\ In line ["ada | Acme | CEO"]
       /\ List.map js_trim (js_split "|" line) = name :: "Acme" :: "CEO" :: more
       /\ BulkLeadEnrichment.name_matches name lead = Some true
       /\ JStr "l1" = getq "id" lead.
Proof.
  cbn zeta. split; [reflexivity|].
  apply (enrichment_updates_matching_leads
           (JArr [JObj [("id", JStr "l1"); ("name", JStr "Ada Lovelace")]])
           ["ada | Acme | CEO"]
           [{| BulkLeadEnrichment.up_id := JStr "l1";
               BulkLeadEnrichment.up_company := "Acme";
               BulkLeadEnrichment.up_title := "CEO" |}]
           {| BulkLeadEnrichment.up_id := JStr "l1";
              BulkLeadEnrichment.up_company := "Acme";
              BulkLeadEnrichment.up_title := "CEO" |}).
  - reflexivity.
  - left. reflexivity.
Defined.

Lemma str_includes_empty hay : str_includes EmptyString hay = true.
Proof. destruct hay; reflexivity. Qed.

(** X18.  A pasted line whose name field is blank matches every name:
    it updates the first lead of the list. *)
Theorem blank_name_updates_first_lead lead rest line company title more lname :
  get "name" lead = Some (JStr lname) ->
  List.map js_trim (js_split "|" line) = EmptyString :: company :: title :: more ->
  BulkLeadEnrichment.collect_updates (JArr (lead :: rest)) [line]
    = Some [{| BulkLeadEnrichment.up_id := getq "id" lead;
               BulkLeadEnrichment.up_company := company;
               BulkLeadEnrichment.up_title := title |}].
Proof.
  intros Hname Hfields. cbn. rewrite Hfields. cbn.
  unfold BulkLeadEnrichment.name_matches at 1. rewrite Hname.
  cbn [toLowerCase]. rewrite str_includes_empty. cbn.
  destruct lead; try discriminate Hname; reflexivity.
Qed.

Lemma blank_name_updates_first_lead_witness :
  BulkLeadEnrichment.collect_updates
    (JArr [JObj [("id", JStr "l1"); ("name", JStr "Ada Lovelace")];
           JObj [("id", JStr "l2"); ("name", JStr "Grace Hopper")]])
    [" | Acme | CEO"]
  = Some [{| BulkLeadEnrichment.up_id := JStr "l1";
             BulkLeadEnrichment.up_company := "Acme";
             BulkLeadEnrichment.up_title := "CEO" |}].
Proof.
  apply (blank_name_updates_first_lead
           (JObj [("id", JStr "l1"); ("name", JStr "Ada Lovelace")])
           [JObj [("id", JStr "l2"); ("name", JStr "Grace Hopper")]]
           " | Acme | CEO" "Acme" "CEO" [] "Ada Lovelace"); reflexivity.
Defined.

(* ================================================================== *)
(** * CampaignBuilder: the default steps and the product information *)
(* ================================================================== *)

(** X19.  The initialization of the default steps posts the three steps
    in order and stops at the first POST that does not resolve: the
    requests are the first [1 + r] of the three, [r] being the number of
    POSTs resolved so far, and the success toast is shown exactly when all
    three resolved.  Both versions. *)
Theorem default_steps_stop_at_first_failure
    (campaignId : string) (now : nat -> Z) (campaignData channel : json)
    (o : list outcome) :
  get "goal_type" campaignData = Some channel ->
  let t := trace (body CampaignBuilder_initializeDefaultSteps
                    (campaignId, false, now, campaignData)) o in
  let t0 := trace (body CampaignBuilder_initializeDefaultSteps0
                     (campaignId, false, now, campaignData)) o in
  requests t = firstn (S (leading_resolved o))
                 (step_requests campaignId (CampaignBuilder.defaultSteps channel now))
  /\ requests t0 = firstn (S (leading_resolved o))
                     (step_requests campaignId (CampaignBuilder.defaultSteps0 channel now))
  /\ existsb is_success_toast t = (3 <=? leading_resolved o)%nat
  /\ existsb is_success_toast t0 = (3 <=? leading_resolved o)%nat.
Proof.
  intros Hch. cbn [body]. 
  unfold CampaignBuilder.initializeDefaultSteps, CampaignBuilder.initializeDefaultSteps0.
  cbn. rewrite Hch.
  destruct o as [|[d1|e1] [|[d2|e2] [|[d3|e3] o]]]; repeat split; reflexivity.
Qed.

Lemma default_steps_stop_at_first_failure_witness :
  let data := JObj [("id", JStr "c1"); ("goal_type", JStr "linkedin")] in
  let o := [Resolved JNull; Rejected []] in
  length (requests (trace (body CampaignBuilder_initializeDefaultSteps
                             ("c1", false, fun _ => 0, data)) o)) = 2%nat
  /\ existsb is_success_toast
       (trace (body CampaignBuilder_initializeDefaultSteps
                 ("c1", false, fun _ => 0, data)) o) = false.
Proof.
  cbn zeta.
  destruct (default_steps_stop_at_first_failure "c1" (fun _ => 0)
              (JObj [("id", JStr "c1"); ("goal_type", JStr "linkedin")])
              (JStr "linkedin") [Resolved JNull; Rejected []] eq_refl)
    as (Hr & _ & Hs & _).
  split; [rewrite Hr; reflexivity | rewrite Hs; reflexivity].
Defined.

Lemma assoc_spread_set k k' v fs :
  assoc k' (spread_set k v fs) = if String.eqb k' k then Some v else assoc k' fs.
Proof.
  induction fs as [|[k0 v0] fs IH]; cbn.
  - destruct (String.eqb k' k); reflexivity.
  - destruct (String.eqb_spec k k0) as [->|Hne]; cbn.
    + destruct (String.eqb k' k0); reflexivity.
    + rewrite IH. destruct (String.eqb_spec k' k0) as [->|Hne'].
      * destruct (String.eqb_spec k0 k); [congruence | reflexivity].
      * reflexivity.
Qed.

(** X20.  [updateProductInfo] sets one field of [product_info] and keeps
    everything else: the other fields of [campaignEdits] and the other
    fields of [product_info]. *)
Theorem updateProductInfo_changes_one_field
    (fs : list (string * json)) (field : string) (value : json) (o : list outcome) :
  let old := spread (js_or (getq "product_info" (JObj fs)) (JObj [])) in
  exists fs' info,
    trace (CampaignBuilder.updateProductInfo (JObj fs) field value) o
      = [ESet "campaignEdits" (JObj fs')]
    /\ assoc "product_info" fs' = Some (JObj info)
    /\ (forall k, k <> "product_info" -> assoc k fs' = assoc k fs)
    /\ assoc field info = Some value
    /\ (forall k, k <> field -> assoc k info = assoc k old).
Proof.
  cbn zeta. eexists _, _. split; [reflexivity|].
  split; [|split; [|split]].
  - rewrite assoc_spread_set. reflexivity.
  - intros k Hk. rewrite assoc_spread_set.
    destruct (String.eqb_spec k "product_info"); [congruence | reflexivity].
  - rewrite assoc_spread_set, String.eqb_refl. reflexivity.
  - intros k Hk. rewrite assoc_spread_set.
    destruct (String.eqb_spec k field); [congruence | reflexivity].
Qed.

(** X21.  After an upload that succeeded, [handleFileUpload] calls
    [updateProductInfo] twice, both times from the [campaignEdits] of the
    same render: the second state replaces the first, so the state ends
    with [parsed_content] set and [file_urls] as it was before, without
    the name of the uploaded file. *)
Theorem upload_loses_the_file_name
    (campaign id : json) (fs : list (string * json)) (name : string)
    (data preview : json) (urls : list json) (o : list outcome) :
  let productInfo := js_or (getq "product_info" (JObj fs)) (JObj []) in
  is_document_name name = true ->
  get "id" campaign = Some id ->
  iterate (js_or (getq "file_urls" productInfo) (JArr [])) = Some urls ->
  get "preview" data = Some preview ->
  let t := trace (body ProductInfoEditor_handleFileUpload (campaign, JObj fs, Some name))
                 (Resolved data :: o) in
  List.filter (fun ev => match ev with ESet "campaignEdits" _ => true | _ => false end) t
    = [ESet "campaignEdits"
         (JObj (spread_set "product_info"
                  (JObj (spread_set "file_urls" (JArr (urls ++ [JStr name]))
                           (spread productInfo)))
                  fs));
       ESet "campaignEdits"
         (JObj (spread_set "product_info"
                  (JObj (spread_set "parsed_content" preview (spread productInfo)))
                  fs))]
  /\ exists fs' info,
       final_state "campaignEdits" t = Some (JObj fs')
       /\ assoc "product_info" fs' = Some (JObj info)
       /\ assoc "parsed_content" info = Some preview
       /\ assoc "file_urls" info = assoc "file_urls" (spread productInfo).
Proof.
  cbn zeta. intros Hdoc Hid Hurls Hprev.
  cbn [body]. unfold CampaignBuilder.handleFileUpload. rewrite Hdoc.
  autounfold with handlers. cbn in Hurls |- *. rewrite Hid. cbn.
  set (productInfo := js_or (default JUndef (assoc "product_info" fs)) (JObj [])) in *.
  assert (Hpi : get "file_urls" productInfo <> None).
  { subst productInfo. unfold js_or.
    destruct (truthy (default JUndef (assoc "product_info" fs))) eqn:Ht; [|discriminate].
    destruct (default JUndef (assoc "product_info" fs)); try discriminate Ht; discriminate. }
  destruct (get "file_urls" productInfo) as [file_urls|]; [|congruence].
  cbn in Hurls |- *. rewrite Hurls. cbn. rewrite Hprev. cbn.
  split; [reflexivity|].
  eexists _, _. unfold final_state. cbn.
  split; [rewrite lookup_insert_ne by discriminate; apply lookup_insert_eq|].
  split; [rewrite assoc_spread_set; reflexivity|].
  split; [rewrite assoc_spread_set; reflexivity|].
  rewrite assoc_spread_set. reflexivity.
Qed.

Lemma upload_loses_the_file_name_witness :
  let campaignEdits :=
    [("name", JStr "Launch");
     ("product_info", JObj [("file_urls", JArr [JStr "old.pdf"])])] in
  let t := trace (body ProductInfoEditor_handleFileUpload
                    (JObj [("id", JStr "c1")], JObj campaignEdits, Some "deck.PDF"))
                 [Resolved (JObj [("preview", JStr "Our product")])] in
  exists fs' info,
    final_state "campaignEdits" t = Some (JObj fs')
    /\ assoc "product_info" fs' = Some (JObj info)
    /\ assoc "parsed_content" info = Some (JStr "Our product")
    /\ assoc "file_urls" info = Some (JArr [JStr "old.pdf"]).
Proof.
  cbn zeta.
  apply (upload_loses_the_file_name
           (JObj [("id", JStr "c1")]) (JStr "c1")
           [("name", JStr "Launch");
            ("product_info", JObj [("file_urls", JArr [JStr "old.pdf"])])]
           "deck.PDF" (JObj [("preview", JStr "Our product")]) (JStr "Our product")
           [JStr "old.pdf"] []); reflexivity.
Defined.

(* ================================================================== *)
(** * Selections: [toggleLead] and [toggleDay] *)
(* ================================================================== *)

Section ToggleLeadOrder.
Context {Id : Type} `{EqDecision Id}.
Implicit Types (leadId id : Id) (prev : list Id).

Lemma filter_filter_same (f : Id -> bool) prev :
  List.filter f (List.filter f prev) = List.filter f prev.
Proof.
  induction prev as [|x prev IH]; [reflexivity|]. cbn.
  destruct (f x) eqn:Hx; cbn; rewrite ?Hx, IH; reflexivity.
Qed.

(** X22.  On any selection, duplicates or not, [toggleLead] leaves the
    other ids as they were, in order and number; the toggled id is gone
    altogether when it was selected, and occurs once when it was not. *)
Theorem toggleLead_keeps_the_others leadId prev :
  let others := List.filter (fun id => negb (bool_decide (id = leadId))) in
  let copies := List.filter (fun id => bool_decide (id = leadId)) in
  others (toggleLead leadId prev) = others prev
  /\ length (copies (toggleLead leadId prev))
     = if includes leadId prev then 0%nat else 1%nat.
Proof.
  cbn zeta. unfold toggleLead. destruct (includes leadId prev) eqn:Hinc.
  - split; [apply filter_filter_same|].
    induction prev as [|x prev IH]; [reflexivity|]. cbn.
    destruct (bool_decide (x = leadId)) eqn:Hx; cbn; rewrite ?Hx; [|cbn].
    + clear IH Hinc. induction prev as [|y prev IH]; [reflexivity|]. cbn.
      destruct (bool_decide (y = leadId)) eqn:Hy; cbn; rewrite ?Hy; exact IH.
    + apply IH. cbn in Hinc. rewrite Hx in Hinc. exact Hinc.
  - apply includes_not_In in Hinc. rewrite !List.filter_app. cbn.
    rewrite bool_decide_eq_true_2 by reflexivity. cbn. split.
    + apply app_nil_r.
    + rewrite length_app. cbn.
      replace (List.filter (fun id => bool_decide (id = leadId)) prev) with (@nil Id);
        [reflexivity|].
      symmetry. induction prev as [|x prev IH]; [reflexivity|]. cbn.
      destruct (bool_decide_reflect (x = leadId)) as [->|Hne].
      * exfalso. apply Hinc. left. reflexivity.
      * apply IH. intros Hin. apply Hinc. right. exact Hin.
Qed.
End ToggleLeadOrder.

(** X23.  [toggleDay] changes [sending_days] only: the day is chosen
    afterwards exactly when it was not before, the other days stay in
    order, and every other field of the schedule is kept. *)
Theorem toggleDay_changes_only_the_days
    (fs : list (string * json)) (items : list json) (day : string) (o : list outcome) :
  assoc "sending_days" fs = Some (JArr items) ->
  let chosen := existsb (fun d => strict_eq d (JStr day)) in
  let others := List.filter (fun d => negb (strict_eq d (JStr day))) in
  exists fs' days,
    trace (ScheduleBuilder.toggleDay (JObj fs) day) o = [ESet "schedule" (JObj fs')]
    /\ assoc "sending_days" fs' = Some (JArr days)
    /\ (forall k, k <> "sending_days" -> assoc k fs' = assoc k fs)
    /\ chosen days = negb (chosen items)
    /\ others days = others items.
Proof.
  intros Hdays. cbn zeta. unfold ScheduleBuilder.toggleDay. cbn. rewrite Hdays. cbn.
  eexists _, _. split; [reflexivity|]. split; [|split; [|split]].
  - rewrite assoc_spread_set. reflexivity.
  - intros k Hk. rewrite assoc_spread_set.
    destruct (String.eqb_spec k "sending_days"); [congruence | reflexivity].
  - destruct (existsb _ items) eqn:Hin; cbn.
    + clear. induction items as [|d items IH]; [reflexivity|]. cbn.
      destruct (strict_eq d (JStr day)) eqn:Hd; cbn; rewrite ?Hd; exact IH.
    + rewrite existsb_app. rewrite Hin. cbn. rewrite String.eqb_refl. reflexivity.
  - destruct (existsb _ items) eqn:Hin; cbn.
    + clear. induction items as [|d items IH]; [reflexivity|]. cbn.
      destruct (strict_eq d (JStr day)) eqn:Hd; cbn; rewrite ?Hd, IH; reflexivity.
    + rewrite List.filter_app. cbn. rewrite String.eqb_refl. cbn. apply app_nil_r.
Qed.

Lemma toggleDay_changes_only_the_days_witness :
  exists fs' days,
    trace (ScheduleBuilder.toggleDay
             (JObj [("timezone", JStr "UTC");
                    ("sending_days", JArr [JStr "Monday"; JStr "Friday"])])
             "Friday") []
      = [ESet "schedule" (JObj fs')]
    /\ assoc "sending_days" fs' = Some (JArr days)
    /\ (forall k, k <> "sending_days" ->
          assoc k fs' = assoc k [("timezone", JStr "UTC");
                                 ("sending_days", JArr [JStr "Monday"; JStr "Friday"])])
    /\ existsb (fun d => strict_eq d (JStr "Friday")) days = false
    /\ List.filter (fun d => negb (strict_eq d (JStr "Friday"))) days = [JStr "Monday"].
Proof.
  apply (toggleDay_changes_only_the_days
           [("timezone", JStr "UTC");
            ("sending_days", JArr [JStr "Monday"; JStr "Friday"])]
           [JStr "Monday"; JStr "Friday"] "Friday" []).
  reflexivity.
Defined.

(* ================================================================== *)
(** * ResearchPage, AnalyticsPage, [addStep] *)
(* ================================================================== *)

Lemma truthy_prefixed (p : string) (c : ascii) (x : string) :
  truthy (JStr (String c p +:+ x)) = true.
Proof. reflexivity. Qed.

(** X24.  Every request of [handleResearch] (both versions) is a
    [POST /api/research/persona] for the lead's id with a [linkedin_url]
    that is not empty or missing. *)
Theorem research_sends_a_url (lead : json) (o : list outcome) (rq : request) :
  In rq (requests (trace (body ResearchPage_handleResearch lead) o))
  \/ In rq (requests (trace (body ResearchPage_handleResearch_old lead) o)) ->
  rq_method rq = POST /\ rq_path rq = "/api/research/persona"
  /\ getq "lead_id" (rq_body rq) = getq "id" lead
  /\ truthy (getq "linkedin_url" (rq_body rq)) = true.
Proof.
  cbn [body]. unfold App.handleResearch, AppOld.handleResearch.
  autounfold with handlers. destruct lead; cbn;
    try (intros [[]|[]]).
  all: repeat (step; cbn).
  all: intros [H|H]; repeat (destruct H as [<-|H]); try contradiction;
    cbn; repeat split; try reflexivity; try assumption.
  all: unfold js_or;
    destruct (truthy (default JUndef (assoc "linkedin_url" fields))) eqn:Hurl;
    cbn in *; first [reflexivity | discriminate | assumption].
Qed.

Lemma research_sends_a_url_witness :
  let lead := JObj [("id", JStr "l1"); ("name", JStr "Ada Lovelace");
                    ("company", JStr "Analytical Engines")] in
  let rq := Request POST "/api/research/persona"
              (JObj [("lead_id", JStr "l1");
                     ("linkedin_url",
                      JStr "https://linkedin.com/search?q=Ada%20Lovelace%20Analytical%20Engines")])
              JUndef in
  requests (trace (body ResearchPage_handleResearch lead) []) = [rq]
  /\ truthy (getq "linkedin_url" (rq_body rq)) = true.
Proof.
  cbn zeta. split; [reflexivity|].
  apply (research_sends_a_url
           (JObj [("id", JStr "l1"); ("name", JStr "Ada Lovelace");
                  ("company", JStr "Analytical Engines")]) []).
  left. left. reflexivity.
Defined.

(** X25.  For a lead with a name, no LinkedIn URL and no company,
    [handleResearch] searches for the name followed by [undefined]. *)
Theorem research_without_company_searches_undefined
    (fs : list (string * json)) (name : string) (o : list outcome) :
  assoc "name" fs = Some (JStr name) -> name <> EmptyString ->
  truthy (default JUndef (assoc "linkedin_url" fs)) = false ->
  assoc "company" fs = None ->
  requests (trace (body ResearchPage_handleResearch (JObj fs)) o)
    = [Request POST "/api/research/persona"
         (JObj [("lead_id", default JUndef (assoc "id" fs));
                ("linkedin_url",
                 JStr ("https://linkedin.com/search?q="
                       +:+ encodeURIComponent (name +:+ " undefined")))])
         JUndef].
Proof.
  intros Hname Hne Hurl Hcompany. cbn [body]. unfold App.handleResearch.
  autounfold with handlers. cbn. rewrite Hname, Hcompany. cbn.
  unfold js_or. rewrite Hurl. cbn.
  destruct name as [|c name]; [congruence|]. cbn.
  destruct o as [|[d|e] o]; try reflexivity.
  cbn. repeat (case_match; cbn); reflexivity.
Qed.

Lemma research_without_company_searches_undefined_witness :
  requests (trace (body ResearchPage_handleResearch
                     (JObj [("id", JStr "l1"); ("name", JStr "Ada")])) [])
    = [Request POST "/api/research/persona"
         (JObj [("lead_id", JStr "l1");
                ("linkedin_url", JStr "https://linkedin.com/search?q=Ada%20undefined")])
         JUndef].
Proof.
  apply (research_without_company_searches_undefined
           [("id", JStr "l1"); ("name", JStr "Ada")] "Ada" []);
    [reflexivity | discriminate | reflexivity | reflexivity].
Defined.

(** X26.  When the backend resolves with insights, [generateInsights]
    shows as many as it received, each with [generated_at] set to the time
    of its turn and its other fields kept. *)
Theorem generateInsights_stamps_every_insight
    (iso_now : nat -> string) (data : json) (items : list json) (o : list outcome) :
  get "insights" data = Some (JArr items) ->
  exists shown,
    final_state "insights"
      (trace (body AnalyticsPage_generateInsights iso_now) (Resolved data :: o))
      = Some (JArr shown)
    /\ length shown = length items
    /\ forall k i, items !! k = Some i ->
         exists fs, shown !! k = Some (JObj fs)
                    /\ assoc "generated_at" fs = Some (JStr (iso_now k))
                    /\ forall key, key <> "generated_at" ->
                         assoc key fs = assoc key (spread i).
Proof.
  intros Hins. cbn [body]. unfold App.generateInsights. autounfold with handlers.
  cbn. rewrite Hins. cbn.
  eexists. unfold final_state. cbn. split.
  - rewrite lookup_insert_ne by discriminate. apply lookup_insert_eq.
  - split; [apply length_imap|].
    intros k i Hk. eexists. split; [|split].
    + rewrite list_lookup_imap, Hk. reflexivity.
    + rewrite assoc_spread_set. reflexivity.
    + intros key Hkey. rewrite assoc_spread_set.
      destruct (String.eqb_spec key "generated_at"); [congruence | reflexivity].
Qed.


Lemma generateInsights_stamps_every_insight_witness :
  exists shown,
    final_state "insights"
      (trace (body AnalyticsPage_generateInsights (fun _ => "2025-01-01T00:00:00.000Z"))
             [Resolved (JObj [("insights", JArr [JObj [("title", JStr "Reply rate")]])])])
      = Some (JArr shown)
    /\ length shown = 1%nat.
Proof.
  destruct (generateInsights_stamps_every_insight
              (fun _ => "2025-01-01T00:00:00.000Z")
              (JObj [("insights", JArr [JObj [("title", JStr "Reply rate")]])])
              [JObj [("title", JStr "Reply rate")]] [] eq_refl)
    as (shown & Hs & Hl & _).
  exists shown. split; assumption.
Defined.

(* ================================================================== *)
(** * SettingsPage: the keys that are sent *)
(* ================================================================== *)

(** X28.  [saveApiKeys] posts five keys and never the LinkedIn cookie of
    the form; a key left blank is sent as [undefined] (so left out of the
    JSON body), never as an empty string, and a key typed in is sent as it
    is. *)
Theorem saveApiKeys_sends_no_blank_key (apiKeys : App.apiKeysT) (o : list outcome) :
  exists payload,
    requests (trace (body SettingsPage_saveApiKeys apiKeys) o)
      = [Request POST "/api/settings/api-keys" (JObj payload) JUndef]
    /\ List.map fst payload
       = ["perplexity_key"; "openai_key"; "gemini_key"; "resend_key"; "phantombuster_key"]
    /\ List.map snd payload
       = List.map (fun typed => if String.eqb typed "" then JUndef else JStr typed)
           [App.ak_perplexity apiKeys; App.ak_openai apiKeys; App.ak_gemini apiKeys;
            App.ak_resend apiKeys; App.ak_phantombuster apiKeys]
    /\ Forall (fun kv => snd kv <> JStr "") payload.
Proof.
  eexists. split; [|split; [|split]].
  - cbn [body]. unfold App.saveApiKeys. autounfold with handlers.
    destruct o as [|[d|e] o]; reflexivity.
  - reflexivity.
  - cbn. unfold App.or_undefined, js_or. cbn.
    destruct (String.eqb (App.ak_perplexity apiKeys) ""),
             (String.eqb (App.ak_openai apiKeys) ""),
             (String.eqb (App.ak_gemini apiKeys) ""),
             (String.eqb (App.ak_resend apiKeys) ""),
             (String.eqb (App.ak_phantombuster apiKeys) ""); reflexivity.
  - repeat constructor; cbn; unfold App.or_undefined, js_or; cbn;
      match goal with
      | |- context [String.eqb ?x ""] => destruct (String.eqb_spec x "")
      end; cbn; congruence.
Qed.
